(** * arduino-vision: the Arduino tool layer ([arduino_tools.py])

    A shallow embedding of the board-deploy pipeline of the repository:
    board discovery, sketch writing, compilation, upload with its
    permission pre-flight, serial capture and the composed [deploy_code].

    Python values are embedded as follows.
    - [str] is a list of Unicode code points ([pystr]); literals of the
      source are written [lit "..."].
    - [dict] is an association list in insertion order ([pydict]).
    - Values that flow through dictionaries ([None], [bool], [int], [str],
      [list], [dict]) form the type [pyval]; it is also the image of
      [json.loads].  JSON numbers are integers here.
    - A call either returns or raises ([outcome]); a call that touches the
      outside world also yields the list of effects it performed ([M]).
    - The outside world (operating system, external commands, the Unicode
      tables and the JSON parser of the Python runtime) is a record of
      oracles, [Env]. *)

From Stdlib Require Import List ZArith NArith Bool String Ascii Lia.
Import ListNotations.

Set Warnings "-register-all".

Local Open Scope Z_scope.
Local Open Scope list_scope.

(* ================================================================= *)
(** ** Python strings *)

Module PyStr.

Definition pystr := list N.

Definition lit (s : string) : pystr :=
  map N_of_ascii (list_ascii_of_string s).

Definition nl : pystr := [10%N].

Fixpoint eqb (a b : pystr) : bool :=
  match a, b with
  | [], [] => true
  | x :: a', y :: b' => N.eqb x y && eqb a' b'
  | _, _ => false
  end.

Definition is_empty (s : pystr) : bool :=
  match s with [] => true | _ => false end.

(** [s.startswith(p)] *)
Fixpoint is_prefix (p s : pystr) : bool :=
  match p, s with
  | [], _ => true
  | x :: p', y :: s' => N.eqb x y && is_prefix p' s'
  | _ :: _, [] => false
  end.

(** [sub in s] for two strings. *)
Fixpoint contains (sub s : pystr) : bool :=
  is_prefix sub s ||
  match s with
  | [] => false
  | _ :: s' => contains sub s'
  end.

(** [sep.join(parts)] *)
Fixpoint join (sep : pystr) (parts : list pystr) : pystr :=
  match parts with
  | [] => []
  | [p] => p
  | p :: rest => p ++ sep ++ join sep rest
  end.

(** The characters [str.strip()] removes: [c.isspace()] of CPython. *)
Definition isspace (c : N) : bool :=
  ((9 <=? c) && (c <=? 13) || (28 <=? c) && (c <=? 32)
   || (c =? 133) || (c =? 160) || (c =? 5760)
   || (8192 <=? c) && (c <=? 8202)
   || (c =? 8232) || (c =? 8233) || (c =? 8239) || (c =? 8287)
   || (c =? 12288))%N.

Fixpoint lstrip (s : pystr) : pystr :=
  match s with
  | [] => []
  | c :: s' => if isspace c then lstrip s' else s
  end.

Definition strip (s : pystr) : pystr :=
  rev (lstrip (rev (lstrip s))).

(** Hexadecimal digits of a positive number, most significant first. *)
Definition hex_digit (d : N) : N :=
  (if d <? 10 then 48 + d else 87 + d)%N.

Fixpoint hex_digits_pos (fuel : nat) (n : N) (acc : pystr) : pystr :=
  match fuel with
  | O => acc
  | S f =>
      let acc' := hex_digit (n mod 16) :: acc in
      if (n / 16 =? 0)%N then acc' else hex_digits_pos f (n / 16) acc'
  end.

(** [hex(n)] *)
Definition hex (n : Z) : pystr :=
  let digits := hex_digits_pos (S (N.to_nat (N.log2 (Z.abs_N n))))
                               (Z.abs_N n) [] in
  if n <? 0 then lit "-0x" ++ digits else lit "0x" ++ digits.

End PyStr.
Import PyStr.

(* ================================================================= *)
(** ** Python values and dictionaries *)

Inductive pyval : Type :=
| PNone
| PBool (b : bool)
| PInt (n : Z)
| PStr (s : pystr)
| PList (l : list pyval)
| PDict (d : list (pystr * pyval)).

Definition pydict := list (pystr * pyval).

(** [k in d] and the lookup behind [d[k]] and [d.get(k)]. *)
Fixpoint dict_lookup (k : pystr) (d : pydict) : option pyval :=
  match d with
  | [] => None
  | (k', v) :: d' => if PyStr.eqb k k' then Some v else dict_lookup k d'
  end.

Definition has_key (k : pystr) (d : pydict) : bool :=
  match dict_lookup k d with Some _ => true | None => false end.

(** [bool(v)] *)
Definition truthy (v : pyval) : bool :=
  match v with
  | PNone => false
  | PBool b => b
  | PInt n => negb (n =? 0)
  | PStr s => negb (is_empty s)
  | PList l => match l with [] => false | _ => true end
  | PDict d => match d with [] => false | _ => true end
  end.

(** An optional text as a value: [None] or the [str]. *)
Definition str_or_none (s : option pystr) : pyval :=
  match s with Some t => PStr t | None => PNone end.

(* ================================================================= *)
(** ** Exceptions, outcomes and effects *)

Inductive exn_class : Type :=
| FileNotFoundError
| TimeoutExpired
| JSONDecodeError
| AttributeError
| TypeError
| KeyError
| IndexError
| SerialException
| OSError.

(** An exception: its class and the text [str(e)]. *)
Record exn : Type := mkExn { exn_cls : exn_class; exn_str : pystr }.

Inductive outcome (A : Type) : Type :=
| Ret (a : A)
| Raise (e : exn).
Arguments Ret {A} a.
Arguments Raise {A} e.

Definition obind {A B} (o : outcome A) (k : A -> outcome B) : outcome B :=
  match o with
  | Ret a => k a
  | Raise e => Raise e
  end.

(** What a call does to the outside world, in order. *)
Inductive event : Type :=
| ERun (argv : list pystr)          (* subprocess.run(argv, ...) *)
| EMkdir (path : pystr)             (* Path.mkdir(exist_ok=True) *)
| EWriteText (path content : pystr) (* Path.write_text(content) *)
| EPrint (msg : pystr).             (* print(msg) *)

Definition M (A : Type) : Type := (list event * outcome A)%type.

Definition ret {A} (a : A) : M A := ([], Ret a).
Definition emit (ev : event) : M unit := ([ev], Ret tt).
Definition liftO {A} (o : outcome A) : M A := ([], o).

Definition bind {A B} (m : M A) (k : A -> M B) : M B :=
  match m with
  | (t, Ret a) => let '(t', r) := k a in (t ++ t', r)
  | (t, Raise e) => (t, Raise e)
  end.

(** [try: m  except <handled>: h e]; an exception [handler] does not handle
    propagates. *)
Definition try_except {A} (m : M A) (handler : exn -> option (M A)) : M A :=
  match m with
  | (t, Ret a) => (t, Ret a)
  | (t, Raise e) =>
      match handler e with
      | Some h => let '(t', r) := h in (t ++ t', r)
      | None => (t, Raise e)
      end
  end.

Definition trace {A} (m : M A) : list event := fst m.
Definition result {A} (m : M A) : outcome A := snd m.

Declare Scope py_scope.
Delimit Scope py_scope with py.
Notation "x <- m ;; k" := (bind m (fun x => k))
  (at level 100, m at next level, right associativity) : py_scope.
Notation "m ;;; k" := (bind m (fun _ => k))
  (at level 100, right associativity) : py_scope.

Local Open Scope py_scope.

(* ================================================================= *)
(** ** The outside world *)

(** [subprocess.CompletedProcess] with [capture_output=True, text=True]. *)
Record completed_process : Type := mkCompleted {
  returncode : Z;
  stdout : pystr;
  stderr : pystr
}.

Inductive run_result : Type :=
| Completed (c : completed_process)
| RunRaises (e : exn).

(** The fields of [os.stat_result] the code reads. *)
Record stat_result : Type := mkStat {
  st_mode : Z;
  st_uid : Z;
  st_gid : Z
}.

(** The attributes of a pyserial [ListPortInfo] the code reads. *)
Record ListPortInfo : Type := mkPort {
  device : pystr;
  description : option pystr;
  hwid : pystr;
  vid : option Z;
  pid : option Z
}.

(** Every oracle answers from its arguments alone: a call of one of the
    functions below runs no command twice, and the two [os.stat] of the
    pre-flight check see the same device node. *)
Record Env : Type := mkEnv {
  (* the Python runtime *)
  str_isalnum : N -> bool;               (* c.isalnum() for a character *)
  str_lower : pystr -> pystr;            (* s.lower() *)
  json_loads : pystr -> option pyval;    (* None: JSONDecodeError *)
  (* module state fixed at import *)
  HAS_SERIAL : bool;
  SKETCH_DIR : pystr;
  (* the operating system *)
  comports : list ListPortInfo;             (* serial.tools.list_ports.comports() *)
  subprocess_run : list pystr -> run_result;
  os_stat : pystr -> outcome stat_result;
  os_getuid : Z;
  os_getgroups : list Z;
  path_mkdir : pystr -> option exn;      (* Some e: mkdir raises e *)
  path_write_text : pystr -> pystr -> option exn;
  (* the serial port and the event-loop clock, for read_serial *)
  serial_open : pystr -> Z -> option exn;     (* serial.Serial(port, baudrate) *)
  loop_time : nat -> Z;                       (* k-th reading of loop.time() *)
  serial_in_waiting : nat -> outcome Z;       (* ser.in_waiting at poll i *)
  serial_readline : nat -> outcome pystr      (* ser.readline().decode(...) at poll i *)
}.

Definition S_IWUSR : Z := 0x80.   (* 0o200 *)
Definition S_IWGRP : Z := 0x10.   (* 0o020 *)
Definition S_IWOTH : Z := 0x2.    (* 0o002 *)

(* ================================================================= *)
(** ** Operations on values *)

(** [type(v).__name__] *)
Definition type_name (v : pyval) : pystr :=
  match v with
  | PNone => lit "NoneType"
  | PBool _ => lit "bool"
  | PInt _ => lit "int"
  | PStr _ => lit "str"
  | PList _ => lit "list"
  | PDict _ => lit "dict"
  end.

(** [d[k]] on a dictionary. *)
Definition subscript (d : pydict) (k : pystr) : outcome pyval :=
  match dict_lookup k d with
  | Some v => Ret v
  | None => Raise (mkExn KeyError (lit "'" ++ k ++ lit "'"))
  end.

(** [v.get(k, dflt)]: only a dictionary has the method. *)
Definition py_get (v : pyval) (k : pystr) (dflt : pyval) : outcome pyval :=
  match v with
  | PDict d =>
      Ret (match dict_lookup k d with Some x => x | None => dflt end)
  | _ => Raise (mkExn AttributeError
                (lit "'" ++ type_name v
                 ++ lit "' object has no attribute 'get'"))
  end.

(** The items [for x in v] visits. *)
Definition py_iter (v : pyval) : outcome (list pyval) :=
  match v with
  | PList l => Ret l
  | PDict d => Ret (map (fun kv => PStr (fst kv)) d)
  | PStr s => Ret (map (fun c => PStr [c]) s)
  | _ => Raise (mkExn TypeError
                (lit "'" ++ type_name v ++ lit "' object is not iterable"))
  end.

Definition is_str (s : pystr) (v : pyval) : bool :=
  match v with PStr t => PyStr.eqb s t | _ => false end.

(** [needle in v] for a string [needle]. *)
Definition py_in (needle : pystr) (v : pyval) : outcome bool :=
  match v with
  | PStr s => Ret (contains needle s)
  | PList l => Ret (existsb (is_str needle) l)
  | PDict d => Ret (has_key needle d)
  | _ => Raise (mkExn TypeError
                (lit "argument of type '" ++ type_name v
                 ++ lit "' is not iterable"))
  end.

(** [v[0]] *)
Definition py_index0 (v : pyval) : outcome pyval :=
  match v with
  | PList (x :: _) => Ret x
  | PList [] => Raise (mkExn IndexError (lit "list index out of range"))
  | PStr (c :: _) => Ret (PStr [c])
  | PStr [] => Raise (mkExn IndexError (lit "string index out of range"))
  | PDict _ => Raise (mkExn KeyError (lit "0"))
  | _ => Raise (mkExn TypeError
                (lit "'" ++ type_name v
                 ++ lit "' object is not subscriptable"))
  end.

(** Set membership goes through [hash] and [==]: [True], [1] are one key,
    lists and dictionaries are unhashable. *)
Inductive hkey : Type :=
| HNone
| HInt (n : Z)
| HStr (s : pystr).

Definition hkey_eqb (a b : hkey) : bool :=
  match a, b with
  | HNone, HNone => true
  | HInt n, HInt m => n =? m
  | HStr s, HStr t => PyStr.eqb s t
  | _, _ => false
  end.

Definition py_hash_key (v : pyval) : outcome hkey :=
  match v with
  | PNone => Ret HNone
  | PBool b => Ret (HInt (if b then 1 else 0))
  | PInt n => Ret (HInt n)
  | PStr s => Ret (HStr s)
  | PList _ => Raise (mkExn TypeError (lit "unhashable type: 'list'"))
  | PDict _ => Raise (mkExn TypeError (lit "unhashable type: 'dict'"))
  end.

(* ================================================================= *)
(** ** The functions of [arduino_tools.py] *)

Section ArduinoTools.

Variable env : Env.

Definition msg_cli_missing : pystr :=
  lit "arduino-cli not found. Please install it first.".

(** [subprocess.run(argv, capture_output=True, text=True, timeout=...)] *)
Definition run (argv : list pystr) : M completed_process :=
  emit (ERun argv) ;;;
  liftO (match subprocess_run env argv with
         | Completed c => Ret c
         | RunRaises e => Raise e
         end).

(** *** fix_port_permissions *)

Definition fix_failed_message (port : pystr) : pystr :=
  lit "Auto-fix failed (sudo -n requires passwordless sudo)." ++ nl ++
  lit "Manual fix options:" ++ nl ++
  lit "  1. Quick fix (resets on unplug): sudo chmod a+rw " ++ port ++ nl ++
  lit "  2. Permanent fix: sudo usermod -a -G uucp $USER  then restart WSL" ++ nl ++
  lit "  3. Udev rule: sudo cp 99-usb-serial.rules /etc/udev/rules.d/ && sudo udevadm control --reload-rules && sudo udevadm trigger".

Definition fix_port_permissions (port : pystr) : M pydict :=
  try_except
    (result <- run [lit "sudo"; lit "-n"; lit "chmod"; lit "a+rw"; port] ;;
     if returncode result =? 0 then
       ret [(lit "success", PBool true);
            (lit "message", PStr (lit "Fixed permissions on " ++ port))]
     else
       ret [(lit "success", PBool false);
            (lit "message", PStr (fix_failed_message port))])
    (fun e =>
       Some (ret [(lit "success", PBool false);
                  (lit "message", PStr (exn_str e))])).

(** *** check_port_accessible *)

Definition check_port_accessible (port : pystr) : bool :=
  match
    obind (os_stat env port) (fun st0 =>
    let mode := st_mode st0 in
    let uid := os_getuid env in
    let gids := os_getgroups env in
    obind (os_stat env port) (fun st =>
    let owner_write :=
      (st_uid st =? uid) && negb (Z.land (st_mode st) S_IWUSR =? 0) in
    let group_write :=
      existsb (Z.eqb (st_gid st)) gids
      && negb (Z.land (st_mode st) S_IWGRP =? 0) in
    let world_write := negb (Z.land (st_mode st) S_IWOTH =? 0) in
    Ret (owner_write || group_write || world_write)))
  with
  | Ret b => b
  | Raise _ => false
  end.

(** *** _permission_denied_hint *)

Definition _permission_denied_hint (port : pystr) : pystr :=
  lit "Permission denied on " ++ port ++ lit "." ++ nl ++
  lit "Fix options (run in WSL terminal):" ++ nl ++
  lit "  Quick (resets on unplug):  sudo chmod a+rw " ++ port ++ nl ++
  lit "  Permanent (needs re-login): sudo usermod -a -G uucp $USER" ++ nl ++
  lit "  Permanent (udev rule):     sudo cp 99-usb-serial.rules /etc/udev/rules.d/ && sudo udevadm control --reload-rules && sudo udevadm trigger".

(** *** list_arduino_boards *)

Definition ARDUINO_VIDS : list Z :=
  [ 0x2341;   (* Arduino LLC (official) *)
    0x1a86;   (* QinHeng CH340/CH341 *)
    0x0403;   (* FTDI *)
    0x10c4;   (* Silicon Labs CP210x *)
    0x067b ]. (* Prolific PL2303 *)

Definition is_arduino (port : ListPortInfo) : bool :=
  match vid port with
  | Some v => existsb (Z.eqb v) ARDUINO_VIDS
  | None => false
  end
  || match description port with
     | Some d => negb (is_empty d) && contains (lit "arduino") (str_lower env d)
     | None => false
     end.

(** [hex(n) if n else None] *)
Definition hex_or_none (n : option Z) : pyval :=
  match n with
  | Some v => if v =? 0 then PNone else PStr (hex v)
  | None => PNone
  end.

Definition serial_record (port : ListPortInfo) : pydict :=
  [ (lit "port", PStr (device port));
    (lit "description",
       PStr (match description port with
             | Some (c :: d) => c :: d
             | _ => lit "Unknown Arduino"
             end));
    (lit "hwid", PStr (hwid port));
    (lit "vid", hex_or_none (vid port));
    (lit "pid", hex_or_none (pid port)) ].

(** Method 1: the loop over [comports()]. *)
Fixpoint serial_records (ports : list ListPortInfo) : list pydict :=
  match ports with
  | [] => []
  | port :: rest =>
      if is_arduino port then serial_record port :: serial_records rest
      else serial_records rest
  end.

(** One turn of the loop over [detected_ports]: [None] is [continue]. *)
Definition cli_record (detected : pyval) : outcome (option pydict) :=
  obind (py_get detected (lit "port") (PDict [])) (fun port_info =>
  obind (py_get port_info (lit "address") (PStr [])) (fun address =>
  if negb (truthy address) then Ret None else
  obind (py_get port_info (lit "protocol") (PStr [])) (fun protocol =>
  obind (if truthy protocol
         then obind (py_in (lit "serial") protocol) (fun b => Ret (negb b))
         else Ret false) (fun skip =>
  if skip then Ret None else
  obind (py_get detected (lit "matching_boards") PNone) (fun mb =>
  if truthy mb then
    obind (py_index0 mb) (fun board_info =>
    obind (py_get board_info (lit "name") (PStr (lit "Unknown Board")))
          (fun name =>
    obind (py_get board_info (lit "fqbn") (PStr (lit "arduino:avr:uno")))
          (fun fqbn =>
    Ret (Some [ (lit "port", address);
                (lit "board_name", name);
                (lit "fqbn", fqbn);
                (lit "protocol", protocol) ]))))
  else
    Ret (Some [ (lit "port", address);
                (lit "board_name", PStr (lit "Arduino (clone/unrecognised)"));
                (lit "fqbn", PStr (lit "arduino:avr:uno"));
                (lit "protocol", protocol) ])))))).

(** Method 2: the loop over [detected_ports], appending to the list. *)
Fixpoint cli_records (items : list pyval) (arduino_boards : list pydict)
  : outcome (list pydict) :=
  match items with
  | [] => Ret arduino_boards
  | detected :: rest =>
      obind (cli_record detected) (fun r =>
      match r with
      | Some board => cli_records rest (arduino_boards ++ [board])
      | None => cli_records rest arduino_boards
      end)
  end.

(** The deduplication loop; [seen_ports] holds the keys of the set. *)
Fixpoint dedupe (boards : list pydict) (seen_ports : list hkey)
  : outcome (list pydict) :=
  match boards with
  | [] => Ret []
  | board :: rest =>
      obind (subscript board (lit "port")) (fun p =>
      obind (py_hash_key p) (fun k =>
      if existsb (hkey_eqb k) seen_ports then dedupe rest seen_ports
      else obind (dedupe rest (k :: seen_ports)) (fun unique_boards =>
           Ret (board :: unique_boards))))
  end.

(** The [try] block of method 2.  The three handled exceptions can only
    come from [subprocess.run] and [json.loads], that is before the first
    append, so a handler continues with the list as it was. *)
Definition cli_detection (arduino_boards : list pydict) : M (list pydict) :=
  try_except
    (result <- run [lit "arduino-cli"; lit "board"; lit "list";
                    lit "--format"; lit "json"] ;;
     if returncode result =? 0 then
       data <- liftO (match json_loads env (stdout result) with
                      | Some v => Ret v
                      | None => Raise (mkExn JSONDecodeError
                                         (lit "Expecting value"))
                      end) ;;
       ports <- liftO (py_get data (lit "detected_ports") (PList [])) ;;
       items <- liftO (py_iter ports) ;;
       liftO (cli_records items arduino_boards)
     else ret arduino_boards)
    (fun e =>
       match exn_cls e with
       | FileNotFoundError =>
           Some (emit (EPrint (lit "Warning: arduino-cli not found. Install it for full functionality.")) ;;;
                 ret arduino_boards)
       | TimeoutExpired =>
           Some (emit (EPrint (lit "Warning: arduino-cli timed out")) ;;;
                 ret arduino_boards)
       | JSONDecodeError =>
           Some (emit (EPrint (lit "Warning: Could not parse arduino-cli output")) ;;;
                 ret arduino_boards)
       | _ => None
       end).

Definition list_arduino_boards : M (list pydict) :=
  let arduino_boards :=
    if HAS_SERIAL env then serial_records (comports env) else [] in
  arduino_boards <- cli_detection arduino_boards ;;
  liftO (dedupe arduino_boards []).


(** *** write_sketch *)

(** The sanitized name of [write_sketch]. *)
Definition safe_name (name : pystr) : pystr :=
  let safe_name :=
    str_lower env
      (filter (fun c => str_isalnum env c || (c =? 95)%N) name) in
  if is_empty safe_name then lit "sketch" else safe_name.

(** [folder / child] for a child that holds no separator. *)
Definition path_child (folder child : pystr) : pystr :=
  folder ++ lit "/" ++ child.

Definition write_sketch (code name : pystr) : M pystr :=
  let safe_name := safe_name name in
  let sketch_folder := path_child (SKETCH_DIR env) safe_name in
  emit (EMkdir sketch_folder) ;;;
  liftO (match path_mkdir env sketch_folder with
         | Some e => Raise e
         | None => Ret tt
         end) ;;;
  let sketch_file := path_child sketch_folder (safe_name ++ lit ".ino") in
  emit (EWriteText sketch_file code) ;;;
  liftO (match path_write_text env sketch_file code with
         | Some e => Raise e
         | None => Ret tt
         end) ;;;
  ret sketch_folder.

(** *** compile_sketch *)

Definition compile_argv (sketch_path fqbn : pystr) : list pystr :=
  [lit "arduino-cli"; lit "compile"; lit "--fqbn"; fqbn; sketch_path].

Definition compile_sketch (sketch_path fqbn : pystr) : M pydict :=
  try_except
    (result <- run (compile_argv sketch_path fqbn) ;;
     ret [ (lit "success", PBool (returncode result =? 0));
           (lit "output", PStr (stdout result));
           (lit "errors", if negb (returncode result =? 0)
                          then PStr (stderr result) else PNone) ])
    (fun e =>
       match exn_cls e with
       | FileNotFoundError =>
           Some (ret [ (lit "success", PBool false);
                       (lit "output", PStr []);
                       (lit "errors", PStr msg_cli_missing) ])
       | TimeoutExpired =>
           Some (ret [ (lit "success", PBool false);
                       (lit "output", PStr []);
                       (lit "errors",
                          PStr (lit "Compilation timed out after 120 seconds.")) ])
       | _ => None
       end).

(** *** upload_sketch *)

Definition upload_argv (sketch_path port fqbn : pystr) : list pystr :=
  [lit "arduino-cli"; lit "upload"; lit "-p"; port; lit "--fqbn"; fqbn;
   sketch_path].

(** The [try] block of [upload_sketch]. *)
Definition upload_run (sketch_path port fqbn : pystr) : M pydict :=
  try_except
    (result <- run (upload_argv sketch_path port fqbn) ;;
     let success := returncode result =? 0 in
     let errors := if negb success then Some (stderr result) else None in
     (* Surface permission errors with actionable hint *)
     let errors :=
       match errors with
       | Some s =>
           if negb success && negb (is_empty s)
              && contains (lit "permission denied") (str_lower env s)
           then Some (_permission_denied_hint port ++ nl ++ nl
                      ++ lit "Original error:" ++ nl ++ s)
           else errors
       | None => errors
       end in
     ret [ (lit "success", PBool success);
           (lit "output", PStr (stdout result));
           (lit "errors", str_or_none errors) ])
    (fun e =>
       match exn_cls e with
       | FileNotFoundError =>
           Some (ret [ (lit "success", PBool false);
                       (lit "output", PStr []);
                       (lit "errors", PStr msg_cli_missing) ])
       | TimeoutExpired =>
           Some (ret [ (lit "success", PBool false);
                       (lit "output", PStr []);
                       (lit "errors",
                          PStr (lit "Upload timed out after 60 seconds.")) ])
       | _ => None
       end).

Definition upload_sketch (sketch_path port fqbn : pystr) : M pydict :=
  if negb (check_port_accessible port) then
    fix_result <- fix_port_permissions port ;;
    ok <- liftO (subscript fix_result (lit "success")) ;;
    if truthy ok then upload_run sketch_path port fqbn
    else ret [ (lit "success", PBool false);
               (lit "output", PStr []);
               (lit "errors", PStr (_permission_denied_hint port)) ]
  else upload_run sketch_path port fqbn.

(** *** deploy_code *)

Definition deploy_code (code port name fqbn : pystr) : M pydict :=
  (* Step 1: Write *)
  match write_sketch code name with
  | (t1, Raise e) =>
      (t1, Ret [ (lit "success", PBool false);
                 (lit "stage", PStr (lit "write"));
                 (lit "error", PStr (exn_str e)) ])
  | (t1, Ret sketch_path) =>
      bind (t1, Ret tt) (fun _ =>
      (* Step 2: Compile *)
      compile_result <- compile_sketch sketch_path fqbn ;;
      ok <- liftO (subscript compile_result (lit "success")) ;;
      if negb (truthy ok) then
        err <- liftO (subscript compile_result (lit "errors")) ;;
        ret [ (lit "success", PBool false);
              (lit "stage", PStr (lit "compile"));
              (lit "error", err);
              (lit "sketch_path", PStr sketch_path) ]
      else
      (* Step 3: Upload *)
      upload_result <- upload_sketch sketch_path port fqbn ;;
      ok <- liftO (subscript upload_result (lit "success")) ;;
      if negb (truthy ok) then
        err <- liftO (subscript upload_result (lit "errors")) ;;
        ret [ (lit "success", PBool false);
              (lit "stage", PStr (lit "upload"));
              (lit "error", err);
              (lit "sketch_path", PStr sketch_path) ]
      else
        ret [ (lit "success", PBool true);
              (lit "message", PStr (lit "Code deployed successfully!"));
              (lit "sketch_path", PStr sketch_path);
              (lit "port", PStr port) ])
  end.

(** *** read_serial *)

Definition no_output : pystr := lit "No serial output received".

(** One turn of the polling loop on the collected lines: [ser.in_waiting]
    may raise; anything [readline], [decode] or [strip] raise is dropped. *)
Definition poll_once (i : nat) (output_lines : list pystr)
  : outcome (list pystr) :=
  obind (serial_in_waiting env i) (fun waiting =>
  if negb (waiting =? 0) then
    match serial_readline env i with
    | Ret raw =>
        let line := strip raw in
        if negb (is_empty line) then Ret (output_lines ++ [line])
        else Ret output_lines
    | Raise _ => Ret output_lines
    end
  else Ret output_lines).

(** The [while loop.time() < end_time] loop; poll [i] reads the clock for
    the [(i+1)]-th time.  [None]: the fuel ran out before the loop ended. *)
Fixpoint poll_loop (fuel : nat) (i : nat) (end_time : Z)
    (output_lines : list pystr) : option (outcome (list pystr)) :=
  match fuel with
  | O => None
  | S fuel' =>
      if loop_time env (S i) <? end_time then
        match poll_once i output_lines with
        | Ret lines' => poll_loop fuel' (S i) end_time lines'
        | Raise e => Some (Raise e)
        end
      else Some (Ret output_lines)
  end.

(** The two [except] clauses of [read_serial]. *)
Definition serial_error_report (e : exn) : pystr :=
  match exn_cls e with
  | SerialException => lit "Serial error: " ++ exn_str e
  | _ => lit "Error reading serial: " ++ exn_str e
  end.

(** Clock readings and [duration] are integers in one tick unit: the order
    of the source's float readings is kept, a duration of [float('inf')] or
    NaN is not represented.  Nothing below states that the loop ends for
    every duration; results are stated for the runs that end. *)
Definition read_serial (fuel : nat) (port : pystr) (duration baudrate : Z)
  : option pystr :=
  if negb (HAS_SERIAL env) then Some (lit "Error: pyserial not installed")
  else
    match serial_open env port baudrate with
    | Some e => Some (serial_error_report e)
    | None =>
        let end_time := loop_time env 0 + duration in
        match poll_loop fuel 0 end_time [] with
        | None => None
        | Some (Raise e) => Some (serial_error_report e)
        | Some (Ret output_lines) =>
            Some (match output_lines with
                  | [] => no_output
                  | _ => join nl output_lines
                  end)
        end
    end.

End ArduinoTools.

(* ================================================================= *)
(** ** Observations on results and traces *)

(** The stub-uploader call counter of the test scenarios: how many times
    [arduino-cli upload ...] was run. *)
Definition is_upload_call (ev : event) : bool :=
  match ev with
  | ERun (prog :: cmd :: _) =>
      PyStr.eqb prog (lit "arduino-cli") && PyStr.eqb cmd (lit "upload")
  | _ => false
  end.

Definition upload_calls (t : list event) : nat :=
  List.length (filter is_upload_call t).

(** The shape every compile or upload result has: a boolean [success], an
    [output] text, and [errors] that is a text exactly when [success] is
    false and [None] otherwise. *)
Inductive operation_result : pydict -> Prop :=
| op_succeeded (output : pystr) :
    operation_result [ (lit "success", PBool true);
                       (lit "output", PStr output);
                       (lit "errors", PNone) ]
| op_failed (output errors : pystr) :
    operation_result [ (lit "success", PBool false);
                       (lit "output", PStr output);
                       (lit "errors", PStr errors) ].

(** The invariant of an Operation Result: both fields are there, and
    [errors] is not [None] exactly when [success] is [False]. *)
Definition errors_iff_failure (d : pydict) : Prop :=
  exists success errors,
    dict_lookup (lit "success") d = Some (PBool success)
    /\ dict_lookup (lit "errors") d = Some errors
    /\ (errors <> PNone <-> success = false).

(** The command line of the privilege-escalation fix. *)
Definition chmod_argv (port : pystr) : list pystr :=
  [lit "sudo"; lit "-n"; lit "chmod"; lit "a+rw"; port].

(** The errors text of a failed upload whose message names a permission
    problem. *)
Definition hinted_errors (port raw : pystr) : pystr :=
  _permission_denied_hint port ++ nl ++ nl ++ lit "Original error:" ++ nl
  ++ raw.

(** Whether the privilege-escalation fix reports success. *)
Definition fix_succeeds (env : Env) (port : pystr) : bool :=
  match result (fix_port_permissions env port) with
  | Ret d =>
      match dict_lookup (lit "success") d with
      | Some v => truthy v
      | None => false
      end
  | Raise _ => false
  end.

(** The remediation options of the hint, as they are spelled for [port]. *)
Definition option_chmod (port : pystr) : pystr :=
  lit "sudo chmod a+rw " ++ port.
Definition option_group : pystr :=
  lit "sudo usermod -a -G uucp $USER".
Definition option_udev : pystr :=
  lit "sudo cp 99-usb-serial.rules /etc/udev/rules.d/".

(** The folder [write_sketch] writes for [name], and the file in it. *)
Definition sketch_folder (env : Env) (name : pystr) : pystr :=
  path_child (SKETCH_DIR env) (safe_name env name).

Definition sketch_file (env : Env) (name : pystr) : pystr :=
  path_child (sketch_folder env name) (safe_name env name ++ lit ".ino").

(** The dictionaries [deploy_code] returns. *)
Definition stage_failure (stage : pystr) (error : pyval) (sketch_path : pystr)
  : pydict :=
  [ (lit "success", PBool false);
    (lit "stage", PStr stage);
    (lit "error", error);
    (lit "sketch_path", PStr sketch_path) ].

Definition write_failure (error : pystr) : pydict :=
  [ (lit "success", PBool false);
    (lit "stage", PStr (lit "write"));
    (lit "error", PStr error) ].

Definition deployed (sketch_path port : pystr) : pydict :=
  [ (lit "success", PBool true);
    (lit "message", PStr (lit "Code deployed successfully!"));
    (lit "sketch_path", PStr sketch_path);
    (lit "port", PStr port) ].

Definition succeeded (output : pystr) : pydict :=
  [ (lit "success", PBool true);
    (lit "output", PStr output);
    (lit "errors", PNone) ].

Definition failed (output errors : pystr) : pydict :=
  [ (lit "success", PBool false);
    (lit "output", PStr output);
    (lit "errors", PStr errors) ].

(** The runs of the pipeline WRITE, COMPILE, UPLOAD: each stage starts
    only when the one before it has succeeded, and the effects of the
    stages that ran follow each other in that order. *)
Inductive pipeline (env : Env) (code port name fqbn : pystr)
  : M pydict -> Prop :=
| failed_write t1 e :
    write_sketch env code name = (t1, Raise e) ->
    pipeline env code port name fqbn (t1, Ret (write_failure (exn_str e)))
| raised_compile t1 sketch_path t2 e :
    write_sketch env code name = (t1, Ret sketch_path) ->
    compile_sketch env sketch_path fqbn = (t2, Raise e) ->
    pipeline env code port name fqbn (t1 ++ t2, Raise e)
| failed_compile t1 sketch_path t2 output errors :
    write_sketch env code name = (t1, Ret sketch_path) ->
    compile_sketch env sketch_path fqbn = (t2, Ret (failed output errors)) ->
    pipeline env code port name fqbn
      (t1 ++ t2, Ret (stage_failure (lit "compile") (PStr errors) sketch_path))
| raised_upload t1 sketch_path t2 output t3 e :
    write_sketch env code name = (t1, Ret sketch_path) ->
    compile_sketch env sketch_path fqbn = (t2, Ret (succeeded output)) ->
    upload_sketch env sketch_path port fqbn = (t3, Raise e) ->
    pipeline env code port name fqbn (t1 ++ t2 ++ t3, Raise e)
| failed_upload t1 sketch_path t2 output t3 output' errors :
    write_sketch env code name = (t1, Ret sketch_path) ->
    compile_sketch env sketch_path fqbn = (t2, Ret (succeeded output)) ->
    upload_sketch env sketch_path port fqbn
    = (t3, Ret (failed output' errors)) ->
    pipeline env code port name fqbn
      (t1 ++ t2 ++ t3,
       Ret (stage_failure (lit "upload") (PStr errors) sketch_path))
| all_stages_ok t1 sketch_path t2 output t3 output' :
    write_sketch env code name = (t1, Ret sketch_path) ->
    compile_sketch env sketch_path fqbn = (t2, Ret (succeeded output)) ->
    upload_sketch env sketch_path port fqbn = (t3, Ret (succeeded output')) ->
    pipeline env code port name fqbn
      (t1 ++ t2 ++ t3, Ret (deployed sketch_path port)).

(** The record appended for a port the external tool reports. *)
Definition tool_record (address name fqbn protocol : pyval) : pydict :=
  [ (lit "port", address);
    (lit "board_name", name);
    (lit "fqbn", fqbn);
    (lit "protocol", protocol) ].

Definition default_fqbn : pystr := lit "arduino:avr:uno".

(** The [fqbn] the tool reports for the first board matching [detected]. *)
Definition reported_fqbn (detected : pyval) (fqbn : pyval) : Prop :=
  exists mb first,
    py_get detected (lit "matching_boards") PNone = Ret mb
    /\ truthy mb = true
    /\ py_index0 mb = Ret (PDict first)
    /\ dict_lookup (lit "fqbn") first = Some fqbn.

(** What the sanitizer lets through before lowercasing. *)
Definition kept (env : Env) (c : N) : bool :=
  str_isalnum env c || (c =? 95)%N.

(** Lowercase ASCII letters, digits and the underscore. *)
Definition lower_alnum_underscore (c : N) : bool :=
  ((48 <=? c) && (c <=? 57) || (97 <=? c) && (c <=? 122) || (c =? 95))%N.

Definition ascii_isalnum (c : N) : bool :=
  ((48 <=? c) && (c <=? 57) || (65 <=? c) && (c <=? 90)
   || (97 <=? c) && (c <=? 122))%N.

Definition ascii_lower_char (c : N) : N :=
  (if (65 <=? c) && (c <=? 90) then c + 32 else c)%N.

(** The outcomes of the external tool the code provides for: the tool is
    missing, it times out, it exits non-zero, or its output is not JSON. *)
Definition tool_skipped (env : Env) : Prop :=
  match subprocess_run env [lit "arduino-cli"; lit "board"; lit "list";
                            lit "--format"; lit "json"] with
  | RunRaises e =>
      exn_cls e = FileNotFoundError \/ exn_cls e = TimeoutExpired
  | Completed c =>
      returncode c <> 0 \/ json_loads env (stdout c) = None
  end.

(** The key under which the deduplication set holds a record's port. *)
Definition port_key (board : pydict) : option hkey :=
  match dict_lookup (lit "port") board with
  | Some p => match py_hash_key p with Ret k => Some k | Raise _ => None end
  | None => None
  end.

(** Method 1 of [list_arduino_boards] on its own. *)
Definition heuristic_records (env : Env) : list pydict :=
  if HAS_SERIAL env then serial_records env (comports env) else [].

(** The lines the polling loop has collected after polls [0 .. n-1], when
    none of them raised from [ser.in_waiting]. *)
Definition line_at (env : Env) (i : nat) : list pystr :=
  match serial_in_waiting env i with
  | Ret waiting =>
      if negb (waiting =? 0) then
        match serial_readline env i with
        | Ret raw => if negb (is_empty (strip raw)) then [strip raw] else []
        | Raise _ => []
        end
      else []
  | Raise _ => []
  end.

Definition window_lines (env : Env) (n : nat) : list pystr :=
  flat_map (line_at env) (seq 0 n).

(** What the reader returns for the lines of a completed window. *)
Definition joined_or_sentinel (output_lines : list pystr) : pystr :=
  match output_lines with
  | [] => no_output
  | _ => join nl output_lines
  end.

(* ================================================================= *)
(** ** Sample worlds *)

Module Samples.

(** Inputs of the scenarios. *)
Definition blink : pystr := lit "void setup() {} void loop() {}".
Definition acm0 : pystr := lit "/dev/ttyACM0".
Definition blink_name : pystr := lit "Blink Test".
Definition uno : pystr := lit "arduino:avr:uno".
Definition blink_folder : pystr := lit "/app/sketches/blinktest".
Definition compiler_error : pystr :=
  lit "sketch.ino:1:1: error: expected declaration".
Definition uploader_error : pystr :=
  lit "avrdude: ser_open(): Permission denied".

(** Character tables on ASCII, extended by U+0130 (LATIN CAPITAL LETTER I
    WITH DOT ABOVE), whose lowercase is U+0069 U+0307. *)
Definition sample_isalnum (c : N) : bool :=
  ((48 <=? c) && (c <=? 57) || (65 <=? c) && (c <=? 90)
   || (97 <=? c) && (c <=? 122) || (c =? 0x130))%N.

Definition sample_lower_char (c : N) : pystr :=
  (if (65 <=? c) && (c <=? 90) then [c + 32]
   else if c =? 0x130 then [0x69; 0x307]
   else [c])%N.

Definition sample_lower (s : pystr) : pystr := flat_map sample_lower_char s.

Definition not_found : exn :=
  mkExn FileNotFoundError (lit "No such file or directory: 'arduino-cli'").

(** A world given by its serial ports, its external commands, the parse of
    the tool's output, the status of device nodes and what the serial port
    delivers; directories and files can be written. *)
Definition world (ports : list ListPortInfo)
    (run : list pystr -> run_result) (loads : pystr -> option pyval)
    (stat : pystr -> outcome stat_result)
    (clock : nat -> Z) (waiting : nat -> outcome Z)
    (readline : nat -> outcome pystr) : Env :=
  {| str_isalnum := sample_isalnum;
     str_lower := sample_lower;
     json_loads := loads;
     HAS_SERIAL := true;
     SKETCH_DIR := lit "/app/sketches";
     comports := ports;
     subprocess_run := run;
     os_stat := stat;
     os_getuid := 1000;
     os_getgroups := [1000];
     path_mkdir := fun _ => None;
     path_write_text := fun _ _ => None;
     serial_open := fun _ _ => None;
     loop_time := clock;
     serial_in_waiting := waiting;
     serial_readline := readline |}.

Definition world_rw : pystr -> outcome stat_result :=
  fun _ => Ret (mkStat 0x21b6 0 20).      (* crw-rw-rw- root:dialout *)
Definition root_only : pystr -> outcome stat_result :=
  fun _ => Ret (mkStat 0x21b0 0 20).      (* crw-rw---- root:dialout *)

Definition quiet_clock : nat -> Z := fun k => Z.of_nat k.
Definition no_bytes : nat -> outcome Z := fun _ => Ret 0.
Definition no_line : nat -> outcome pystr := fun _ => Ret [].

(** Commands: every [arduino-cli] sub-command exits with [rc_of cmd] and
    prints [err_of cmd] on standard error; [sudo] is refused. *)
Definition cli (rc_of : pystr -> Z) (out_of err_of : pystr -> pystr)
  : list pystr -> run_result :=
  fun argv =>
    match argv with
    | prog :: cmd :: _ =>
        if PyStr.eqb prog (lit "arduino-cli")
        then Completed (mkCompleted (rc_of cmd) (out_of cmd) (err_of cmd))
        else Completed (mkCompleted 1 [] (lit "sudo: a password is required"))
    | _ => RunRaises not_found
    end.

Definition no_cli : list pystr -> run_result :=
  fun argv =>
    match argv with
    | prog :: _ =>
        if PyStr.eqb prog (lit "arduino-cli") then RunRaises not_found
        else Completed (mkCompleted 1 [] (lit "sudo: a password is required"))
    | [] => RunRaises not_found
    end.

Definition plain (run : list pystr -> run_result)
    (stat : pystr -> outcome stat_result) : Env :=
  world [] run (fun _ => None) stat quiet_clock no_bytes no_line.

(** Everything works. *)
Definition env_ok : Env :=
  plain (cli (fun _ => 0) (fun _ => lit "done") (fun _ => [])) world_rw.

(** The compiler rejects the sketch. *)
Definition env_compile_fails : Env :=
  plain (cli (fun cmd => if PyStr.eqb cmd (lit "compile") then 1 else 0)
             (fun _ => [])
             (fun _ => compiler_error))
        world_rw.

(** The uploader is refused by the device although the node looked
    writable. *)
Definition env_upload_denied : Env :=
  plain (cli (fun cmd => if PyStr.eqb cmd (lit "upload") then 1 else 0)
             (fun _ => [])
             (fun _ => uploader_error))
        world_rw.

(** The device node is not writable and sudo needs a password. *)
Definition env_port_locked : Env :=
  plain (cli (fun _ => 0) (fun _ => []) (fun _ => [])) root_only.

(** The sketch directory cannot be created. *)
Definition env_readonly_disk : Env :=
  {| str_isalnum := sample_isalnum;
     str_lower := sample_lower;
     json_loads := fun _ => None;
     HAS_SERIAL := true;
     SKETCH_DIR := lit "/app/sketches";
     comports := [];
     subprocess_run := cli (fun _ => 0) (fun _ => []) (fun _ => []);
     os_stat := world_rw;
     os_getuid := 1000;
     os_getgroups := [1000];
     path_mkdir := fun _ => Some (mkExn OSError (lit "[Errno 30] Read-only file system"));
     path_write_text := fun _ _ => None;
     serial_open := fun _ _ => None;
     loop_time := quiet_clock;
     serial_in_waiting := no_bytes;
     serial_readline := no_line |}.

Definition uno_port : ListPortInfo :=
  mkPort (lit "/dev/ttyACM0") (Some (lit "Arduino Uno"))
         (lit "USB VID:PID=2341:0043") (Some 0x2341) (Some 0x43).

(** One official board on USB, no [arduino-cli] installed. *)
Definition env_usb_only : Env :=
  world [uno_port] no_cli (fun _ => None) world_rw
        quiet_clock no_bytes no_line.

(** The tool's report of one detected serial port at [address]. *)
Definition detected_port (address : pystr) (boards : list pyval) : pyval :=
  PDict [ (lit "matching_boards", PList boards);
          (lit "port", PDict [ (lit "address", PStr address);
                               (lit "protocol", PStr (lit "serial")) ]) ].

Definition uno_match : pyval :=
  PDict [ (lit "name", PStr (lit "Arduino Uno"));
          (lit "fqbn", PStr (lit "arduino:avr:uno")) ].

(** The board is seen by both sources; the tool also sees a clone. *)
Definition env_both_sources : Env :=
  world [uno_port]
        (cli (fun _ => 0) (fun _ => lit "{...}") (fun _ => []))
        (fun _ => Some (PDict [ (lit "detected_ports",
                     PList [ detected_port (lit "/dev/ttyACM0") [uno_match];
                             detected_port (lit "/dev/ttyUSB0") [] ]) ]))
        world_rw quiet_clock no_bytes no_line.

(** An [arduino-cli] that prints a top-level JSON array, here the empty
    one: [[]]. *)
Definition env_array_output : Env :=
  world []
        (cli (fun _ => 0) (fun _ => lit "[]") (fun _ => []))
        (fun s => if PyStr.eqb s (lit "[]") then Some (PList []) else None)
        world_rw quiet_clock no_bytes no_line.

(** The device disappears while the reader polls: [ser.in_waiting] raises
    at the first poll. *)
Definition env_unplugged : Env :=
  world [] no_cli (fun _ => None) world_rw
        (fun k => Z.of_nat k)
        (fun _ => Raise (mkExn OSError (lit "[Errno 5] Input/output error")))
        no_line.

(** Two lines arrive in a window of three polls. *)
Definition env_two_lines : Env :=
  world [] no_cli (fun _ => None) world_rw
        (fun k => Z.of_nat k)
        (fun i => match i with 1%nat => Ret 0 | _ => Ret 7 end)
        (fun i => match i with
                  | 0%nat => Ret (lit "ready" ++ [13; 10]%N)
                  | _ => Ret (lit " tick " ++ nl)
                  end).

End Samples.

Import Samples.

(* ================================================================= *)
(** ** Further observations *)

(** The three write bits of a file mode, [0o222], and the mode bits
    [chmod a+rw] sets, [0o666]. *)
Definition write_bits : Z := 0x92.
Definition a_rw : Z := 0x1b6.

(** [u] is [l] with some elements left out, the others in their order. *)
Inductive subseq {A : Type} : list A -> list A -> Prop :=
| subseq_nil : subseq [] []
| subseq_keep x u l : subseq u l -> subseq (x :: u) (x :: l)
| subseq_drop x u l : subseq u l -> subseq u (x :: l).

(** The command line of the tool query of [list_arduino_boards]. *)
Definition board_list_argv : list pystr :=
  [lit "arduino-cli"; lit "board"; lit "list"; lit "--format"; lit "json"].

(** A record of the tool source is for a port with an address, reached
    over a serial-family protocol or a protocol the tool does not name. *)
Definition serial_family (b : pydict) : Prop :=
  exists address protocol,
    dict_lookup (lit "port") b = Some address
    /\ truthy address = true
    /\ dict_lookup (lit "protocol") b = Some protocol
    /\ (truthy protocol = false \/ py_in (lit "serial") protocol = Ret true).

(** A text of ASCII characters, and character tables that are the ASCII
    ones on such texts. *)
Definition is_ascii (s : pystr) : Prop := Forall (fun c => (c < 128)%N) s.

Definition ascii_tables (env : Env) : Prop :=
  (forall c, (c < 128)%N -> str_isalnum env c = ascii_isalnum c)
  /\ (forall s, is_ascii s -> str_lower env s = map ascii_lower_char s).

(** The number of external commands in a trace. *)
Definition is_run (ev : event) : bool :=
  match ev with ERun _ => true | _ => false end.

Definition runs (t : list event) : nat := List.length (filter is_run t).

(** A line without white space at either end (and so not empty). *)
Definition stripped (l : pystr) : Prop :=
  exists c t, l = c :: t /\ isspace c = false /\ isspace (last l c) = false.

(* ================================================================= *)
(** ** The callers: api_server.py and main.py *)

(** What an endpoint answers: a body, an [HTTPException], or an exception
    it leaves to the framework. *)
Inductive http (A : Type) : Type :=
| Respond (body : A)
| HTTPException (status_code : Z) (detail : pystr)
| Unhandled (e : exn).
Arguments Respond {A} body.
Arguments HTTPException {A} status_code detail.
Arguments Unhandled {A} e.

(** The formatting of a value inside an f-string, [f"{v}"]: an oracle of
    the Python runtime, which gives a [str] back as it is. *)
Definition formatter : Type := pyval -> pystr.

Definition formats_str (format : formatter) : Prop :=
  forall s, format (PStr s) = s.

(** *** api_server.py: upload_code *)

(** The body of the [try] of [upload_code]: [inr] is the [HTTPException]
    it raises itself. *)
Definition api_upload_try (format : formatter) (env : Env)
    (code board board_fqbn sketch_name : pystr)
  : M (pydict + Z * pystr) :=
  (* Write sketch *)
  sketch_path <- write_sketch env code sketch_name ;;
  (* Compile *)
  compile_result <- compile_sketch env sketch_path board_fqbn ;;
  ok <- liftO (subscript compile_result (lit "success")) ;;
  if negb (truthy ok) then
    errors <- liftO (subscript compile_result (lit "errors")) ;;
    ret (inr (400, lit "Compilation failed: " ++ format errors))
  else
  (* Upload *)
  upload_result <- upload_sketch env sketch_path board board_fqbn ;;
  ok <- liftO (subscript upload_result (lit "success")) ;;
  if negb (truthy ok) then
    errors <- liftO (subscript upload_result (lit "errors")) ;;
    ret (inr (400, lit "Upload failed: " ++ format errors))
  else
    ret (inl [ (lit "success", PBool true);
               (lit "message",
                  PStr (lit "Code uploaded successfully to " ++ board
                        ++ lit "!"));
               (lit "sketch_path", PStr sketch_path) ]).

(** [upload_code]: an [HTTPException] is raised again, any other exception
    becomes an [HTTPException] with status 500. *)
Definition api_upload_code (format : formatter) (env : Env)
    (code board board_fqbn sketch_name : pystr)
  : list event * http pydict :=
  match api_upload_try format env code board board_fqbn sketch_name with
  | (t, Ret (inl body)) => (t, Respond body)
  | (t, Ret (inr (status_code, detail))) =>
      (t, HTTPException status_code detail)
  | (t, Raise e) => (t, HTTPException 500 (exn_str e))
  end.

(** *** get_boards (api_server.py and main.py) *)

(** [[b["port"] for b in boards]] *)
Fixpoint ports_of (boards : list pydict) : outcome (list pyval) :=
  match boards with
  | [] => Ret []
  | b :: rest =>
      obind (subscript b (lit "port")) (fun p =>
      obind (ports_of rest) (fun ports => Ret (p :: ports)))
  end.

Definition get_boards (env : Env) : list event * http pydict :=
  match
    (boards <- list_arduino_boards env ;;
     ports <- liftO (ports_of boards) ;;
     ret [ (lit "boards", PList ports);
           (lit "details", PList (map PDict boards)) ])
  with
  | (t, Ret body) => (t, Respond body)
  | (t, Raise e) => (t, Unhandled e)
  end.

(** *** main.py: upload_code_endpoint *)

(** [next((b for b in boards if b["port"] == board), None)] *)
Fixpoint find_board (board : pystr) (boards : list pydict)
  : outcome (option pydict) :=
  match boards with
  | [] => Ret None
  | b :: rest =>
      obind (subscript b (lit "port")) (fun p =>
      if is_str board p then Ret (Some b) else find_board board rest)
  end.

(** The FQBN the endpoint goes on with: the one of the request, or the one
    discovery has for the port when the request has none or the default. *)
Definition resolve_fqbn (env : Env) (board fqbn : pystr) : M pyval :=
  if is_empty fqbn || PyStr.eqb fqbn (lit "arduino:avr:uno") then
    boards <- list_arduino_boards env ;;
    matched <- liftO (find_board board boards) ;;
    match matched with
    | Some (entry :: entries) =>
        let matched := entry :: entries in
        match dict_lookup (lit "fqbn") matched with
        | Some v => if truthy v then ret v else ret (PStr fqbn)
        | None => ret (PStr fqbn)
        end
    | _ => ret (PStr fqbn)
    end
  else ret (PStr fqbn).

(** A command-line argument has to be a [str]: [subprocess.run] raises
    [TypeError] for another value, before any process is started. *)
Definition as_arg (v : pyval) : outcome pystr :=
  match v with
  | PStr s => Ret s
  | _ => Raise (mkExn TypeError
                  (lit "expected str, bytes or os.PathLike object, not "
                   ++ type_name v))
  end.

Definition em_dash : pystr := [0x2014%N].

(** [d.get(k, dflt)] on a dictionary. *)
Definition dict_get (d : pydict) (k : pystr) (dflt : pyval) : pyval :=
  match dict_lookup k d with Some v => v | None => dflt end.

Definition main_upload_steps (env : Env) (path board fqbn : pystr)
  : M pydict :=
  (* Determine FQBN *)
  fqbn <- resolve_fqbn env board fqbn ;;
  (* Compile *)
  fqbn_arg <- liftO (as_arg fqbn) ;;
  compile_result <- compile_sketch env path fqbn_arg ;;
  ok <- liftO (subscript compile_result (lit "success")) ;;
  if negb (truthy ok) then
    ret [ (lit "success", PBool false);
          (lit "stage", PStr (lit "compile"));
          (lit "error",
             dict_get compile_result (lit "errors")
                      (PStr (lit "Compilation failed")));
          (lit "message",
             PStr (lit "Compilation failed " ++ em_dash
                   ++ lit " see error for details")) ]
  else
  (* Upload *)
  upload_result <- upload_sketch env path board fqbn_arg ;;
  ok <- liftO (subscript upload_result (lit "success")) ;;
  if negb (truthy ok) then
    ret [ (lit "success", PBool false);
          (lit "stage", PStr (lit "upload"));
          (lit "error",
             dict_get upload_result (lit "errors")
                      (PStr (lit "Upload failed")));
          (lit "message",
             PStr (lit "Upload failed " ++ em_dash
                   ++ lit " see error for details")) ]
  else
    ret [ (lit "success", PBool true);
          (lit "message",
             PStr (lit "Code uploaded successfully to " ++ board
                   ++ lit "!"));
          (lit "fqbn", fqbn) ].

Definition upload_code_endpoint (env : Env) (code board fqbn : pystr)
  : list event * http pydict :=
  (* Write sketch *)
  match write_sketch env code (lit "editor_sketch") with
  | (t1, Raise e) =>
      (t1, HTTPException 500 (lit "Failed to write sketch: " ++ exn_str e))
  | (t1, Ret path) =>
      match main_upload_steps env path board fqbn with
      | (t2, Ret body) => (t1 ++ t2, Respond body)
      | (t2, Raise e) => (t1 ++ t2, Unhandled e)
      end
  end.

(** A formatter for the samples: a [str] as it is, [None] and the
    booleans by their names, anything else by the name of its type. *)
Definition sample_format : formatter :=
  fun v =>
    match v with
    | PStr s => s
    | PNone => lit "None"
    | PBool true => lit "True"
    | PBool false => lit "False"
    | _ => lit "<" ++ type_name v ++ lit ">"
    end.

(** The name under which [upload_code_endpoint] writes the sketch. *)
Definition editor_sketch : pystr := lit "editor_sketch".

Definition mega : pystr := lit "arduino:avr:mega".

Definition mega_match : pyval :=
  PDict [ (lit "name", PStr (lit "Arduino Mega or Mega 2560"));
          (lit "fqbn", PStr mega) ].

(** A Mega that both sources report: pyserial by its vendor id, the tool
    with its FQBN. *)
Definition env_mega_both : Env :=
  world [uno_port]
        (cli (fun _ => 0) (fun _ => lit "{...}") (fun _ => []))
        (fun _ => Some (PDict [ (lit "detected_ports",
                     PList [ detected_port (lit "/dev/ttyACM0")
                                           [mega_match] ]) ]))
        world_rw quiet_clock no_bytes no_line.

(** The same Mega on a machine without pyserial. *)
Definition env_mega_tool_only : Env :=
  {| str_isalnum := sample_isalnum;
     str_lower := sample_lower;
     json_loads :=
       fun _ => Some (PDict [ (lit "detected_ports",
                     PList [ detected_port (lit "/dev/ttyACM0")
                                           [mega_match] ]) ]);
     HAS_SERIAL := false;
     SKETCH_DIR := lit "/app/sketches";
     comports := [];
     subprocess_run := cli (fun _ => 0) (fun _ => lit "{...}") (fun _ => []);
     os_stat := world_rw;
     os_getuid := 1000;
     os_getgroups := [1000];
     path_mkdir := fun _ => None;
     path_write_text := fun _ _ => None;
     serial_open := fun _ _ => None;
     loop_time := quiet_clock;
     serial_in_waiting := no_bytes;
     serial_readline := no_line |}.

(** *** main.py: the agent tool deploy_code *)

(** What a tool of the agent does: an effect of the functions above, or a
    line for the logger. *)
Inductive agent_event : Type :=
| Sys (ev : event)
| LogInfo (msg : pystr)
| LogError (msg : pystr).

Definition A (X : Type) : Type := (list agent_event * outcome X)%type.

Definition aret {X} (x : X) : A X := ([], Ret x).
Definition sys {X} (m : M X) : A X := (map Sys (fst m), snd m).
Definition log_info (msg : pystr) : A unit := ([LogInfo msg], Ret tt).
Definition log_error (msg : pystr) : A unit := ([LogError msg], Ret tt).

Definition abind {X Y} (m : A X) (k : X -> A Y) : A Y :=
  match m with
  | (t, Ret x) => let '(t', r) := k x in (t ++ t', r)
  | (t, Raise e) => (t, Raise e)
  end.

Notation "x <~ m ;; k" := (abind m (fun x => k))
  (at level 100, m at next level, right associativity) : py_scope.
Notation "m ~;; k" := (abind m (fun _ => k))
  (at level 100, right associativity) : py_scope.

(** The effects among the events of a tool. *)
Fixpoint sys_events (t : list agent_event) : list event :=
  match t with
  | [] => []
  | Sys ev :: rest => ev :: sys_events rest
  | _ :: rest => sys_events rest
  end.

Definition rocket : pystr := [0x1F680%N].
Definition cross_mark : pystr := [0x274C%N].
Definition check_mark : pystr := [0x2705%N].

Definition agent_deploy_code (env : Env) (code port sketch_name board_fqbn : pystr)
  : A pydict :=
  abind (log_info (rocket ++ lit " deploy_code to " ++ port)) (fun _ =>
  (* Write *)
  match sys (write_sketch env code sketch_name) with
  | (t1, Raise e) =>
      abind (t1, Ret tt) (fun _ =>
      log_error (cross_mark ++ lit " Deploy failed at write: " ++ exn_str e) ~;;
      aret [ (lit "success", PBool false);
             (lit "stage", PStr (lit "write"));
             (lit "error", PStr (exn_str e)) ])
  | (t1, Ret path) =>
      abind (t1, Ret tt) (fun _ =>
      (* Compile *)
      compile_result <~ sys (compile_sketch env path board_fqbn) ;;
      ok <~ sys (liftO (subscript compile_result (lit "success"))) ;;
      if negb (truthy ok) then
        log_error (cross_mark ++ lit " Deploy failed at compile") ~;;
        err <~ sys (liftO (subscript compile_result (lit "errors"))) ;;
        aret [ (lit "success", PBool false);
               (lit "stage", PStr (lit "compile"));
               (lit "error", err) ]
      else
      (* Upload *)
      upload_result <~ sys (upload_sketch env path port board_fqbn) ;;
      ok <~ sys (liftO (subscript upload_result (lit "success"))) ;;
      if negb (truthy ok) then
        log_error (cross_mark ++ lit " Deploy failed at upload") ~;;
        err <~ sys (liftO (subscript upload_result (lit "errors"))) ;;
        aret [ (lit "success", PBool false);
               (lit "stage", PStr (lit "upload"));
               (lit "error", err) ]
      else
        log_info (check_mark ++ lit " Deploy successful!") ~;;
        aret [ (lit "success", PBool true);
               (lit "message",
                  PStr (lit "Code deployed successfully! Check if your hardware is now working."));
               (lit "sketch_path", PStr path) ])
  end).

(** The number of error lines among the events of a tool. *)
Fixpoint log_errors (t : list agent_event) : nat :=
  match t with
  | [] => 0
  | LogError _ :: rest => S (log_errors rest)
  | _ :: rest => log_errors rest
  end.

(** The entries of [detected_ports] the loop of method 2 visits: the tool
    exits with 0 and what it prints parses as JSON. *)
Definition tool_detected (env : Env) (detected : pyval) : Prop :=
  exists c data ports items,
    subprocess_run env board_list_argv = Completed c
    /\ returncode c = 0
    /\ json_loads env (stdout c) = Some data
    /\ py_get data (lit "detected_ports") (PList []) = Ret ports
    /\ py_iter ports = Ret items
    /\ In detected items.

(** The address the tool gives for a detected port. *)
Definition detected_address (detected address : pyval) : Prop :=
  exists port_info,
    py_get detected (lit "port") (PDict []) = Ret port_info
    /\ py_get port_info (lit "address") (PStr []) = Ret address.

(** The fqbn the tool's entry stands for: the [fqbn] of the first matching
    board, and "arduino:avr:uno" when the entry names no matching board or
    the first one has no [fqbn]. *)
Definition tool_fqbn (detected fqbn : pyval) : Prop :=
  exists mb,
    py_get detected (lit "matching_boards") PNone = Ret mb
    /\ if truthy mb then
         exists board_info,
           py_index0 mb = Ret (PDict board_info)
           /\ fqbn = match dict_lookup (lit "fqbn") board_info with
                     | Some reported => reported
                     | None => PStr (lit "arduino:avr:uno")
                     end
       else fqbn = PStr (lit "arduino:avr:uno").

(* ================================================================= *)
(** ** Proof steps *)

(** Bring the stage equations of a pipeline run together with what is
    assumed about the stages. *)
Ltac stage_facts :=
  unfold result, trace in *;
  repeat first
    [ progress (simpl fst in *; simpl snd in *)
    | match goal with
      | H : ?m = (_, _), H' : context [?m] |- _ => rewrite H in H'
      | H : ?m = (_, _) |- context [?m] => rewrite H
      | H : Ret _ = Ret _ |- _ => injection H as H; subst
      | H : Raise _ = Raise _ |- _ => injection H as H; subst
      | H : Ret _ = Raise _ |- _ => discriminate H
      | H : Raise _ = Ret _ |- _ => discriminate H
      end ].

Ltac pipeline_cases P :=
  match type of P with
  | pipeline _ _ _ _ _ ?m =>
      let r := fresh "r" in
      let Hr := fresh "Hr" in
      remember m as r eqn:Hr; clear Hr;
      destruct P as [t1 e Hw' | t1 sp t2 e Hw' Hc'
                    | t1 sp t2 o er Hw' Hc'
                    | t1 sp t2 o t3 e Hw' Hc' Hu'
                    | t1 sp t2 o t3 o' er Hw' Hc' Hu'
                    | t1 sp t2 o t3 o' Hw' Hc' Hu'];
      stage_facts
  end.

(* ================================================================= *)
(** ** Strings: prefixes and substrings *)

Lemma eqb_refl (s : pystr) : PyStr.eqb s s = true.
Proof.
  induction s as [|c s IH]; simpl; [reflexivity|].
  now rewrite N.eqb_refl.
Qed.

Lemma eqb_eq (a b : pystr) : PyStr.eqb a b = true <-> a = b.
Proof.
  split.
  - revert b; induction a as [|x a IH]; intros [|y b]; simpl;
      try discriminate; [reflexivity|].
    intros H. apply andb_true_iff in H as [Hxy Hab].
    apply N.eqb_eq in Hxy. f_equal; auto.
  - intros ->. apply eqb_refl.
Qed.

Lemma is_prefix_app (p s : pystr) : is_prefix p (p ++ s) = true.
Proof.
  induction p as [|c p IH]; simpl; [reflexivity|].
  now rewrite N.eqb_refl.
Qed.

Lemma is_prefix_spec (p s : pystr) :
  is_prefix p s = true <-> exists post, s = p ++ post.
Proof.
  split.
  - revert s; induction p as [|c p IH]; intros s H.
    + now exists s.
    + destruct s as [|d s]; simpl in H; [discriminate|].
      apply andb_true_iff in H as [Hc Hp].
      apply N.eqb_eq in Hc; subst d.
      destruct (IH _ Hp) as [post ->]. now exists post.
  - intros [post ->]. apply is_prefix_app.
Qed.

Lemma contains_of_prefix (sub s : pystr) :
  is_prefix sub s = true -> contains sub s = true.
Proof.
  intros H. destruct s; simpl; simpl in H; rewrite H; reflexivity.
Qed.

Lemma contains_app_r (pre sub s : pystr) :
  contains sub s = true -> contains sub (pre ++ s) = true.
Proof.
  intros H. induction pre as [|c pre IH]; simpl; [exact H|].
  rewrite IH. apply orb_true_r.
Qed.

(** [sub in pre + sub + post] *)
Lemma contains_mid (pre sub post : pystr) :
  contains sub (pre ++ sub ++ post) = true.
Proof.
  apply contains_app_r, contains_of_prefix, is_prefix_app.
Qed.

Lemma contains_spec (sub s : pystr) :
  contains sub s = true <-> exists pre post, s = pre ++ sub ++ post.
Proof.
  split.
  - induction s as [|c s IH]; simpl; intros H.
    + rewrite orb_false_r in H. apply is_prefix_spec in H as [post ->].
      now exists [], post.
    + apply orb_true_iff in H as [H|H].
      * apply is_prefix_spec in H as [post ->]. now exists [], post.
      * destruct (IH H) as (pre & post & ->). now exists (c :: pre), post.
  - intros (pre & post & ->). apply contains_mid.
Qed.

Lemma contains_suffix (pre sub : pystr) : contains sub (pre ++ sub) = true.
Proof.
  rewrite <- (app_nil_r sub) at 2. apply contains_mid.
Qed.

(* ================================================================= *)
(** ** The remediation hint *)

Lemma hint_has_chmod (port : pystr) :
  contains (option_chmod port) (_permission_denied_hint port) = true.
Proof.
  apply contains_spec.
  exists (lit "Permission denied on " ++ port ++ lit "." ++ nl
          ++ lit "Fix options (run in WSL terminal):" ++ nl
          ++ lit "  Quick (resets on unplug):  ").
  eexists.
  unfold _permission_denied_hint, option_chmod.
  rewrite <- !app_assoc. reflexivity.
Qed.

Lemma hint_has_group (port : pystr) :
  contains option_group (_permission_denied_hint port) = true.
Proof.
  apply contains_spec.
  exists (lit "Permission denied on " ++ port ++ lit "." ++ nl
          ++ lit "Fix options (run in WSL terminal):" ++ nl
          ++ lit "  Quick (resets on unplug):  sudo chmod a+rw " ++ port
          ++ nl ++ lit "  Permanent (needs re-login): ").
  eexists.
  unfold _permission_denied_hint, option_group.
  rewrite <- !app_assoc. reflexivity.
Qed.

Lemma hint_has_udev (port : pystr) :
  contains option_udev (_permission_denied_hint port) = true.
Proof.
  apply contains_spec.
  exists (lit "Permission denied on " ++ port ++ lit "." ++ nl
          ++ lit "Fix options (run in WSL terminal):" ++ nl
          ++ lit "  Quick (resets on unplug):  sudo chmod a+rw " ++ port
          ++ nl
          ++ lit "  Permanent (needs re-login): sudo usermod -a -G uucp $USER"
          ++ nl ++ lit "  Permanent (udev rule):     ").
  exists (lit " && sudo udevadm control --reload-rules && sudo udevadm trigger").
  unfold _permission_denied_hint, option_udev.
  rewrite <- !app_assoc. reflexivity.
Qed.

Lemma hint_has_port (port : pystr) :
  contains port (_permission_denied_hint port) = true.
Proof.
  unfold _permission_denied_hint. apply contains_mid.
Qed.

(* ================================================================= *)
(** ** upload_sketch *)

Lemma fix_port_permissions_trace (env : Env) (port : pystr) :
  trace (fix_port_permissions env port) = [ERun (chmod_argv port)].
Proof.
  unfold fix_port_permissions, run, try_except, bind, emit, liftO, ret,
    trace, chmod_argv.
  destruct (subprocess_run env _) as [c|e]; simpl.
  - destruct (returncode c =? 0); reflexivity.
  - reflexivity.
Qed.

Lemma fix_port_permissions_returns (env : Env) (port : pystr) :
  exists msg,
    result (fix_port_permissions env port)
    = Ret [(lit "success", PBool (fix_succeeds env port));
           (lit "message", PStr msg)].
Proof.
  unfold fix_succeeds.
  unfold fix_port_permissions, run, try_except, bind, emit, liftO, ret,
    result.
  destruct (subprocess_run env _) as [c|e]; simpl.
  - destruct (returncode c =? 0); simpl; eexists; reflexivity.
  - eexists; reflexivity.
Qed.

(** When the pre-flight check and the fix both fail, the only command run
    is the [sudo chmod] and the result carries the hint. *)
Lemma upload_sketch_aborts (env : Env) (sketch_path port fqbn : pystr) :
  check_port_accessible env port = false ->
  fix_succeeds env port = false ->
  upload_sketch env sketch_path port fqbn
  = ([ERun (chmod_argv port)],
     Ret [ (lit "success", PBool false);
           (lit "output", PStr []);
           (lit "errors", PStr (_permission_denied_hint port)) ]).
Proof.
  intros Hacc Hfix. unfold upload_sketch. rewrite Hacc. simpl negb. cbv iota.
  pose proof (fix_port_permissions_trace env port) as Ht.
  destruct (fix_port_permissions_returns env port) as [msg Hr].
  rewrite Hfix in Hr.
  destruct (fix_port_permissions env port) as [t r].
  unfold trace, result in *. simpl in Ht, Hr. subst t r.
  reflexivity.
Qed.

(** When the port is reachable, [upload_sketch] is its [try] block. *)
Lemma upload_sketch_accessible (env : Env) (sketch_path port fqbn : pystr) :
  check_port_accessible env port = true ->
  upload_sketch env sketch_path port fqbn = upload_run env sketch_path port fqbn.
Proof.
  intros Hacc. unfold upload_sketch. now rewrite Hacc.
Qed.

Lemma upload_sketch_fixed (env : Env) (sketch_path port fqbn : pystr) :
  check_port_accessible env port = false ->
  fix_succeeds env port = true ->
  upload_sketch env sketch_path port fqbn
  = (ERun (chmod_argv port) :: trace (upload_run env sketch_path port fqbn),
     result (upload_run env sketch_path port fqbn)).
Proof.
  intros Hacc Hfix. unfold upload_sketch. rewrite Hacc. simpl negb. cbv iota.
  pose proof (fix_port_permissions_trace env port) as Ht.
  destruct (fix_port_permissions_returns env port) as [msg Hr].
  rewrite Hfix in Hr.
  destruct (fix_port_permissions env port) as [t r].
  unfold trace, result in *. simpl in Ht, Hr. subst t r.
  destruct (upload_run env sketch_path port fqbn) as [t r]. reflexivity.
Qed.

(** The result of the [try] block for each way the external command ends. *)
Lemma upload_run_completed (env : Env) (sketch_path port fqbn : pystr)
    (c : completed_process) :
  subprocess_run env (upload_argv sketch_path port fqbn) = Completed c ->
  upload_run env sketch_path port fqbn
  = ([ERun (upload_argv sketch_path port fqbn)],
     Ret [ (lit "success", PBool (returncode c =? 0));
           (lit "output", PStr (stdout c));
           (lit "errors",
              if returncode c =? 0 then PNone
              else if negb (is_empty (stderr c))
                      && contains (lit "permission denied")
                                  (str_lower env (stderr c))
                   then PStr (hinted_errors port (stderr c))
                   else PStr (stderr c)) ]).
Proof.
  intros Hrun.
  unfold upload_run, run, try_except, bind, emit, liftO, ret.
  rewrite Hrun. simpl.
  destruct (returncode c =? 0); simpl; [reflexivity|].
  destruct (stderr c) as [|ch s] eqn:Herr; simpl; [reflexivity|].
  destruct (contains _ _); reflexivity.
Qed.

Lemma upload_run_raises (env : Env) (sketch_path port fqbn : pystr) (e : exn) :
  subprocess_run env (upload_argv sketch_path port fqbn) = RunRaises e ->
  upload_run env sketch_path port fqbn
  = ([ERun (upload_argv sketch_path port fqbn)],
     match exn_cls e with
     | FileNotFoundError =>
         Ret [ (lit "success", PBool false);
               (lit "output", PStr []);
               (lit "errors", PStr msg_cli_missing) ]
     | TimeoutExpired =>
         Ret [ (lit "success", PBool false);
               (lit "output", PStr []);
               (lit "errors", PStr (lit "Upload timed out after 60 seconds.")) ]
     | _ => Raise e
     end).
Proof.
  intros Hrun.
  unfold upload_run, run, try_except, bind, emit, liftO, ret.
  rewrite Hrun. simpl.
  destruct (exn_cls e); reflexivity.
Qed.

(** C3: when the pre-flight accessibility check on the port fails and the
    privilege-escalation fix fails too, [upload_sketch] returns a failure
    whose error text contains the three remediation options (the temporary
    chmod, the permanent group membership, the udev rule) and the port
    identifier, and [arduino-cli upload] is never run. *)
Theorem upload_sketch_preflight_abort
    (env : Env) (sketch_path port fqbn : pystr) :
  check_port_accessible env port = false ->
  fix_succeeds env port = false ->
  exists d errors,
    result (upload_sketch env sketch_path port fqbn) = Ret d
    /\ dict_lookup (lit "success") d = Some (PBool false)
    /\ dict_lookup (lit "errors") d = Some (PStr errors)
    /\ contains (option_chmod port) errors = true
    /\ contains option_group errors = true
    /\ contains option_udev errors = true
    /\ contains port errors = true
    /\ upload_calls (trace (upload_sketch env sketch_path port fqbn)) = 0%nat.
Proof.
  intros Hacc Hfix.
  rewrite (upload_sketch_aborts env sketch_path port fqbn Hacc Hfix).
  eexists; exists (_permission_denied_hint port).
  split; [reflexivity|].
  split; [reflexivity|].
  split; [reflexivity|].
  split; [apply hint_has_chmod|].
  split; [apply hint_has_group|].
  split; [apply hint_has_udev|].
  split; [apply hint_has_port|].
  reflexivity.
Qed.

(** C4: when the pre-flight check passes and the external uploader exits
    non-zero with an error text (a text that holds the phrase is not empty)
    in which the code finds "permission denied" after lowercasing, the
    returned [errors] begins with the remediation hint and ends with the
    tool's own error text, so both are substrings of it: the hint is put in
    front and the raw error stays. *)
Theorem upload_sketch_hint_keeps_raw_error
    (env : Env) (sketch_path port fqbn : pystr) (c : completed_process) :
  check_port_accessible env port = true ->
  subprocess_run env (upload_argv sketch_path port fqbn) = Completed c ->
  returncode c <> 0 ->
  stderr c <> [] ->
  contains (lit "permission denied") (str_lower env (stderr c)) = true ->
  exists d errors,
    result (upload_sketch env sketch_path port fqbn) = Ret d
    /\ dict_lookup (lit "success") d = Some (PBool false)
    /\ dict_lookup (lit "errors") d = Some (PStr errors)
    /\ contains (_permission_denied_hint port) errors = true
    /\ contains (stderr c) errors = true
    /\ is_prefix (_permission_denied_hint port) errors = true
    /\ errors = _permission_denied_hint port ++ nl ++ nl
                ++ lit "Original error:" ++ nl ++ stderr c.
Proof.
  intros Hacc Hrun Hrc Hne Hpd.
  rewrite (upload_sketch_accessible env sketch_path port fqbn Hacc).
  rewrite (upload_run_completed env sketch_path port fqbn c Hrun).
  apply Z.eqb_neq in Hrc. rewrite Hrc, Hpd.
  destruct (stderr c) as [|ch s] eqn:Herr; [contradiction|].
  simpl negb. simpl andb. cbv iota.
  eexists; exists (hinted_errors port (ch :: s)).
  split; [reflexivity|].
  split; [reflexivity|].
  split; [reflexivity|].
  unfold hinted_errors.
  split; [apply contains_of_prefix, is_prefix_app|].
  split.
  { rewrite !app_assoc. apply contains_suffix. }
  split; [apply is_prefix_app|reflexivity].
Qed.

(* ================================================================= *)
(** ** compile_sketch *)

Lemma compile_sketch_completed (env : Env) (sketch_path fqbn : pystr)
    (c : completed_process) :
  subprocess_run env (compile_argv sketch_path fqbn) = Completed c ->
  compile_sketch env sketch_path fqbn
  = ([ERun (compile_argv sketch_path fqbn)],
     Ret [ (lit "success", PBool (returncode c =? 0));
           (lit "output", PStr (stdout c));
           (lit "errors", if returncode c =? 0 then PNone
                          else PStr (stderr c)) ]).
Proof.
  intros Hrun.
  unfold compile_sketch, run, try_except, bind, emit, liftO, ret.
  rewrite Hrun. simpl.
  destruct (returncode c =? 0); reflexivity.
Qed.

Lemma compile_sketch_raises (env : Env) (sketch_path fqbn : pystr) (e : exn) :
  subprocess_run env (compile_argv sketch_path fqbn) = RunRaises e ->
  compile_sketch env sketch_path fqbn
  = ([ERun (compile_argv sketch_path fqbn)],
     match exn_cls e with
     | FileNotFoundError =>
         Ret [ (lit "success", PBool false);
               (lit "output", PStr []);
               (lit "errors", PStr msg_cli_missing) ]
     | TimeoutExpired =>
         Ret [ (lit "success", PBool false);
               (lit "output", PStr []);
               (lit "errors",
                  PStr (lit "Compilation timed out after 120 seconds.")) ]
     | _ => Raise e
     end).
Proof.
  intros Hrun.
  unfold compile_sketch, run, try_except, bind, emit, liftO, ret.
  rewrite Hrun. simpl.
  destruct (exn_cls e); reflexivity.
Qed.

Lemma compile_sketch_trace (env : Env) (sketch_path fqbn : pystr) :
  trace (compile_sketch env sketch_path fqbn)
  = [ERun (compile_argv sketch_path fqbn)].
Proof.
  destruct (subprocess_run env (compile_argv sketch_path fqbn)) as [c|e] eqn:H.
  - now rewrite (compile_sketch_completed _ _ _ _ H).
  - now rewrite (compile_sketch_raises _ _ _ _ H).
Qed.

Lemma compile_sketch_operation_result
    (env : Env) (sketch_path fqbn : pystr) (d : pydict) :
  result (compile_sketch env sketch_path fqbn) = Ret d -> operation_result d.
Proof.
  destruct (subprocess_run env (compile_argv sketch_path fqbn)) as [c|e] eqn:H.
  - rewrite (compile_sketch_completed _ _ _ _ H). simpl.
    intros [= <-]. destruct (returncode c =? 0); constructor.
  - rewrite (compile_sketch_raises _ _ _ _ H). simpl.
    destruct (exn_cls e); intros [= <-]; constructor.
Qed.

Lemma upload_run_operation_result
    (env : Env) (sketch_path port fqbn : pystr) (d : pydict) :
  result (upload_run env sketch_path port fqbn) = Ret d -> operation_result d.
Proof.
  destruct (subprocess_run env (upload_argv sketch_path port fqbn))
    as [c|e] eqn:H.
  - rewrite (upload_run_completed _ _ _ _ _ H). simpl.
    intros [= <-]. destruct (returncode c =? 0); [constructor|].
    destruct (_ && _); constructor.
  - rewrite (upload_run_raises _ _ _ _ _ H). simpl.
    destruct (exn_cls e); intros [= <-]; constructor.
Qed.

Lemma upload_sketch_operation_result
    (env : Env) (sketch_path port fqbn : pystr) (d : pydict) :
  result (upload_sketch env sketch_path port fqbn) = Ret d ->
  operation_result d.
Proof.
  destruct (check_port_accessible env port) eqn:Hacc.
  - rewrite (upload_sketch_accessible _ _ _ _ Hacc).
    apply upload_run_operation_result.
  - destruct (fix_succeeds env port) eqn:Hfix.
    + rewrite (upload_sketch_fixed _ _ _ _ Hacc Hfix). simpl.
      apply upload_run_operation_result.
    + rewrite (upload_sketch_aborts _ _ _ _ Hacc Hfix). simpl.
      intros [= <-]. constructor.
Qed.

Lemma operation_result_errors_iff (d : pydict) :
  operation_result d -> errors_iff_failure d.
Proof.
  unfold errors_iff_failure.
  intros [output|output errors].
  - exists true, PNone. repeat split; try reflexivity.
    + intros H; now elim H.
    + discriminate.
  - exists false, (PStr errors). repeat split; try reflexivity.
    discriminate.
Qed.

(** C2: in every dictionary [compile_sketch] returns and in every
    dictionary [upload_sketch] returns, whatever the exit code and also
    when the tool is missing or times out, the [errors] field is not [None]
    if and only if [success] is false. *)
Theorem errors_iff_not_success (env : Env) (sketch_path port fqbn : pystr) :
  (forall d, result (compile_sketch env sketch_path fqbn) = Ret d ->
             errors_iff_failure d)
  /\ (forall d, result (upload_sketch env sketch_path port fqbn) = Ret d ->
                errors_iff_failure d).
Proof.
  split; intros d H; apply operation_result_errors_iff.
  - eapply compile_sketch_operation_result; eassumption.
  - eapply upload_sketch_operation_result; eassumption.
Qed.

(* ================================================================= *)
(** ** write_sketch and deploy_code *)

Lemma write_sketch_cases (env : Env) (code name : pystr) :
  write_sketch env code name
  = match path_mkdir env (sketch_folder env name) with
    | Some e => ([EMkdir (sketch_folder env name)], Raise e)
    | None =>
        match path_write_text env (sketch_file env name) code with
        | Some e =>
            ([EMkdir (sketch_folder env name);
              EWriteText (sketch_file env name) code], Raise e)
        | None =>
            ([EMkdir (sketch_folder env name);
              EWriteText (sketch_file env name) code],
             Ret (sketch_folder env name))
        end
    end.
Proof.
  unfold write_sketch, sketch_file, sketch_folder, bind, emit, liftO, ret.
  destruct (path_mkdir env _); simpl; [reflexivity|].
  destruct (path_write_text env _ _); reflexivity.
Qed.

Lemma write_sketch_returns_folder (env : Env) (code name sketch_path : pystr) :
  result (write_sketch env code name) = Ret sketch_path ->
  sketch_path = sketch_folder env name.
Proof.
  rewrite write_sketch_cases.
  destruct (path_mkdir env _); [discriminate|].
  destruct (path_write_text env _ _); [discriminate|].
  simpl. now intros [= <-].
Qed.

Lemma write_sketch_no_upload (env : Env) (code name : pystr) :
  upload_calls (trace (write_sketch env code name)) = 0%nat.
Proof.
  rewrite write_sketch_cases.
  destruct (path_mkdir env _); [reflexivity|].
  destruct (path_write_text env _ _); reflexivity.
Qed.

Lemma compile_sketch_no_upload (env : Env) (sketch_path fqbn : pystr) :
  upload_calls (trace (compile_sketch env sketch_path fqbn)) = 0%nat.
Proof.
  rewrite compile_sketch_trace. reflexivity.
Qed.

Lemma upload_calls_app (t1 t2 : list event) :
  upload_calls (t1 ++ t2) = (upload_calls t1 + upload_calls t2)%nat.
Proof.
  unfold upload_calls. now rewrite filter_app, length_app.
Qed.

Lemma deploy_code_write_fails
    (env : Env) (code port name fqbn : pystr) (t1 : list event) (e : exn) :
  write_sketch env code name = (t1, Raise e) ->
  deploy_code env code port name fqbn = (t1, Ret (write_failure (exn_str e))).
Proof.
  intros Hw. unfold deploy_code. rewrite Hw. reflexivity.
Qed.

Lemma deploy_code_compile_raises
    (env : Env) (code port name fqbn : pystr) (t1 t2 : list event)
    (sketch_path : pystr) (e : exn) :
  write_sketch env code name = (t1, Ret sketch_path) ->
  compile_sketch env sketch_path fqbn = (t2, Raise e) ->
  deploy_code env code port name fqbn = (t1 ++ t2, Raise e).
Proof.
  intros Hw Hc. unfold deploy_code. rewrite Hw. unfold bind at 1.
  rewrite Hc. reflexivity.
Qed.

Lemma deploy_code_compile_fails
    (env : Env) (code port name fqbn : pystr) (t1 t2 : list event)
    (sketch_path output errors : pystr) :
  write_sketch env code name = (t1, Ret sketch_path) ->
  compile_sketch env sketch_path fqbn
  = (t2, Ret [ (lit "success", PBool false);
               (lit "output", PStr output);
               (lit "errors", PStr errors) ]) ->
  deploy_code env code port name fqbn
  = (t1 ++ t2,
     Ret (stage_failure (lit "compile") (PStr errors) sketch_path)).
Proof.
  intros Hw Hc. unfold deploy_code. rewrite Hw. unfold bind at 1.
  rewrite Hc. simpl. now rewrite app_nil_r.
Qed.

Lemma deploy_code_upload_raises
    (env : Env) (code port name fqbn : pystr) (t1 t2 t3 : list event)
    (sketch_path output : pystr) (e : exn) :
  write_sketch env code name = (t1, Ret sketch_path) ->
  compile_sketch env sketch_path fqbn
  = (t2, Ret [ (lit "success", PBool true);
               (lit "output", PStr output);
               (lit "errors", PNone) ]) ->
  upload_sketch env sketch_path port fqbn = (t3, Raise e) ->
  deploy_code env code port name fqbn = (t1 ++ t2 ++ t3, Raise e).
Proof.
  intros Hw Hc Hu. unfold deploy_code. rewrite Hw. unfold bind at 1.
  rewrite Hc. simpl. rewrite Hu. reflexivity.
Qed.

Lemma deploy_code_upload_fails
    (env : Env) (code port name fqbn : pystr) (t1 t2 t3 : list event)
    (sketch_path output output' errors : pystr) :
  write_sketch env code name = (t1, Ret sketch_path) ->
  compile_sketch env sketch_path fqbn
  = (t2, Ret [ (lit "success", PBool true);
               (lit "output", PStr output);
               (lit "errors", PNone) ]) ->
  upload_sketch env sketch_path port fqbn
  = (t3, Ret [ (lit "success", PBool false);
               (lit "output", PStr output');
               (lit "errors", PStr errors) ]) ->
  deploy_code env code port name fqbn
  = (t1 ++ t2 ++ t3,
     Ret (stage_failure (lit "upload") (PStr errors) sketch_path)).
Proof.
  intros Hw Hc Hu. unfold deploy_code. rewrite Hw. unfold bind at 1.
  rewrite Hc. simpl. rewrite Hu. simpl. now rewrite app_nil_r.
Qed.

Lemma deploy_code_succeeds
    (env : Env) (code port name fqbn : pystr) (t1 t2 t3 : list event)
    (sketch_path output output' : pystr) :
  write_sketch env code name = (t1, Ret sketch_path) ->
  compile_sketch env sketch_path fqbn
  = (t2, Ret [ (lit "success", PBool true);
               (lit "output", PStr output);
               (lit "errors", PNone) ]) ->
  upload_sketch env sketch_path port fqbn
  = (t3, Ret [ (lit "success", PBool true);
               (lit "output", PStr output');
               (lit "errors", PNone) ]) ->
  deploy_code env code port name fqbn
  = (t1 ++ t2 ++ t3, Ret (deployed sketch_path port)).
Proof.
  intros Hw Hc Hu. unfold deploy_code. rewrite Hw. unfold bind at 1.
  rewrite Hc. simpl. rewrite Hu. simpl. now rewrite app_nil_r.
Qed.

Lemma operation_result_inv (d : pydict) :
  operation_result d ->
  (exists output, d = succeeded output)
  \/ (exists output errors, d = failed output errors).
Proof.
  intros [output|output errors]; [left|right]; repeat eexists.
Qed.

(** Every call of [deploy_code] is a run of the pipeline. *)
Lemma deploy_code_pipeline (env : Env) (code port name fqbn : pystr) :
  pipeline env code port name fqbn (deploy_code env code port name fqbn).
Proof.
  destruct (write_sketch env code name) as [t1 [sketch_path|e]] eqn:Hw.
  2:{ rewrite (deploy_code_write_fails _ _ _ _ _ _ _ Hw).
      now apply failed_write. }
  destruct (compile_sketch env sketch_path fqbn) as [t2 [cr|e]] eqn:Hc.
  2:{ rewrite (deploy_code_compile_raises _ _ _ _ _ _ _ _ _ Hw Hc).
      eapply raised_compile; eassumption. }
  assert (Hop : operation_result cr).
  { apply (compile_sketch_operation_result env sketch_path fqbn).
    now rewrite Hc. }
  apply operation_result_inv in Hop as [[output ->]|(output & errors & ->)].
  2:{ rewrite (deploy_code_compile_fails _ _ _ _ _ _ _ _ _ _ Hw Hc).
      eapply failed_compile; eassumption. }
  destruct (upload_sketch env sketch_path port fqbn) as [t3 [ur|e]] eqn:Hu.
  2:{ rewrite (deploy_code_upload_raises _ _ _ _ _ _ _ _ _ _ _ Hw Hc Hu).
      eapply raised_upload; eassumption. }
  assert (Hop : operation_result ur).
  { apply (upload_sketch_operation_result env sketch_path port fqbn).
    now rewrite Hu. }
  apply operation_result_inv in Hop as [[output' ->]|(output' & errors & ->)].
  - rewrite (deploy_code_succeeds _ _ _ _ _ _ _ _ _ _ _ Hw Hc Hu).
    eapply all_stages_ok; eassumption.
  - rewrite (deploy_code_upload_fails _ _ _ _ _ _ _ _ _ _ _ _ Hw Hc Hu).
    eapply failed_upload; eassumption.
Qed.

(** C1: in every call of [deploy_code] the stages run in the order write,
    compile, upload, and a failing stage ends the call.  If writing fails
    nothing else is done; if writing succeeds and compiling fails, the
    result has [success] false, [stage] "compile" and as [error] the errors
    of the compile result (the compiler's standard error when it exits
    non-zero), and the uploader is not run; if all three stages succeed the
    result has [success] true and as [sketch_path] the folder that was
    written. *)
Theorem deploy_code_stages (env : Env) (code port name fqbn : pystr) :
  let w := write_sketch env code name in
  let run := deploy_code env code port name fqbn in
  (forall e, result w = Raise e ->
     trace run = trace w
     /\ result run = Ret (write_failure (exn_str e)))
  /\
  (forall sketch_path, result w = Ret sketch_path ->
     let c := compile_sketch env sketch_path fqbn in
     let u := upload_sketch env sketch_path port fqbn in
     (forall cr, result c = Ret cr ->
        dict_lookup (lit "success") cr = Some (PBool false) ->
        trace run = trace w ++ trace c
        /\ upload_calls (trace run) = 0%nat
        /\ exists d,
             result run = Ret d
             /\ dict_lookup (lit "success") d = Some (PBool false)
             /\ dict_lookup (lit "stage") d = Some (PStr (lit "compile"))
             /\ dict_lookup (lit "error") d = dict_lookup (lit "errors") cr
             /\ forall p, subprocess_run env (compile_argv sketch_path fqbn)
                          = Completed p ->
                          dict_lookup (lit "error") d = Some (PStr (stderr p)))
     /\
     (forall cr, result c = Ret cr ->
        dict_lookup (lit "success") cr = Some (PBool true) ->
        trace run = trace w ++ trace c ++ trace u
        /\ (forall ur, result u = Ret ur ->
              dict_lookup (lit "success") ur = Some (PBool false) ->
              exists d,
                result run = Ret d
                /\ dict_lookup (lit "success") d = Some (PBool false)
                /\ dict_lookup (lit "stage") d = Some (PStr (lit "upload"))
                /\ dict_lookup (lit "error") d
                   = dict_lookup (lit "errors") ur)
        /\ (forall ur, result u = Ret ur ->
              dict_lookup (lit "success") ur = Some (PBool true) ->
              exists d,
                result run = Ret d
                /\ dict_lookup (lit "success") d = Some (PBool true)
                /\ dict_lookup (lit "sketch_path") d
                   = Some (PStr sketch_path)
                /\ sketch_path = sketch_folder env name))).
Proof.
  intros w run. subst w run.
  pose proof (deploy_code_pipeline env code port name fqbn) as P.
  split.
  - intros e0 Hw. pipeline_cases P. split; reflexivity.
  - intros sketch_path Hw c u. subst c u.
    pose proof (write_sketch_returns_folder env code name sketch_path Hw)
      as Hfolder.
    split.
    + intros cr Hc Hfail. pipeline_cases P; try discriminate Hfail.
      split; [reflexivity|]. split.
      { rewrite upload_calls_app.
        pose proof (write_sketch_no_upload env code name) as H1.
        pose proof (compile_sketch_no_upload env (sketch_folder env name) fqbn)
          as H2.
        rewrite Hw' in H1. rewrite Hc' in H2. unfold trace in H1, H2.
        simpl in H1, H2. now rewrite H1, H2. }
      eexists. split; [reflexivity|].
      split; [reflexivity|]. split; [reflexivity|]. split; [reflexivity|].
      intros p Hp.
      rewrite (compile_sketch_completed _ _ _ _ Hp) in Hc'.
      injection Hc' as _ _ _ Herr.
      destruct (returncode p =? 0); [discriminate|].
      injection Herr as <-. reflexivity.
    + intros cr Hc Hok. split; [|split].
      * pipeline_cases P; try discriminate Hok; reflexivity.
      * intros ur Hu Hfail. pipeline_cases P;
          try discriminate Hok; try discriminate Hfail.
        eexists. repeat (split; [reflexivity|]). reflexivity.
      * intros ur Hu Hsucc. pipeline_cases P;
          try discriminate Hok; try discriminate Hsucc.
        eexists. repeat (split; [reflexivity|]). reflexivity.
Qed.

(** C10: when [write_sketch] succeeds and a later stage (compile or upload)
    fails, the failure result of [deploy_code] also carries [sketch_path],
    equal to the folder that was written; a result without [sketch_path]
    is a failure of the write stage, and a failure of the write stage has
    none. *)
Theorem deploy_code_failure_keeps_sketch_path
    (env : Env) (code port name fqbn : pystr) :
  let w := write_sketch env code name in
  let run := deploy_code env code port name fqbn in
  (forall sketch_path d,
     result w = Ret sketch_path ->
     result run = Ret d ->
     dict_lookup (lit "success") d = Some (PBool false) ->
     dict_lookup (lit "sketch_path") d = Some (PStr sketch_path)
     /\ sketch_path = sketch_folder env name
     /\ (dict_lookup (lit "stage") d = Some (PStr (lit "compile"))
         \/ dict_lookup (lit "stage") d = Some (PStr (lit "upload"))))
  /\
  (forall e,
     result w = Raise e ->
     exists d,
       result run = Ret d
       /\ dict_lookup (lit "success") d = Some (PBool false)
       /\ dict_lookup (lit "stage") d = Some (PStr (lit "write"))
       /\ dict_lookup (lit "sketch_path") d = None)
  /\
  (forall d,
     result run = Ret d ->
     dict_lookup (lit "sketch_path") d = None ->
     exists e, result w = Raise e
               /\ dict_lookup (lit "stage") d = Some (PStr (lit "write"))).
Proof.
  intros w run. subst w run.
  pose proof (deploy_code_pipeline env code port name fqbn) as P.
  split; [|split].
  - intros sketch_path d Hw Hd Hfail.
    pose proof (write_sketch_returns_folder env code name sketch_path Hw)
      as Hfolder.
    pipeline_cases P; try discriminate Hfail.
    + split; [reflexivity|]. split; [reflexivity|]. now left.
    + split; [reflexivity|]. split; [reflexivity|]. now right.
  - intros e0 Hw. pipeline_cases P.
    eexists. repeat (split; [reflexivity|]). reflexivity.
  - intros d Hd Hnone. pipeline_cases P; try discriminate Hnone.
    exists e. split; reflexivity.
Qed.

(* ================================================================= *)
(** ** list_arduino_boards: deduplication *)

Lemma hkey_eqb_eq (a b : hkey) : hkey_eqb a b = true <-> a = b.
Proof.
  destruct a, b; simpl; split; try discriminate; try reflexivity.
  - intros H. apply Z.eqb_eq in H. now subst.
  - intros [= ->]. apply Z.eqb_refl.
  - intros H. apply eqb_eq in H. now subst.
  - intros [= ->]. apply eqb_refl.
Qed.

Lemma seen_iff (k : hkey) (seen : list hkey) :
  existsb (hkey_eqb k) seen = true <-> In k seen.
Proof.
  rewrite existsb_exists. split.
  - intros (x & Hin & Heq). apply hkey_eqb_eq in Heq. now subst.
  - intros Hin. exists k. split; [assumption|]. now apply hkey_eqb_eq.
Qed.

(** One turn of the deduplication loop that does not raise looks at a
    record whose port has a key. *)
Lemma dedupe_cons (board : pydict) (rest : list pydict) (seen : list hkey)
    (unique_boards : list pydict) :
  dedupe (board :: rest) seen = Ret unique_boards ->
  exists k,
    port_key board = Some k
    /\ ((In k seen /\ dedupe rest seen = Ret unique_boards)
        \/ (~ In k seen
            /\ exists u, dedupe rest (k :: seen) = Ret u
                         /\ unique_boards = board :: u)).
Proof.
  simpl. unfold subscript, port_key.
  destruct (dict_lookup (lit "port") board) as [p|]; simpl; [|discriminate].
  destruct (py_hash_key p) as [k|e]; simpl; [|discriminate].
  intros H. exists k. split; [reflexivity|].
  destruct (existsb (hkey_eqb k) seen) eqn:Hseen.
  - left. split; [now apply seen_iff|assumption].
  - right. split.
    + intros Hin. apply seen_iff in Hin. congruence.
    + destruct (dedupe rest (k :: seen)) as [u|e]; simpl in H;
        [|discriminate].
      injection H as <-. now exists u.
Qed.

(** What the loop keeps has a key that was not seen before the loop. *)
Lemma dedupe_fresh (boards : list pydict) :
  forall seen unique_boards,
    dedupe boards seen = Ret unique_boards ->
    forall b, In b unique_boards ->
              exists k, port_key b = Some k /\ ~ In k seen.
Proof.
  induction boards as [|board rest IH]; intros seen u Hd b Hin.
  - injection Hd as <-. destruct Hin.
  - apply dedupe_cons in Hd
      as (k & Hk & [[Hseen Hrest]|(Hfresh & u' & Hrest & ->)]).
    + eapply IH; eassumption.
    + destruct Hin as [<-|Hin].
      * now exists k.
      * destruct (IH _ _ Hrest b Hin) as (k' & Hk' & Hnot).
        exists k'. split; [assumption|].
        intros H. apply Hnot. now right.
Qed.

(** No two kept records have the same port key. *)
Lemma dedupe_NoDup (boards : list pydict) :
  forall seen unique_boards,
    dedupe boards seen = Ret unique_boards ->
    NoDup (map port_key unique_boards).
Proof.
  induction boards as [|board rest IH]; intros seen u Hd.
  - injection Hd as <-. constructor.
  - apply dedupe_cons in Hd
      as (k & Hk & [[Hseen Hrest]|(Hfresh & u' & Hrest & ->)]).
    + eapply IH; eassumption.
    + simpl. constructor; [|eapply IH; eassumption].
      rewrite Hk. intros Hin. apply in_map_iff in Hin as (b & Hb & Hin).
      destruct (dedupe_fresh _ _ _ Hrest b Hin) as (k' & Hk' & Hnot).
      apply Hnot. left. congruence.
Qed.

(** Every record the loop looks at has a port key. *)
Lemma dedupe_keys (boards : list pydict) :
  forall seen unique_boards,
    dedupe boards seen = Ret unique_boards ->
    forall b, In b boards -> exists k, port_key b = Some k.
Proof.
  induction boards as [|board rest IH]; intros seen u Hd b Hin.
  - destruct Hin.
  - apply dedupe_cons in Hd
      as (k & Hk & [[Hseen Hrest]|(Hfresh & u' & Hrest & ->)]);
      (destruct Hin as [<-|Hin]; [now exists k | eapply IH; eassumption]).
Qed.

(** The loop keeps exactly the first record of every port that was not
    seen before the loop. *)
Lemma dedupe_first_seen (boards : list pydict) :
  forall seen unique_boards,
    dedupe boards seen = Ret unique_boards ->
    forall b,
      In b unique_boards <->
      exists pre post k,
        boards = pre ++ b :: post
        /\ port_key b = Some k
        /\ ~ In k seen
        /\ ~ In (Some k) (map port_key pre).
Proof.
  induction boards as [|board rest IH]; intros seen u Hd b.
  - injection Hd as <-. split; [intros []|].
    intros (pre & post & k & H & _). now destruct pre.
  - apply dedupe_cons in Hd
      as (k & Hk & [[Hseen Hrest]|(Hfresh & u' & Hrest & ->)]).
    + rewrite (IH _ _ Hrest b). split.
      * intros (pre & post & k' & -> & Hk' & Hnot & Hpre).
        exists (board :: pre), post, k'. repeat split; auto.
        simpl. intros [H|H]; [|now apply Hpre].
        rewrite Hk in H. injection H as ->. now apply Hnot.
      * intros (pre & post & k' & Heq & Hk' & Hnot & Hpre).
        destruct pre as [|x pre]; simpl in Heq; injection Heq as -> ->.
        -- rewrite Hk in Hk'. injection Hk' as ->. contradiction.
        -- exists pre, post, k'. repeat split; auto.
           intros H. apply Hpre. now right.
    + split.
      * intros [<-|Hin].
        -- exists [], rest, k. repeat split; auto.
        -- apply (IH _ _ Hrest b) in Hin
             as (pre & post & k' & -> & Hk' & Hnot & Hpre).
           exists (board :: pre), post, k'. repeat split; auto.
           ++ intros H. apply Hnot. now right.
           ++ simpl. intros [H|H]; [|now apply Hpre].
              rewrite Hk in H. injection H as ->. apply Hnot. now left.
      * intros (pre & post & k' & Heq & Hk' & Hnot & Hpre).
        destruct pre as [|x pre]; simpl in Heq; injection Heq as -> ->.
        -- now left.
        -- right. apply (IH _ _ Hrest b).
           exists pre, post, k'. repeat split; auto.
           ++ intros [H|H]; [|contradiction].
              apply Hpre. left. congruence.
           ++ intros H. apply Hpre. now right.
Qed.

(* ================================================================= *)
(** ** list_arduino_boards: the two sources *)

Lemma serial_records_in (env : Env) (ports : list ListPortInfo) (b : pydict) :
  In b (serial_records env ports) <->
  exists port, In port ports /\ is_arduino env port = true
               /\ b = serial_record port.
Proof.
  induction ports as [|port rest IH]; simpl.
  - split; [intros []|intros (? & [] & _)].
  - destruct (is_arduino env port) eqn:Ha; simpl; rewrite IH; split.
    + intros [<-|(q & Hq & Hqa & ->)].
      * exists port. auto.
      * exists q. auto.
    + intros (q & [<-|Hq] & Hqa & ->); [now left|].
      right. exists q. auto.
    + intros (q & Hq & Hqa & ->). exists q. auto.
    + intros (q & [<-|Hq] & Hqa & ->); [congruence|].
      exists q. auto.
Qed.

Lemma serial_record_port (port : ListPortInfo) :
  port_key (serial_record port) = Some (HStr (device port)).
Proof. reflexivity. Qed.

Lemma serial_record_no_fqbn (port : ListPortInfo) :
  dict_lookup (lit "fqbn") (serial_record port) = None.
Proof. reflexivity. Qed.

(** A record of the tool source has the four fields of [tool_record]; its
    [fqbn] is the one the tool reports for the first matching board, or the
    default. *)
Lemma cli_record_shape (detected : pyval) (b : pydict) :
  cli_record detected = Ret (Some b) ->
  exists address name fqbn protocol,
    b = tool_record address name fqbn protocol
    /\ truthy address = true
    /\ (fqbn = PStr default_fqbn \/ reported_fqbn detected fqbn).
Proof.
  unfold cli_record.
  destruct (py_get detected (lit "port") (PDict [])) as [port_info|e] eqn:Hp;
    simpl; [|discriminate].
  destruct (py_get port_info (lit "address") (PStr [])) as [address|e] eqn:Ha;
    simpl; [|discriminate].
  destruct (truthy address) eqn:Hta; simpl; [|discriminate].
  destruct (py_get port_info (lit "protocol") (PStr []))
    as [protocol|e] eqn:Hproto; simpl; [|discriminate].
  destruct (if truthy protocol
            then obind (py_in (lit "serial") protocol)
                       (fun b0 => Ret (negb b0))
            else Ret false) as [skip|e]; simpl; [|discriminate].
  destruct skip; [discriminate|].
  destruct (py_get detected (lit "matching_boards") PNone) as [mb|e] eqn:Hmb;
    simpl; [|discriminate].
  destruct (truthy mb) eqn:Htmb.
  - destruct (py_index0 mb) as [board_info|e] eqn:Hix; simpl; [|discriminate].
    destruct board_info as [| | | | |first]; simpl; try discriminate.
    intros [= <-].
    eexists address, _, _, protocol. split; [reflexivity|].
    split; [assumption|].
    destruct (dict_lookup (lit "fqbn") first) as [v|] eqn:Hf.
    + right. exists mb, first. auto.
    + now left.
  - intros [= <-].
    eexists address, _, _, protocol. split; [reflexivity|].
    split; [assumption|]. now left.
Qed.

Lemma cli_records_spec (items : list pyval) :
  forall arduino_boards all,
    cli_records items arduino_boards = Ret all ->
    exists tool,
      all = arduino_boards ++ tool
      /\ Forall (fun b => exists detected,
                   In detected items /\ cli_record detected = Ret (Some b))
                tool.
Proof.
  induction items as [|detected rest IH]; intros acc all H; simpl in H.
  - injection H as <-. exists []. split; [now rewrite app_nil_r|constructor].
  - destruct (cli_record detected) as [[board|]|e] eqn:Hr; simpl in H;
      [| |discriminate].
    + destruct (IH _ _ H) as (tool & -> & Htool).
      exists (board :: tool). split; [now rewrite <- app_assoc|].
      constructor.
      * exists detected. split; [now left|assumption].
      * eapply Forall_impl; [|exact Htool].
        intros b (d & Hd & Hb). exists d. split; [now right|assumption].
    + destruct (IH _ _ H) as (tool & -> & Htool).
      exists tool. split; [reflexivity|].
      eapply Forall_impl; [|exact Htool].
      intros b (d & Hd & Hb). exists d. split; [now right|assumption].
Qed.

(** Method 2 only appends, and what it appends are records of ports the
    tool reported. *)
Lemma cli_detection_spec (env : Env) (arduino_boards all : list pydict) :
  result (cli_detection env arduino_boards) = Ret all ->
  exists tool,
    all = arduino_boards ++ tool
    /\ Forall (fun b => exists detected, cli_record detected = Ret (Some b))
              tool.
Proof.
  assert (Hskip : arduino_boards = all ->
                  exists tool,
                    all = arduino_boards ++ tool
                    /\ Forall (fun b => exists detected,
                                 cli_record detected = Ret (Some b)) tool).
  { intros <-. exists []. split; [now rewrite app_nil_r|constructor]. }
  unfold cli_detection, run, try_except, bind, emit, liftO, ret, result.
  destruct (subprocess_run env _) as [c|e]; simpl.
  - destruct (returncode c =? 0); simpl; [|now intros [= <-]; auto].
    destruct (json_loads env (stdout c)) as [data|]; simpl;
      [|now intros [= <-]; auto].
    destruct (py_get data (lit "detected_ports") (PList []))
      as [ports|e]; simpl;
      [|destruct (exn_cls e); simpl; try discriminate;
        intros [= <-]; auto].
    destruct (py_iter ports) as [items|e]; simpl;
      [|destruct (exn_cls e); simpl; try discriminate;
        intros [= <-]; auto].
    destruct (cli_records items arduino_boards) as [l|e] eqn:Hl; simpl;
      [|destruct (exn_cls e); simpl; try discriminate;
        intros [= <-]; auto].
    intros [= <-].
    destruct (cli_records_spec _ _ _ Hl) as (tool & -> & Htool).
    exists tool. split; [reflexivity|].
    eapply Forall_impl; [|exact Htool].
    intros b (d & _ & Hb). now exists d.
  - destruct (exn_cls e); simpl; try discriminate; intros [= <-]; auto.
Qed.

Lemma list_arduino_boards_split (env : Env) (boards : list pydict) :
  result (list_arduino_boards env) = Ret boards ->
  exists all,
    result (cli_detection env (heuristic_records env)) = Ret all
    /\ dedupe all [] = Ret boards.
Proof.
  unfold list_arduino_boards, heuristic_records, bind, liftO, result.
  destruct (cli_detection env _) as [t [all|e]]; simpl; [|discriminate].
  destruct (dedupe all []) as [u|e] eqn:Hd; simpl; [|discriminate].
  intros [= <-]. now exists all.
Qed.

Lemma serial_not_tool_record (port : ListPortInfo)
    (address name fqbn protocol : pyval) :
  serial_record port <> tool_record address name fqbn protocol.
Proof.
  unfold serial_record, tool_record. intros H.
  injection H as _ _ H _. vm_compute in H. discriminate H.
Qed.

Lemma hkey_eq_dec (a b : option hkey) : {a = b} + {a <> b}.
Proof.
  destruct a as [a|], b as [b|]; try (right; discriminate); [|now left].
  destruct (hkey_eqb a b) eqn:H.
  - left. f_equal. now apply hkey_eqb_eq.
  - right. intros [= ->]. 
    assert (hkey_eqb b b = true) by now apply hkey_eqb_eq.
    congruence.
Qed.

(** The first record with a given port key. *)
Lemma first_with_key (l : list pydict) (x : pydict) :
  In x l ->
  exists pre y post,
    l = pre ++ y :: post
    /\ port_key y = port_key x
    /\ ~ In (port_key x) (map port_key pre).
Proof.
  induction l as [|a l IH]; intros Hin; [destruct Hin|].
  destruct (hkey_eq_dec (port_key a) (port_key x)) as [Heq|Hne].
  - exists [], a, l. repeat split; auto.
  - destruct Hin as [->|Hin]; [congruence|].
    destruct (IH Hin) as (pre & y & post & -> & Hy & Hpre).
    exists (a :: pre), y, post. repeat split; auto.
    simpl. intros [H|H]; auto.
Qed.

(** C5: in every list [list_arduino_boards] returns no port occurs twice,
    neither as a value nor up to the equality of the deduplication set.
    The list holds exactly the records that were the first with their port
    in the scan, which visits the USB-heuristic records before the records
    of the external tool: when both sources report a port, a heuristic
    record for it is in the list and the tool's record for it is not. *)
Theorem list_arduino_boards_unique_ports (env : Env) (boards : list pydict) :
  result (list_arduino_boards env) = Ret boards ->
  NoDup (map port_key boards)
  /\ NoDup (map (dict_lookup (lit "port")) boards)
  /\ (forall b, In b boards -> exists k, port_key b = Some k)
  /\ exists tool,
       result (cli_detection env (heuristic_records env))
       = Ret (heuristic_records env ++ tool)
       /\ (forall b,
             In b boards <->
             exists pre post,
               heuristic_records env ++ tool = pre ++ b :: post
               /\ ~ In (port_key b) (map port_key pre))
       /\ (forall h t,
             In h (heuristic_records env) ->
             In t tool ->
             port_key t = port_key h ->
             ~ In t boards
             /\ exists h', In h' (heuristic_records env)
                           /\ In h' boards
                           /\ port_key h' = port_key h).
Proof.
  intros Hres.
  destruct (list_arduino_boards_split env boards Hres) as (all & Hall & Hd).
  destruct (cli_detection_spec env _ _ Hall) as (tool & -> & Htool).
  assert (Hfirst : forall b,
             In b boards <->
             exists pre post,
               heuristic_records env ++ tool = pre ++ b :: post
               /\ ~ In (port_key b) (map port_key pre)).
  { intros b. rewrite (dedupe_first_seen _ _ _ Hd b). split.
    - intros (pre & post & k & Heq & Hk & _ & Hpre).
      exists pre, post. rewrite Hk. auto.
    - intros (pre & post & Heq & Hpre).
      destruct (dedupe_keys _ _ _ Hd b) as [k Hk].
      { rewrite Heq. apply in_elt. }
      exists pre, post, k. rewrite Hk in Hpre. repeat split; auto. }
  split; [eapply dedupe_NoDup; eassumption|].
  split.
  { apply (NoDup_map_inv
             (fun p => match p with
                       | Some v => match py_hash_key v with
                                   | Ret k => Some k
                                   | Raise _ => None
                                   end
                       | None => None
                       end)).
    rewrite map_map. eapply dedupe_NoDup; eassumption. }
  split.
  { intros b Hb.
    destruct (dedupe_fresh _ _ _ Hd b Hb) as (k & Hk & _). now exists k. }
  exists tool. split; [assumption|]. split; [exact Hfirst|].
  intros h t Hh Ht Hkey. split.
  - intros Hin. apply Hfirst in Hin as (pre & post & Heq & Hpre).
    apply Hpre. rewrite Hkey.
    apply app_eq_app in Heq as [l [[Hl Hr]|[Hl Hr]]].
    + (* the position lies in the heuristic part *)
      destruct l as [|x l].
      * rewrite app_nil_r in Hl. subst pre. now apply in_map.
      * simpl in Hr. injection Hr as <- _.
        assert (Hx : In t (heuristic_records env)).
        { rewrite Hl. apply in_elt. }
        unfold heuristic_records in Hx.
        destruct (HAS_SERIAL env); [|destruct Hx].
        apply serial_records_in in Hx as (p & _ & _ & Hp).
        rewrite Forall_forall in Htool.
        destruct (Htool _ Ht) as (d & Hrec).
        apply cli_record_shape in Hrec as (a & n & f & pr & Hshape & _).
        exfalso. apply (serial_not_tool_record p a n f pr). congruence.
    + subst pre. rewrite map_app. apply in_or_app. left. now apply in_map.
  - destruct (first_with_key _ _ Hh) as (pre & y & post & Heq & Hy & Hpre).
    exists y. split; [rewrite Heq; apply in_elt|]. split; [|assumption].
    apply Hfirst. exists pre, (post ++ tool). split.
    + rewrite Heq, <- app_assoc. reflexivity.
    + now rewrite Hy.
Qed.

(** The kept records are records of the scan. *)
Lemma dedupe_incl (boards unique_boards : list pydict) (seen : list hkey) :
  dedupe boards seen = Ret unique_boards ->
  forall b, In b unique_boards -> In b boards.
Proof.
  intros Hd b Hin.
  apply (dedupe_first_seen _ _ _ Hd b) in Hin as (pre & post & k & -> & _).
  apply in_elt.
Qed.

(** What one turn of the loop of method 2 appends: the address of the
    entry and the fqbn the entry stands for. *)
Lemma cli_record_fqbn (detected : pyval) (b : pydict) :
  cli_record detected = Ret (Some b) ->
  exists address name fqbn protocol,
    b = tool_record address name fqbn protocol
    /\ detected_address detected address
    /\ tool_fqbn detected fqbn.
Proof.
  unfold cli_record, detected_address, tool_fqbn.
  destruct (py_get detected (lit "port") (PDict [])) as [port_info|e] eqn:Hp;
    simpl; [|discriminate].
  destruct (py_get port_info (lit "address") (PStr [])) as [address|e] eqn:Ha;
    simpl; [|discriminate].
  destruct (truthy address) eqn:Hta; simpl; [|discriminate].
  destruct (py_get port_info (lit "protocol") (PStr []))
    as [protocol|e] eqn:Hproto; simpl; [|discriminate].
  destruct (if truthy protocol
            then obind (py_in (lit "serial") protocol)
                       (fun b0 => Ret (negb b0))
            else Ret false) as [skip|e]; simpl; [|discriminate].
  destruct skip; [discriminate|].
  destruct (py_get detected (lit "matching_boards") PNone) as [mb|e] eqn:Hmb;
    simpl; [|discriminate].
  destruct (truthy mb) eqn:Htmb.
  - destruct (py_index0 mb) as [board_info|e] eqn:Hix; simpl; [|discriminate].
    destruct board_info as [| | | | |first]; simpl; try discriminate.
    intros [= <-].
    eexists address, _, _, protocol. split; [reflexivity|].
    split; [exists port_info; auto|].
    exists mb. split; [reflexivity|]. rewrite Htmb.
    exists first. split; [assumption|reflexivity].
  - intros [= <-].
    eexists address, _, _, protocol. split; [reflexivity|].
    split; [exists port_info; auto|].
    exists mb. split; [reflexivity|]. now rewrite Htmb.
Qed.

(** Method 2 only appends, and each record it appends is the record of an
    entry of [detected_ports] in the tool's output. *)
Lemma cli_detection_detected (env : Env) (arduino_boards all : list pydict) :
  result (cli_detection env arduino_boards) = Ret all ->
  exists tool,
    all = arduino_boards ++ tool
    /\ Forall (fun b => exists detected,
                 tool_detected env detected
                 /\ cli_record detected = Ret (Some b))
              tool.
Proof.
  assert (Hskip : arduino_boards = all ->
                  exists tool,
                    all = arduino_boards ++ tool
                    /\ Forall (fun b => exists detected,
                                 tool_detected env detected
                                 /\ cli_record detected = Ret (Some b)) tool).
  { intros <-. exists []. split; [now rewrite app_nil_r|constructor]. }
  unfold cli_detection, run, try_except, bind, emit, liftO, ret, result.
  destruct (subprocess_run env _) as [c|e] eqn:Hrun; simpl.
  - destruct (returncode c =? 0) eqn:Hcode; simpl;
      [|now intros [= <-]; auto].
    apply Z.eqb_eq in Hcode.
    destruct (json_loads env (stdout c)) as [data|] eqn:Hjson; simpl;
      [|now intros [= <-]; auto].
    destruct (py_get data (lit "detected_ports") (PList []))
      as [ports|e] eqn:Hports; simpl;
      [|destruct (exn_cls e); simpl; try discriminate;
        intros [= <-]; auto].
    destruct (py_iter ports) as [items|e] eqn:Hitems; simpl;
      [|destruct (exn_cls e); simpl; try discriminate;
        intros [= <-]; auto].
    destruct (cli_records items arduino_boards) as [l|e] eqn:Hl; simpl;
      [|destruct (exn_cls e); simpl; try discriminate;
        intros [= <-]; auto].
    intros [= <-].
    destruct (cli_records_spec _ _ _ Hl) as (tool & -> & Htool).
    exists tool. split; [reflexivity|].
    eapply Forall_impl; [|exact Htool].
    intros b (d & Hd & Hb). exists d. split; [|assumption].
    exists c, data, ports, items. auto 10.
  - destruct (exn_cls e); simpl; try discriminate; intros [= <-]; auto.
Qed.

(** C7, as the code has it: a record of the returned list that comes from
    the external tool is the record of an entry of [detected_ports] in the
    tool's output; it has an [fqbn] field, holding what that entry gives as
    fqbn of its first matching board, and the default "arduino:avr:uno"
    when the entry names no matching board or the board has no fqbn; a
    record that comes from the USB-ID heuristic has the fields port,
    description, hwid, vid, pid, and no [fqbn] field. *)
Theorem list_arduino_boards_fqbn_by_source (env : Env) (boards : list pydict) :
  result (list_arduino_boards env) = Ret boards ->
  forall b, In b boards ->
    (exists port,
       HAS_SERIAL env = true /\ In port (comports env)
       /\ is_arduino env port = true
       /\ b = serial_record port
       /\ dict_lookup (lit "fqbn") b = None)
    \/
    (exists detected address name fqbn protocol,
       tool_detected env detected
       /\ detected_address detected address
       /\ cli_record detected = Ret (Some b)
       /\ b = tool_record address name fqbn protocol
       /\ dict_lookup (lit "fqbn") b = Some fqbn
       /\ tool_fqbn detected fqbn).
Proof.
  intros Hres b Hb.
  destruct (list_arduino_boards_split env boards Hres) as (all & Hall & Hd).
  destruct (cli_detection_detected env _ _ Hall) as (tool & -> & Htool).
  apply (dedupe_incl _ _ _ Hd) in Hb.
  apply in_app_or in Hb as [Hh|Ht].
  - left. unfold heuristic_records in Hh.
    destruct (HAS_SERIAL env); [|destruct Hh].
    apply serial_records_in in Hh as (port & Hport & Ha & ->).
    exists port. repeat split; auto.
  - right. rewrite Forall_forall in Htool.
    destruct (Htool _ Ht) as (detected & Hdet & Hrec).
    destruct (cli_record_fqbn _ _ Hrec)
      as (address & name & fqbn & protocol & -> & Haddr & Hfqbn).
    exists detected, address, name, fqbn, protocol.
    repeat split; auto.
Qed.

(** C7 as stated fails: with one official board on USB and no
    [arduino-cli], the list holds the heuristic record of the board, which
    has no [fqbn] field. *)
Lemma usb_record_has_no_fqbn :
  result (list_arduino_boards env_usb_only) = Ret [serial_record uno_port]
  /\ In (serial_record uno_port) [serial_record uno_port]
  /\ ~ (exists v, dict_lookup (lit "fqbn") (serial_record uno_port) = Some v).
Proof.
  split; [vm_compute; reflexivity|].
  split; [now left|].
  intros [v H]. vm_compute in H. discriminate H.
Qed.

(** C7 on the record of a Mega that only the tool reports, with the fqbn
    the tool gives for it, and on the record of a clone the tool has no
    matching board for, with the default. *)
Lemma list_arduino_boards_fqbn_by_source_witness :
  (exists detected,
     tool_detected env_mega_tool_only detected
     /\ detected_address detected (PStr (lit "/dev/ttyACM0"))
     /\ tool_fqbn detected (PStr mega)
     /\ ~ tool_fqbn detected (PStr default_fqbn))
  /\ (exists detected,
        tool_detected env_both_sources detected
        /\ detected_address detected (PStr (lit "/dev/ttyUSB0"))
        /\ tool_fqbn detected (PStr default_fqbn)).
Proof.
  split.
  - destruct (list_arduino_boards_fqbn_by_source env_mega_tool_only
                [ tool_record (PStr (lit "/dev/ttyACM0"))
                              (PStr (lit "Arduino Mega or Mega 2560"))
                              (PStr mega) (PStr (lit "serial")) ]
                eq_refl _ (or_introl eq_refl))
      as [(port & _ & _ & _ & Hb & _)
         |(detected & address & name & fqbn & protocol
           & Hdet & Haddr & _ & Hb & _ & Hfqbn)].
    + discriminate Hb.
    + injection Hb as <- _ <- _.
      exists detected. repeat split; try assumption.
      intros (mb & Hmb & Hdefault).
      destruct Hfqbn as (mb' & Hmb' & Hreported).
      rewrite Hmb in Hmb'. injection Hmb' as <-.
      destruct (truthy mb).
      * destruct Hdefault as (board_info & Hix & Hd).
        destruct Hreported as (board_info' & Hix' & Hr).
        rewrite Hix in Hix'. injection Hix' as <-.
        rewrite <- Hd in Hr. discriminate Hr.
      * discriminate Hreported.
  - destruct (list_arduino_boards_fqbn_by_source env_both_sources
                [ serial_record uno_port;
                  tool_record (PStr (lit "/dev/ttyUSB0"))
                              (PStr (lit "Arduino (clone/unrecognised)"))
                              (PStr default_fqbn) (PStr (lit "serial")) ]
                eq_refl _ (or_intror (or_introl eq_refl)))
      as [(port & _ & _ & _ & Hb & _)
         |(detected & address & name & fqbn & protocol
           & Hdet & Haddr & _ & Hb & _ & Hfqbn)].
    + discriminate Hb.
    + injection Hb as <- _ <- _.
      exists detected. repeat split; assumption.
Defined.

(* ================================================================= *)
(** ** list_arduino_boards: failing sources *)

Lemma dedupe_serial_records (env : Env) (ports : list ListPortInfo) :
  forall seen, exists unique_boards,
    dedupe (serial_records env ports) seen = Ret unique_boards.
Proof.
  induction ports as [|port rest IH]; intros seen; simpl.
  - now exists [].
  - destruct (is_arduino env port); [|apply IH].
    change (dedupe (serial_record port :: serial_records env rest) seen)
      with (if existsb (hkey_eqb (HStr (device port))) seen
            then dedupe (serial_records env rest) seen
            else obind (dedupe (serial_records env rest)
                               (HStr (device port) :: seen))
                       (fun u => Ret (serial_record port :: u))).
    destruct (existsb _ seen); [apply IH|].
    destruct (IH (HStr (device port) :: seen)) as [u ->].
    now exists (serial_record port :: u).
Qed.

(** For those outcomes, and whether or not pyserial is there, discovery
    returns: the tool source is skipped. *)
Lemma list_arduino_boards_degrades (env : Env) :
  tool_skipped env ->
  exists boards,
    result (list_arduino_boards env) = Ret boards
    /\ dedupe (heuristic_records env) [] = Ret boards.
Proof.
  unfold tool_skipped. intros Hskip.
  assert (Hcli : result (cli_detection env (heuristic_records env))
                 = Ret (heuristic_records env)).
  { unfold cli_detection, run, try_except, bind, emit, liftO, ret, result.
    destruct (subprocess_run env _) as [c|e]; simpl.
    - destruct Hskip as [Hrc|Hjson].
      + apply Z.eqb_neq in Hrc. now rewrite Hrc.
      + destruct (returncode c =? 0); [|reflexivity].
        simpl. now rewrite Hjson.
    - destruct Hskip as [-> | ->]; reflexivity. }
  assert (Hd : exists u, dedupe (heuristic_records env) [] = Ret u).
  { unfold heuristic_records. destruct (HAS_SERIAL env).
    - apply dedupe_serial_records.
    - now exists []. }
  destruct Hd as [u Hu]. exists u. split; [|assumption].
  unfold list_arduino_boards, bind, liftO, result in *.
  fold (heuristic_records env).
  destruct (cli_detection env (heuristic_records env)) as [t r].
  simpl in Hcli. subst r. now rewrite Hu.
Qed.

(** When the tool exits with 0 and its output is JSON but not an object
    (an array, a string, a number, [null], [true]), [data.get] raises
    [AttributeError] and so does discovery. *)
Lemma list_arduino_boards_raises_on_non_object
    (env : Env) (c : completed_process) (data : pyval) :
  subprocess_run env [lit "arduino-cli"; lit "board"; lit "list";
                      lit "--format"; lit "json"] = Completed c ->
  returncode c = 0 ->
  json_loads env (stdout c) = Some data ->
  (forall d, data <> PDict d) ->
  exists e, result (list_arduino_boards env) = Raise e
            /\ exn_cls e = AttributeError.
Proof.
  intros Hrun Hrc Hjson Hshape.
  unfold list_arduino_boards, cli_detection, run, try_except, bind, emit,
    liftO, ret, result.
  rewrite Hrun. simpl. rewrite Hrc. simpl. rewrite Hjson. simpl.
  destruct data as [| | | | |d]; simpl;
    try (eexists; split; reflexivity).
  now elim (Hshape d).
Qed.

(** C8 fails on the code: an [arduino-cli] that exits with 0 and prints a
    JSON array (here the empty one) makes [json.loads] return a list, and
    [data.get] raises [AttributeError], which no handler of
    [list_arduino_boards] catches. *)
Theorem list_arduino_boards_raises_on_array :
  subprocess_run env_array_output
    [lit "arduino-cli"; lit "board"; lit "list"; lit "--format"; lit "json"]
  = Completed (mkCompleted 0 (lit "[]") [])
  /\ json_loads env_array_output (lit "[]") = Some (PList [])
  /\ result (list_arduino_boards env_array_output)
     = Raise (mkExn AttributeError
                (lit "'list' object has no attribute 'get'")).
Proof.
  repeat split; vm_compute; reflexivity.
Qed.

(* ================================================================= *)
(** ** write_sketch: the sanitized name *)

(** The sanitized name is never empty, whatever the character tables. *)
Lemma safe_name_nonempty (env : Env) (name : pystr) :
  safe_name env name <> [].
Proof.
  unfold safe_name.
  destruct (str_lower env _) as [|c s]; simpl; [|discriminate].
  vm_compute. discriminate.
Qed.

(** A name without alphanumerics and underscores maps to "sketch", as the
    lowercase of the empty string is empty. *)
Lemma safe_name_default (env : Env) (name : pystr) :
  str_lower env [] = [] ->
  forallb (fun c => negb (kept env c)) name = true ->
  safe_name env name = lit "sketch".
Proof.
  intros Hlow Hname. unfold safe_name.
  assert (Hf : filter (fun c => str_isalnum env c || (c =? 95)%N) name = []).
  { induction name as [|c name IH]; [reflexivity|].
    simpl in Hname. apply andb_true_iff in Hname as [Hc Hrest].
    simpl. unfold kept in Hc. apply negb_true_iff in Hc. rewrite Hc.
    now apply IH. }
  now rewrite Hf, Hlow.
Qed.

Lemma ascii_lower_char_kept (c : N) :
  (ascii_isalnum c || (c =? 95)%N) = true ->
  lower_alnum_underscore (ascii_lower_char c) = true.
Proof.
  unfold ascii_isalnum, lower_alnum_underscore, ascii_lower_char.
  intros H.
  destruct ((65 <=? c) && (c <=? 90))%N eqn:E.
  - apply andb_true_iff in E as [E1 E2].
    apply N.leb_le in E1, E2.
    assert (H1 : (97 <=? c + 32)%N = true) by (apply N.leb_le; lia).
    assert (H2 : (c + 32 <=? 122)%N = true) by (apply N.leb_le; lia).
    rewrite H1, H2. simpl. now rewrite orb_true_r.
  - rewrite orb_false_r in H. exact H.
Qed.

(** For a name of ASCII characters, on which the tables are the ASCII
    ones, the sanitized name consists of lowercase letters, digits and
    underscores. *)
Lemma safe_name_ascii (env : Env) (name : pystr) :
  (forall c, (c < 128)%N -> str_isalnum env c = ascii_isalnum c) ->
  (forall s, Forall (fun c => (c < 128)%N) s ->
             str_lower env s = map ascii_lower_char s) ->
  Forall (fun c => (c < 128)%N) name ->
  forallb lower_alnum_underscore (safe_name env name) = true.
Proof.
  intros Halnum Hlower Hascii. unfold safe_name.
  set (f := filter (fun c => str_isalnum env c || (c =? 95)%N) name).
  assert (Hf : Forall (fun c => (c < 128)%N /\ (ascii_isalnum c || (c =? 95)%N) = true) f).
  { subst f. induction Hascii as [|c name Hc Hrest IH]; simpl; [constructor|].
    destruct (str_isalnum env c || (c =? 95)%N) eqn:Hk; [|exact IH].
    constructor; [|exact IH]. split; [assumption|].
    now rewrite <- (Halnum c Hc). }
  rewrite Hlower by (eapply Forall_impl; [|exact Hf]; now intros c [H _]).
  destruct (is_empty (map ascii_lower_char f)) eqn:He; [reflexivity|].
  clear He. induction Hf as [|c f [Hc Hk] Hrest IH]; [reflexivity|].
  simpl. rewrite IH, andb_true_r. now apply ascii_lower_char_kept.
Qed.

(** C6 fails on the code for a name outside ASCII: U+0130 is alphanumeric
    and is kept by the filter; lowercasing, which comes after the filter,
    turns it into U+0069 U+0307, and U+0307 (COMBINING DOT ABOVE) is
    neither alphanumeric nor an underscore. *)
Theorem safe_name_dotted_capital_i (env : Env) :
  str_isalnum env 0x130 = true ->
  str_lower env [0x130%N] = [0x69%N; 0x307%N] ->
  str_isalnum env 0x307 = false ->
  safe_name env [0x130%N] = [0x69%N; 0x307%N]
  /\ forallb (kept env) (safe_name env [0x130%N]) = false.
Proof.
  intros Hkeep Hlower Hmark.
  assert (Hname : safe_name env [0x130%N] = [0x69%N; 0x307%N]).
  { unfold safe_name. simpl. rewrite Hkeep. simpl. now rewrite Hlower. }
  split; [exact Hname|].
  rewrite Hname. simpl. unfold kept at 2. rewrite Hmark. simpl.
  apply andb_false_r.
Qed.

(** C6 on tables that are the ASCII ones extended by U+0130. *)
Lemma safe_name_dotted_capital_i_witness :
  safe_name env_ok [0x130%N] = [0x69%N; 0x307%N]
  /\ forallb (kept env_ok) (safe_name env_ok [0x130%N]) = false.
Proof.
  apply (safe_name_dotted_capital_i env_ok); reflexivity.
Defined.

(* ================================================================= *)
(** ** read_serial *)

Lemma poll_once_line (env : Env) (i : nat) (output_lines : list pystr) (w : Z) :
  serial_in_waiting env i = Ret w ->
  poll_once env i output_lines = Ret (output_lines ++ line_at env i).
Proof.
  intros Hw. unfold poll_once, line_at. rewrite Hw. simpl.
  destruct (negb (w =? 0)); [|now rewrite app_nil_r].
  destruct (serial_readline env i) as [raw|e]; [|now rewrite app_nil_r].
  destruct (negb (is_empty (strip raw))); [reflexivity|now rewrite app_nil_r].
Qed.

(** A window of [k] polls starting at poll [i], none of which raises from
    [ser.in_waiting], ends with the lines of these polls appended. *)
Lemma poll_loop_window (env : Env) (end_time : Z) (k : nat) :
  forall (i fuel : nat) (output_lines : list pystr),
    (forall j, (i <= j < i + k)%nat -> loop_time env (S j) < end_time) ->
    end_time <= loop_time env (S (i + k)) ->
    (forall j, (i <= j < i + k)%nat ->
               exists w, serial_in_waiting env j = Ret w) ->
    (k < fuel)%nat ->
    poll_loop env fuel i end_time output_lines
    = Some (Ret (output_lines ++ flat_map (line_at env) (seq i k))).
Proof.
  induction k as [|k IH]; intros i fuel lines Hin Hout Hw Hfuel;
    (destruct fuel as [|fuel]; [lia|]); simpl.
  - rewrite Nat.add_0_r in Hout.
    apply Z.ltb_ge in Hout. rewrite Hout. now rewrite app_nil_r.
  - assert (Hi : (loop_time env (S i) <? end_time) = true).
    { apply Z.ltb_lt, Hin. lia. }
    rewrite Hi.
    destruct (Hw i) as [w Hwi]; [lia|].
    rewrite (poll_once_line env i lines w Hwi).
    rewrite (IH (S i) fuel (lines ++ line_at env i)).
    + now rewrite <- app_assoc.
    + intros j Hj. apply Hin. lia.
    + replace (S i + k)%nat with (i + S k)%nat by lia. exact Hout.
    + intros j Hj. apply Hw. lia.
    + lia.
Qed.

(** A window in which [ser.in_waiting] raises at poll [i + k] ends there
    with that exception. *)
Lemma poll_loop_raises (env : Env) (end_time : Z) (e : exn) (k : nat) :
  forall (i fuel : nat) (output_lines : list pystr),
    (forall j, (i <= j <= i + k)%nat -> loop_time env (S j) < end_time) ->
    (forall j, (i <= j < i + k)%nat ->
               exists w, serial_in_waiting env j = Ret w) ->
    serial_in_waiting env (i + k) = Raise e ->
    (k < fuel)%nat ->
    poll_loop env fuel i end_time output_lines = Some (Raise e).
Proof.
  induction k as [|k IH]; intros i fuel lines Hin Hw He Hfuel;
    (destruct fuel as [|fuel]; [lia|]); simpl;
    (assert (Hi : (loop_time env (S i) <? end_time) = true)
       by (apply Z.ltb_lt, Hin; lia)); rewrite Hi.
  - rewrite Nat.add_0_r in He. unfold poll_once. now rewrite He.
  - destruct (Hw i) as [w Hwi]; [lia|].
    rewrite (poll_once_line env i lines w Hwi).
    apply IH.
    + intros j Hj. apply Hin. lia.
    + intros j Hj. apply Hw. lia.
    + replace (S i + k)%nat with (i + S k)%nat by lia. exact He.
    + lia.
Qed.

(** C9, as the code has it: a call of [read_serial] that opens the port
    and polls to the end of its window without [ser.in_waiting] raising
    returns the non-empty stripped lines collected in the window joined by
    newlines, or "No serial output received" when there is none; with
    duration 0 and a clock that does not run backwards no poll takes place
    and that sentinel is returned; when [ser.in_waiting] raises during the
    window the call returns the error report for the exception. *)
Theorem read_serial_window (env : Env) (port : pystr) (duration baudrate : Z) :
  HAS_SERIAL env = true ->
  serial_open env port baudrate = None ->
  (forall n : nat,
     (forall j, (j < n)%nat ->
                loop_time env (S j) < loop_time env 0 + duration) ->
     loop_time env 0 + duration <= loop_time env (S n) ->
     (forall j, (j < n)%nat -> exists w, serial_in_waiting env j = Ret w) ->
     forall fuel, (n < fuel)%nat ->
       read_serial env fuel port duration baudrate
       = Some (joined_or_sentinel (window_lines env n)))
  /\
  (duration = 0 ->
   loop_time env 0 <= loop_time env 1 ->
   forall fuel, (0 < fuel)%nat ->
     read_serial env fuel port duration baudrate = Some no_output)
  /\
  (forall (n : nat) (e : exn),
     (forall j, (j <= n)%nat ->
                loop_time env (S j) < loop_time env 0 + duration) ->
     (forall j, (j < n)%nat -> exists w, serial_in_waiting env j = Ret w) ->
     serial_in_waiting env n = Raise e ->
     forall fuel, (n < fuel)%nat ->
       read_serial env fuel port duration baudrate
       = Some (serial_error_report e)).
Proof.
  intros Hserial Hopen.
  assert (Hwindow : forall n : nat,
     (forall j, (j < n)%nat ->
                loop_time env (S j) < loop_time env 0 + duration) ->
     loop_time env 0 + duration <= loop_time env (S n) ->
     (forall j, (j < n)%nat -> exists w, serial_in_waiting env j = Ret w) ->
     forall fuel, (n < fuel)%nat ->
       read_serial env fuel port duration baudrate
       = Some (joined_or_sentinel (window_lines env n))).
  { intros n Hin Hout Hw fuel Hfuel.
    unfold read_serial. rewrite Hserial, Hopen. simpl negb. cbv iota.
    rewrite (poll_loop_window env _ n 0 fuel []); try assumption.
    - reflexivity.
    - intros j Hj. apply Hin. lia.
    - intros j Hj. apply Hw. lia. }
  split; [exact Hwindow|]. split.
  - intros -> Hclock fuel Hfuel.
    rewrite (Hwindow 0%nat); try assumption.
    + reflexivity.
    + intros j Hj. lia.
    + lia.
    + intros j Hj. lia.
  - intros n e Hin Hw He fuel Hfuel.
    unfold read_serial. rewrite Hserial, Hopen. simpl negb. cbv iota.
    rewrite (poll_loop_raises env _ e n 0 fuel []); try assumption.
    + reflexivity.
    + intros j Hj. apply Hin. lia.
    + intros j Hj. apply Hw. lia.
Qed.

(** C9 as stated fails: the port opens, the device is unplugged and
    [ser.in_waiting] raises at the first poll; no line was collected, and
    the call returns neither the empty join nor the sentinel but an error
    report. *)
Lemma read_serial_reports_poll_error :
  HAS_SERIAL env_unplugged = true
  /\ serial_open env_unplugged (lit "/dev/ttyACM0") 9600 = None
  /\ read_serial env_unplugged 1 (lit "/dev/ttyACM0") 3 9600
     = Some (lit "Error reading serial: [Errno 5] Input/output error")
  /\ lit "Error reading serial: [Errno 5] Input/output error"
     <> joined_or_sentinel []
  /\ lit "Error reading serial: [Errno 5] Input/output error" <> join nl [].
Proof.
  repeat split; try (vm_compute; reflexivity); vm_compute; discriminate.
Qed.

(* ================================================================= *)
(** ** The functions on the sample worlds *)

Example hex_vid : hex 0x2341 = lit "0x2341" /\ hex 0x43 = lit "0x43".
Proof. split; reflexivity. Qed.

Example strip_line :
  strip (lit "  tick " ++ [13; 10]%N) = lit "tick".
Proof. reflexivity. Qed.

Example safe_name_blink :
  safe_name env_ok blink_name = lit "blinktest"
  /\ safe_name env_ok (lit "LED_blink-v2.ino") = lit "led_blinkv2ino"
  /\ safe_name env_ok (lit "!?  --") = lit "sketch".
Proof. repeat split; reflexivity. Qed.

Example port_modes :
  check_port_accessible env_ok acm0 = true
  /\ check_port_accessible env_port_locked acm0 = false
  /\ fix_succeeds env_port_locked acm0 = false.
Proof. repeat split; reflexivity. Qed.

Example boards_of_both_sources :
  list_arduino_boards env_both_sources
  = ([ERun [lit "arduino-cli"; lit "board"; lit "list"; lit "--format";
            lit "json"]],
     Ret [ [ (lit "port", PStr acm0);
             (lit "description", PStr (lit "Arduino Uno"));
             (lit "hwid", PStr (lit "USB VID:PID=2341:0043"));
             (lit "vid", PStr (lit "0x2341"));
             (lit "pid", PStr (lit "0x43")) ];
           [ (lit "port", PStr (lit "/dev/ttyUSB0"));
             (lit "board_name", PStr (lit "Arduino (clone/unrecognised)"));
             (lit "fqbn", PStr (lit "arduino:avr:uno"));
             (lit "protocol", PStr (lit "serial")) ] ]).
Proof. vm_compute. reflexivity. Qed.

Example boards_without_cli :
  list_arduino_boards env_usb_only
  = ([ERun [lit "arduino-cli"; lit "board"; lit "list"; lit "--format";
            lit "json"];
      EPrint (lit "Warning: arduino-cli not found. Install it for full functionality.")],
     Ret [serial_record uno_port]).
Proof. vm_compute. reflexivity. Qed.

Example deploy_on_locked_port :
  deploy_code env_port_locked blink acm0 blink_name uno
  = ([ EMkdir blink_folder;
       EWriteText (lit "/app/sketches/blinktest/blinktest.ino") blink;
       ERun (compile_argv blink_folder uno);
       ERun (chmod_argv acm0) ],
     Ret (stage_failure (lit "upload")
            (PStr (_permission_denied_hint acm0)) blink_folder)).
Proof. vm_compute. reflexivity. Qed.

Example deploy_on_readonly_disk :
  deploy_code env_readonly_disk blink acm0 blink_name uno
  = ([EMkdir blink_folder],
     Ret (write_failure (lit "[Errno 30] Read-only file system"))).
Proof. vm_compute. reflexivity. Qed.

(* ================================================================= *)
(** ** The scenarios *)

(** C1 on the two scenarios: the compiler rejects the sketch (scenario A),
    and everything works (scenario B). *)
Lemma deploy_code_stages_witness :
  (trace (deploy_code env_compile_fails blink acm0 blink_name uno)
   = trace (write_sketch env_compile_fails blink blink_name)
     ++ trace (compile_sketch env_compile_fails blink_folder uno)
   /\ upload_calls (trace (deploy_code env_compile_fails blink acm0
                                       blink_name uno)) = 0%nat
   /\ exists d,
        result (deploy_code env_compile_fails blink acm0 blink_name uno)
        = Ret d
        /\ dict_lookup (lit "success") d = Some (PBool false)
        /\ dict_lookup (lit "stage") d = Some (PStr (lit "compile"))
        /\ dict_lookup (lit "error") d = Some (PStr compiler_error))
  /\
  (exists d,
     result (deploy_code env_ok blink acm0 blink_name uno) = Ret d
     /\ dict_lookup (lit "success") d = Some (PBool true)
     /\ dict_lookup (lit "sketch_path") d = Some (PStr blink_folder)).
Proof.
  split.
  - destruct (deploy_code_stages env_compile_fails blink acm0 blink_name uno)
      as [_ H].
    destruct (H blink_folder eq_refl) as [Hc _].
    destruct (Hc (failed [] compiler_error) eq_refl eq_refl)
      as (Ht & Hu & d & Hd & Hs & Hst & He & _).
    split; [exact Ht|]. split; [exact Hu|].
    exists d. repeat split; assumption.
  - destruct (deploy_code_stages env_ok blink acm0 blink_name uno) as [_ H].
    destruct (H blink_folder eq_refl) as [_ Hc].
    destruct (Hc (succeeded (lit "done")) eq_refl eq_refl) as (_ & _ & Hu).
    destruct (Hu (succeeded (lit "done")) eq_refl eq_refl)
      as (d & Hd & Hs & Hp & _).
    exists d. repeat split; assumption.
Defined.

(** C2 on a compile that fails, an upload that succeeds and an upload that
    is aborted by the pre-flight check. *)
Lemma errors_iff_not_success_witness :
  errors_iff_failure (failed [] compiler_error)
  /\ errors_iff_failure (succeeded (lit "done"))
  /\ errors_iff_failure (failed [] (_permission_denied_hint acm0)).
Proof.
  split; [|split].
  - apply (proj1 (errors_iff_not_success env_compile_fails blink_folder
                    acm0 uno)).
    reflexivity.
  - apply (proj2 (errors_iff_not_success env_ok blink_folder acm0 uno)).
    reflexivity.
  - apply (proj2 (errors_iff_not_success env_port_locked blink_folder
                    acm0 uno)).
    reflexivity.
Defined.

(** C3 on a device node that only root and its group may write, with a
    sudo that asks for a password. *)
Lemma upload_sketch_preflight_abort_witness :
  exists d errors,
    result (upload_sketch env_port_locked blink_folder acm0 uno) = Ret d
    /\ dict_lookup (lit "success") d = Some (PBool false)
    /\ dict_lookup (lit "errors") d = Some (PStr errors)
    /\ contains (option_chmod acm0) errors = true
    /\ contains option_group errors = true
    /\ contains option_udev errors = true
    /\ contains acm0 errors = true
    /\ upload_calls (trace (upload_sketch env_port_locked blink_folder
                                          acm0 uno)) = 0%nat.
Proof.
  apply (upload_sketch_preflight_abort env_port_locked blink_folder acm0 uno);
    reflexivity.
Defined.

(** C4 on an uploader that is refused by the device although the node
    looked writable. *)
Lemma upload_sketch_hint_keeps_raw_error_witness :
  exists d errors,
    result (upload_sketch env_upload_denied blink_folder acm0 uno) = Ret d
    /\ dict_lookup (lit "success") d = Some (PBool false)
    /\ dict_lookup (lit "errors") d = Some (PStr errors)
    /\ contains (_permission_denied_hint acm0) errors = true
    /\ contains uploader_error errors = true
    /\ is_prefix (_permission_denied_hint acm0) errors = true
    /\ errors = _permission_denied_hint acm0 ++ nl ++ nl
                ++ lit "Original error:" ++ nl ++ uploader_error.
Proof.
  apply (upload_sketch_hint_keeps_raw_error env_upload_denied blink_folder
           acm0 uno (mkCompleted 1 [] uploader_error)).
  - reflexivity.
  - reflexivity.
  - discriminate.
  - discriminate.
  - reflexivity.
Defined.

(** C10 on a failing compile and on a sketch directory that cannot be
    created. *)
Lemma deploy_code_failure_keeps_sketch_path_witness :
  (dict_lookup (lit "sketch_path")
     (stage_failure (lit "compile") (PStr compiler_error) blink_folder)
   = Some (PStr blink_folder)
   /\ blink_folder = sketch_folder env_compile_fails blink_name
   /\ (dict_lookup (lit "stage")
         (stage_failure (lit "compile") (PStr compiler_error) blink_folder)
       = Some (PStr (lit "compile"))
       \/ dict_lookup (lit "stage")
            (stage_failure (lit "compile") (PStr compiler_error) blink_folder)
          = Some (PStr (lit "upload"))))
  /\
  (exists d,
     result (deploy_code env_readonly_disk blink acm0 blink_name uno) = Ret d
     /\ dict_lookup (lit "success") d = Some (PBool false)
     /\ dict_lookup (lit "stage") d = Some (PStr (lit "write"))
     /\ dict_lookup (lit "sketch_path") d = None).
Proof.
  split.
  - destruct (deploy_code_failure_keeps_sketch_path env_compile_fails blink
                acm0 blink_name uno) as [H _].
    apply (H blink_folder
             (stage_failure (lit "compile") (PStr compiler_error)
                            blink_folder));
      reflexivity.
  - destruct (deploy_code_failure_keeps_sketch_path env_readonly_disk blink
                acm0 blink_name uno) as (_ & H & _).
    apply (H (mkExn OSError (lit "[Errno 30] Read-only file system"))).
    reflexivity.
Defined.

(** C5 on a board both sources report: the list has the heuristic record
    of /dev/ttyACM0 and the tool's clone record of /dev/ttyUSB0, not the
    tool's record of /dev/ttyACM0. *)
Lemma list_arduino_boards_unique_ports_witness :
  NoDup (map port_key
           [ serial_record uno_port;
             tool_record (PStr (lit "/dev/ttyUSB0"))
                         (PStr (lit "Arduino (clone/unrecognised)"))
                         (PStr default_fqbn) (PStr (lit "serial")) ])
  /\ ~ In (tool_record (PStr acm0) (PStr (lit "Arduino Uno"))
                       (PStr default_fqbn) (PStr (lit "serial")))
          [ serial_record uno_port;
            tool_record (PStr (lit "/dev/ttyUSB0"))
                        (PStr (lit "Arduino (clone/unrecognised)"))
                        (PStr default_fqbn) (PStr (lit "serial")) ].
Proof.
  destruct (list_arduino_boards_unique_ports env_both_sources
              [ serial_record uno_port;
                tool_record (PStr (lit "/dev/ttyUSB0"))
                            (PStr (lit "Arduino (clone/unrecognised)"))
                            (PStr default_fqbn) (PStr (lit "serial")) ]
              eq_refl)
    as (Hnodup & _ & _ & tool & Htool & _ & Hwins).
  split; [exact Hnodup|].
  injection Htool as <-.
  apply (Hwins (serial_record uno_port)).
  - left. reflexivity.
  - left. reflexivity.
  - reflexivity.
Defined.

(** C9 on a window of three polls with two lines, on duration 0, and on a
    device that is unplugged. *)
Lemma read_serial_window_witness :
  read_serial env_two_lines 4 acm0 4 9600
  = Some (lit "ready" ++ nl ++ lit "tick")
  /\ read_serial env_two_lines 1 acm0 0 9600 = Some no_output
  /\ read_serial env_unplugged 1 acm0 4 9600
     = Some (lit "Error reading serial: [Errno 5] Input/output error").
Proof.
  split; [|split].
  - destruct (read_serial_window env_two_lines acm0 4 9600 eq_refl eq_refl)
      as (H & _ & _).
    apply (H 3%nat).
    + intros [|[|[|j]]] Hj; try reflexivity. exfalso. lia.
    + discriminate.
    + intros [|[|[|j]]] Hj; eexists; reflexivity.
    + lia.
  - destruct (read_serial_window env_two_lines acm0 0 9600 eq_refl eq_refl)
      as (_ & H & _).
    apply H.
    + reflexivity.
    + discriminate.
    + lia.
  - destruct (read_serial_window env_unplugged acm0 4 9600 eq_refl eq_refl)
      as (_ & _ & H).
    apply (H 0%nat
             (mkExn OSError (lit "[Errno 5] Input/output error"))).
    + intros j Hj. assert (j = 0%nat) as -> by lia. reflexivity.
    + intros j Hj. exfalso. lia.
    + reflexivity.
    + lia.
Defined.

(* ================================================================= *)
(** ** fix_port_permissions and check_port_accessible *)

(** X1: [fix_port_permissions] never raises and runs exactly one command,
    [sudo -n chmod a+rw <port>]; it reports success exactly when that
    command completes with exit code 0. *)
Theorem fix_port_permissions_one_command (env : Env) (port : pystr) :
  trace (fix_port_permissions env port) = [ERun (chmod_argv port)]
  /\ (exists msg,
        result (fix_port_permissions env port)
        = Ret [ (lit "success", PBool (fix_succeeds env port));
                (lit "message", PStr msg) ])
  /\ (fix_succeeds env port = true <->
      exists c, subprocess_run env (chmod_argv port) = Completed c
                /\ returncode c = 0).
Proof.
  split; [apply fix_port_permissions_trace|].
  split; [apply fix_port_permissions_returns|].
  unfold fix_succeeds, fix_port_permissions, run, try_except, bind, emit,
    liftO, ret, result, chmod_argv.
  destruct (subprocess_run env _) as [c|e]; simpl.
  - destruct (returncode c =? 0) eqn:Hrc; simpl; split.
    + intros _. exists c. split; [reflexivity|]. now apply Z.eqb_eq.
    + reflexivity.
    + discriminate.
    + intros (c' & [= <-] & Hc'). apply Z.eqb_neq in Hrc. contradiction.
  - split; [discriminate|]. intros (c & Hc & _). discriminate Hc.
Qed.

Lemma fix_failed_message_options (port : pystr) :
  contains (option_chmod port) (fix_failed_message port) = true
  /\ contains option_group (fix_failed_message port) = true
  /\ contains option_udev (fix_failed_message port) = true.
Proof.
  split; [|split]; apply contains_spec.
  - exists (lit "Auto-fix failed (sudo -n requires passwordless sudo)." ++ nl
            ++ lit "Manual fix options:" ++ nl
            ++ lit "  1. Quick fix (resets on unplug): ").
    eexists. unfold fix_failed_message, option_chmod.
    rewrite <- !app_assoc. reflexivity.
  - exists (lit "Auto-fix failed (sudo -n requires passwordless sudo)." ++ nl
            ++ lit "Manual fix options:" ++ nl
            ++ lit "  1. Quick fix (resets on unplug): sudo chmod a+rw "
            ++ port ++ nl ++ lit "  2. Permanent fix: ").
    eexists. unfold fix_failed_message, option_group.
    rewrite <- !app_assoc. reflexivity.
  - exists (lit "Auto-fix failed (sudo -n requires passwordless sudo)." ++ nl
            ++ lit "Manual fix options:" ++ nl
            ++ lit "  1. Quick fix (resets on unplug): sudo chmod a+rw "
            ++ port ++ nl
            ++ lit "  2. Permanent fix: sudo usermod -a -G uucp $USER  then restart WSL"
            ++ nl ++ lit "  3. Udev rule: ").
    exists (lit " && sudo udevadm control --reload-rules && sudo udevadm trigger").
    unfold fix_failed_message, option_udev.
    rewrite <- !app_assoc. reflexivity.
Qed.

(** X2: the message of a failed fix.  When [sudo] completes with a non-zero
    exit code the message lists the three manual options (chmod on the
    port, group membership, udev rule); when running [sudo] raises, whatever
    the exception, the message is the text of the exception. *)
Theorem fix_port_permissions_failure_message (env : Env) (port : pystr) :
  (forall c,
     subprocess_run env (chmod_argv port) = Completed c ->
     returncode c <> 0 ->
     result (fix_port_permissions env port)
     = Ret [ (lit "success", PBool false);
             (lit "message", PStr (fix_failed_message port)) ]
     /\ contains (option_chmod port) (fix_failed_message port) = true
     /\ contains option_group (fix_failed_message port) = true
     /\ contains option_udev (fix_failed_message port) = true)
  /\
  (forall e,
     subprocess_run env (chmod_argv port) = RunRaises e ->
     result (fix_port_permissions env port)
     = Ret [ (lit "success", PBool false);
             (lit "message", PStr (exn_str e)) ]).
Proof.
  split.
  - intros c Hrun Hrc. split; [|apply fix_failed_message_options].
    unfold fix_port_permissions, run, try_except, bind, emit, liftO, ret,
      result.
    unfold chmod_argv in Hrun. rewrite Hrun. simpl.
    apply Z.eqb_neq in Hrc. now rewrite Hrc.
  - intros e Hrun.
    unfold fix_port_permissions, run, try_except, bind, emit, liftO, ret,
      result.
    unfold chmod_argv in Hrun. now rewrite Hrun.
Qed.

(** X2 on a sudo that asks for a password, and on a machine without
    sudo. *)
Lemma fix_port_permissions_failure_message_witness :
  (result (fix_port_permissions env_port_locked acm0)
   = Ret [ (lit "success", PBool false);
           (lit "message", PStr (fix_failed_message acm0)) ]
   /\ contains (option_chmod acm0) (fix_failed_message acm0) = true
   /\ contains option_group (fix_failed_message acm0) = true
   /\ contains option_udev (fix_failed_message acm0) = true)
  /\ result (fix_port_permissions
               (plain (fun _ => RunRaises not_found) root_only) acm0)
     = Ret [ (lit "success", PBool false);
             (lit "message", PStr (exn_str not_found)) ].
Proof.
  split.
  - apply (proj1 (fix_port_permissions_failure_message env_port_locked acm0)
             (mkCompleted 1 [] (lit "sudo: a password is required"))).
    + reflexivity.
    + discriminate.
  - apply (proj2 (fix_port_permissions_failure_message
                    (plain (fun _ => RunRaises not_found) root_only) acm0)).
    reflexivity.
Defined.

Lemma land_submask (m a b : Z) :
  Z.land a b = b -> Z.land m a = 0 -> Z.land m b = 0.
Proof.
  intros <- H. now rewrite Z.land_assoc, H.
Qed.

Lemma land_bit_set (m : Z) (i : Z) :
  0 <= i -> Z.testbit m i = true -> (Z.land m (2 ^ i) =? 0) = false.
Proof.
  intros Hi Hbit. apply Z.eqb_neq. intros H.
  assert (Hb : Z.testbit (Z.land m (2 ^ i)) i = true).
  { rewrite Z.land_spec, Hbit, Z.pow2_bits_true; auto. }
  rewrite H, Z.bits_0 in Hb. discriminate.
Qed.

(** X3: the pre-flight check on the mode bits.  A device node that cannot
    be examined is not accessible; neither is one without any write bit,
    whoever asks (the check knows no superuser); one with the world-write
    bit is accessible whoever asks, so a node is accessible once
    [chmod a+rw] has been applied to it. *)
Theorem check_port_accessible_mode_bits (env : Env) (port : pystr) :
  (forall e, os_stat env port = Raise e ->
             check_port_accessible env port = false)
  /\ (forall st, os_stat env port = Ret st ->
                 Z.land (st_mode st) write_bits = 0 ->
                 check_port_accessible env port = false)
  /\ (forall st, os_stat env port = Ret st ->
                 Z.testbit (st_mode st) 1 = true ->
                 check_port_accessible env port = true)
  /\ (forall st m, os_stat env port = Ret st ->
                   st_mode st = Z.lor m a_rw ->
                   check_port_accessible env port = true).
Proof.
  assert (Hworld : forall st, os_stat env port = Ret st ->
                   Z.testbit (st_mode st) 1 = true ->
                   check_port_accessible env port = true).
  { intros st Hst Hbit. unfold check_port_accessible. rewrite Hst. simpl.
    pose proof (land_bit_set (st_mode st) 1 ltac:(lia) Hbit) as H2.
    change (2 ^ 1) with S_IWOTH in H2. rewrite H2.
    simpl. apply orb_true_r. }
  split; [|split; [|split]].
  - intros e Hst. unfold check_port_accessible. now rewrite Hst.
  - intros st Hst Hbits. unfold check_port_accessible. rewrite Hst. simpl.
    unfold S_IWUSR, S_IWGRP, S_IWOTH.
    rewrite (land_submask (st_mode st) write_bits 0x80), 
            (land_submask (st_mode st) write_bits 0x10),
            (land_submask (st_mode st) write_bits 0x2);
      try assumption; try reflexivity.
    simpl. now rewrite !andb_false_r.
  - exact Hworld.
  - intros st m Hst Hmode. apply (Hworld st Hst).
    rewrite Hmode, Z.lor_spec. apply orb_true_r.
Qed.

(** X3 on a node nobody may write, on a node after [chmod a+rw], and on a
    node that does not exist. *)
Lemma check_port_accessible_mode_bits_witness :
  check_port_accessible
    (plain no_cli (fun _ => Ret (mkStat 0x2124 0 20))) acm0 = false
  /\ check_port_accessible
       (plain no_cli (fun _ => Ret (mkStat (Z.lor 0x21b0 a_rw) 0 20))) acm0
     = true
  /\ check_port_accessible
       (plain no_cli (fun _ => Raise not_found)) acm0 = false.
Proof.
  split; [|split].
  - apply (proj1 (proj2 (check_port_accessible_mode_bits
                           (plain no_cli (fun _ => Ret (mkStat 0x2124 0 20)))
                           acm0)) (mkStat 0x2124 0 20)); reflexivity.
  - apply (proj2 (proj2 (proj2 (check_port_accessible_mode_bits
             (plain no_cli (fun _ => Ret (mkStat (Z.lor 0x21b0 a_rw) 0 20)))
             acm0))) (mkStat (Z.lor 0x21b0 a_rw) 0 20) 0x21b0); reflexivity.
  - apply (proj1 (check_port_accessible_mode_bits
                    (plain no_cli (fun _ => Raise not_found)) acm0) not_found).
    reflexivity.
Defined.

(* ================================================================= *)
(** ** list_arduino_boards: what the list holds *)

Lemma subseq_refl {A : Type} (l : list A) : subseq l l.
Proof. induction l; constructor; assumption. Qed.

Lemma subseq_nil_l {A : Type} (l : list A) : subseq [] l.
Proof. induction l; constructor; assumption. Qed.

Lemma subseq_in {A : Type} (u l : list A) :
  subseq u l -> forall x, In x u -> In x l.
Proof.
  induction 1 as [|y u l _ IH|y u l _ IH]; intros x Hx.
  - destruct Hx.
  - destruct Hx as [<-|Hx]; [now left|right; auto].
  - right; auto.
Qed.

(** Deduplicating a scan of two parts: the first part is deduplicated on
    its own, and what is kept of the second part follows it in order. *)
Lemma dedupe_app (a b : list pydict) :
  forall seen u,
    dedupe (a ++ b) seen = Ret u ->
    exists ua ub,
      dedupe a seen = Ret ua /\ u = ua ++ ub /\ subseq ua a /\ subseq ub b.
Proof.
  induction a as [|x a IH]; intros seen u Hd.
  - exists [], u. repeat split; try constructor.
    revert seen u Hd.
    induction b as [|y b IHb]; intros seen u Hd.
    + injection Hd as <-. constructor.
    + apply dedupe_cons in Hd
        as (k & Hk & [[Hseen Hrest]|(Hfresh & u' & Hrest & ->)]).
      * constructor. eapply IHb; eassumption.
      * constructor. eapply IHb; eassumption.
  - change ((x :: a) ++ b) with (x :: (a ++ b)) in Hd.
    pose proof Hd as Hd0.
    apply dedupe_cons in Hd
      as (k & Hk & [[Hseen Hrest]|(Hfresh & u' & Hrest & ->)]).
    + destruct (IH _ _ Hrest) as (ua & ub & Ha & -> & Hsa & Hsb).
      exists ua, ub. repeat split; auto; [|now constructor].
      simpl. unfold port_key in Hk. unfold subscript.
      destruct (dict_lookup (lit "port") x) as [p|]; [|discriminate].
      simpl. destruct (py_hash_key p) as [k'|]; [|discriminate].
      injection Hk as ->. simpl.
      apply seen_iff in Hseen. now rewrite Hseen.
    + destruct (IH _ _ Hrest) as (ua & ub & Ha & -> & Hsa & Hsb).
      exists (x :: ua), ub. repeat split; auto; [|now constructor].
      simpl. unfold port_key in Hk. unfold subscript.
      destruct (dict_lookup (lit "port") x) as [p|]; [|discriminate].
      simpl. destruct (py_hash_key p) as [k'|]; [|discriminate].
      injection Hk as ->. simpl.
      destruct (existsb (hkey_eqb k) seen) eqn:Hs.
      * apply seen_iff in Hs. contradiction.
      * now rewrite Ha.
Qed.

(** X4: every serial port that the USB heuristic takes for an Arduino is in
    the returned list, with a heuristic record for its device, whatever the
    external tool reports. *)
Theorem list_arduino_boards_keeps_heuristic_ports
    (env : Env) (boards : list pydict) (port : ListPortInfo) :
  result (list_arduino_boards env) = Ret boards ->
  HAS_SERIAL env = true ->
  In port (comports env) ->
  is_arduino env port = true ->
  exists b,
    In b boards
    /\ In b (heuristic_records env)
    /\ dict_lookup (lit "port") b = Some (PStr (device port)).
Proof.
  intros Hres Hserial Hport Harduino.
  destruct (list_arduino_boards_split env boards Hres) as (all & Hall & Hd).
  destruct (cli_detection_spec env _ _ Hall) as (tool & -> & _).
  assert (Hin : In (serial_record port) (heuristic_records env)).
  { unfold heuristic_records. rewrite Hserial.
    apply serial_records_in. exists port. auto. }
  destruct (first_with_key _ _ Hin) as (pre & y & post & Heq & Hy & Hpre).
  assert (Hyin : In y (heuristic_records env)).
  { rewrite Heq. apply in_elt. }
  exists y. split; [|split; [assumption|]].
  - apply (dedupe_first_seen _ _ _ Hd y).
    exists pre, (post ++ tool), (HStr (device port)).
    repeat split.
    + rewrite Heq, <- app_assoc. reflexivity.
    + rewrite Hy. apply serial_record_port.
    + intros [].
    + rewrite <- (serial_record_port port). exact Hpre.
  - unfold heuristic_records in Hyin. rewrite Hserial in Hyin.
    apply serial_records_in in Hyin as (q & _ & _ & ->).
    rewrite !serial_record_port in Hy. injection Hy as Hy.
    transitivity (Some (PStr (device q))); [reflexivity|now rewrite Hy].
Qed.

(** X4 on the board both sources report. *)
Lemma list_arduino_boards_keeps_heuristic_ports_witness :
  exists b,
    In b [ serial_record uno_port;
           tool_record (PStr (lit "/dev/ttyUSB0"))
                       (PStr (lit "Arduino (clone/unrecognised)"))
                       (PStr default_fqbn) (PStr (lit "serial")) ]
    /\ In b (heuristic_records env_both_sources)
    /\ dict_lookup (lit "port") b = Some (PStr (device uno_port)).
Proof.
  apply (list_arduino_boards_keeps_heuristic_ports env_both_sources).
  - reflexivity.
  - reflexivity.
  - left. reflexivity.
  - reflexivity.
Defined.

Lemma cli_record_serial_family (detected : pyval) (b : pydict) :
  cli_record detected = Ret (Some b) -> serial_family b.
Proof.
  unfold cli_record, serial_family.
  destruct (py_get detected (lit "port") (PDict [])) as [port_info|e];
    simpl; [|discriminate].
  destruct (py_get port_info (lit "address") (PStr [])) as [address|e];
    simpl; [|discriminate].
  destruct (truthy address) eqn:Hta; simpl; [|discriminate].
  destruct (py_get port_info (lit "protocol") (PStr []))
    as [protocol|e]; simpl; [|discriminate].
  assert (Hfam : forall skip,
            (if truthy protocol
             then obind (py_in (lit "serial") protocol)
                        (fun b0 => Ret (negb b0))
             else Ret false) = Ret skip ->
            skip = false ->
            truthy protocol = false
            \/ py_in (lit "serial") protocol = Ret true).
  { intros skip Hskip ->. destruct (truthy protocol); [|now left].
    right. destruct (py_in (lit "serial") protocol) as [[|]|e];
      simpl in Hskip; try discriminate. reflexivity. }
  destruct (if truthy protocol
            then obind (py_in (lit "serial") protocol)
                       (fun b0 => Ret (negb b0))
            else Ret false) as [skip|e] eqn:Hskip; simpl; [|discriminate].
  destruct skip; [discriminate|].
  specialize (Hfam false eq_refl eq_refl).
  destruct (py_get detected (lit "matching_boards") PNone) as [mb|e];
    simpl; [|discriminate].
  destruct (truthy mb).
  - destruct (py_index0 mb) as [board_info|e]; simpl; [|discriminate].
    destruct board_info as [| | | | |first]; simpl; try discriminate.
    intros [= <-]. exists address, protocol. auto.
  - intros [= <-]. exists address, protocol. auto.
Qed.

(** X5: the returned list holds no port the tool reports over another
    protocol than a serial one, and none without an address: a record that
    is not a heuristic record has an address and a protocol that is empty
    or contains "serial". *)
Theorem list_arduino_boards_serial_ports_only
    (env : Env) (boards : list pydict) :
  result (list_arduino_boards env) = Ret boards ->
  forall b, In b boards ->
    In b (heuristic_records env) \/ serial_family b.
Proof.
  intros Hres b Hb.
  destruct (list_arduino_boards_split env boards Hres) as (all & Hall & Hd).
  destruct (cli_detection_spec env _ _ Hall) as (tool & -> & Htool).
  apply (dedupe_incl _ _ _ Hd) in Hb.
  apply in_app_or in Hb as [Hh|Ht]; [now left|right].
  rewrite Forall_forall in Htool.
  destruct (Htool _ Ht) as (detected & Hrec).
  eapply cli_record_serial_family; eassumption.
Qed.

(** X6: the list is in scan order, and the tool cannot take a heuristic
    record out: the list starts with the heuristic records deduplicated on
    their own, followed, in the tool's order, by records of the tool. *)
Theorem list_arduino_boards_order (env : Env) (boards : list pydict) :
  result (list_arduino_boards env) = Ret boards ->
  exists tool from_heuristic from_tool,
    result (cli_detection env (heuristic_records env))
    = Ret (heuristic_records env ++ tool)
    /\ dedupe (heuristic_records env) [] = Ret from_heuristic
    /\ boards = from_heuristic ++ from_tool
    /\ subseq from_heuristic (heuristic_records env)
    /\ subseq from_tool tool.
Proof.
  intros Hres.
  destruct (list_arduino_boards_split env boards Hres) as (all & Hall & Hd).
  destruct (cli_detection_spec env _ _ Hall) as (tool & -> & _).
  destruct (dedupe_app _ _ _ _ Hd) as (ua & ub & Ha & -> & Hsa & Hsb).
  exists tool, ua, ub. auto.
Qed.

(** X5 on the clone record of the sample with both sources. *)
Lemma list_arduino_boards_serial_ports_only_witness :
  let b := tool_record (PStr (lit "/dev/ttyUSB0"))
                       (PStr (lit "Arduino (clone/unrecognised)"))
                       (PStr default_fqbn) (PStr (lit "serial")) in
  In b (heuristic_records env_both_sources) \/ serial_family b.
Proof.
  apply (list_arduino_boards_serial_ports_only env_both_sources
           [ serial_record uno_port;
             tool_record (PStr (lit "/dev/ttyUSB0"))
                         (PStr (lit "Arduino (clone/unrecognised)"))
                         (PStr default_fqbn) (PStr (lit "serial")) ]).
  - reflexivity.
  - right. left. reflexivity.
Defined.

(** X6 on the sample with both sources. *)
Lemma list_arduino_boards_order_witness :
  exists tool from_heuristic from_tool,
    result (cli_detection env_both_sources
              (heuristic_records env_both_sources))
    = Ret (heuristic_records env_both_sources ++ tool)
    /\ dedupe (heuristic_records env_both_sources) [] = Ret from_heuristic
    /\ [ serial_record uno_port;
         tool_record (PStr (lit "/dev/ttyUSB0"))
                     (PStr (lit "Arduino (clone/unrecognised)"))
                     (PStr default_fqbn) (PStr (lit "serial")) ]
       = from_heuristic ++ from_tool
    /\ subseq from_heuristic (heuristic_records env_both_sources)
    /\ subseq from_tool tool.
Proof.
  apply (list_arduino_boards_order env_both_sources).
  reflexivity.
Defined.

Lemma list_arduino_boards_unfold (env : Env) :
  list_arduino_boards env
  = bind (cli_detection env (heuristic_records env))
         (fun arduino_boards => liftO (dedupe arduino_boards [])).
Proof. reflexivity. Qed.

(** X7: how discovery goes on when the external tool fails.  A missing
    tool, a timeout and output that is not JSON each print their own
    warning and leave the heuristic records; a non-zero exit code leaves
    them too, without any warning; any other exception of the tool query
    leaves [list_arduino_boards] as it was raised.  The tool is queried
    once. *)
Theorem list_arduino_boards_tool_failures (env : Env) :
  (forall e,
     subprocess_run env board_list_argv = RunRaises e ->
     exn_cls e = FileNotFoundError ->
     list_arduino_boards env
     = ([ ERun board_list_argv;
          EPrint (lit "Warning: arduino-cli not found. Install it for full functionality.") ],
        dedupe (heuristic_records env) []))
  /\ (forall e,
        subprocess_run env board_list_argv = RunRaises e ->
        exn_cls e = TimeoutExpired ->
        list_arduino_boards env
        = ([ ERun board_list_argv;
             EPrint (lit "Warning: arduino-cli timed out") ],
           dedupe (heuristic_records env) []))
  /\ (forall c,
        subprocess_run env board_list_argv = Completed c ->
        returncode c = 0 ->
        json_loads env (stdout c) = None ->
        list_arduino_boards env
        = ([ ERun board_list_argv;
             EPrint (lit "Warning: Could not parse arduino-cli output") ],
           dedupe (heuristic_records env) []))
  /\ (forall c,
        subprocess_run env board_list_argv = Completed c ->
        returncode c <> 0 ->
        list_arduino_boards env
        = ([ERun board_list_argv], dedupe (heuristic_records env) []))
  /\ (forall e,
        subprocess_run env board_list_argv = RunRaises e ->
        exn_cls e <> FileNotFoundError ->
        exn_cls e <> TimeoutExpired ->
        exn_cls e <> JSONDecodeError ->
        list_arduino_boards env = ([ERun board_list_argv], Raise e)).
Proof.
  rewrite list_arduino_boards_unfold.
  unfold cli_detection, run, try_except, bind, emit, liftO, ret.
  fold board_list_argv.
  repeat split.
  - intros e Hrun Hcls. rewrite Hrun. simpl. rewrite Hcls. reflexivity.
  - intros e Hrun Hcls. rewrite Hrun. simpl. rewrite Hcls. reflexivity.
  - intros c Hrun Hrc Hjson. rewrite Hrun. simpl. rewrite Hrc. simpl.
    rewrite Hjson. reflexivity.
  - intros c Hrun Hrc. rewrite Hrun. simpl.
    apply Z.eqb_neq in Hrc. rewrite Hrc. reflexivity.
  - intros e Hrun H1 H2 H3. rewrite Hrun. simpl.
    destruct (exn_cls e); try contradiction; reflexivity.
Qed.

(** X7 on a missing tool, a tool that hangs, a tool that prints no JSON,
    a tool that exits with 1 and a tool that may not be executed. *)
Lemma list_arduino_boards_tool_failures_witness :
  list_arduino_boards env_usb_only
  = ([ ERun board_list_argv;
       EPrint (lit "Warning: arduino-cli not found. Install it for full functionality.") ],
     dedupe (heuristic_records env_usb_only) [])
  /\ list_arduino_boards
       (plain (fun _ => RunRaises (mkExn TimeoutExpired (lit "timed out")))
              world_rw)
     = ([ ERun board_list_argv;
          EPrint (lit "Warning: arduino-cli timed out") ],
        Ret [])
  /\ list_arduino_boards env_ok
     = ([ ERun board_list_argv;
          EPrint (lit "Warning: Could not parse arduino-cli output") ],
        Ret [])
  /\ list_arduino_boards env_compile_fails
     = ([ ERun board_list_argv;
          EPrint (lit "Warning: Could not parse arduino-cli output") ],
        Ret [])
  /\ list_arduino_boards
       (plain (cli (fun _ => 1) (fun _ => []) (fun _ => lit "error"))
              world_rw)
     = ([ERun board_list_argv], Ret [])
  /\ list_arduino_boards
       (plain (fun _ => RunRaises (mkExn OSError (lit "[Errno 13] Permission denied: 'arduino-cli'")))
              world_rw)
     = ([ERun board_list_argv],
        Raise (mkExn OSError (lit "[Errno 13] Permission denied: 'arduino-cli'"))).
Proof.
  split; [|split; [|split; [|split; [|split]]]].
  - apply (proj1 (list_arduino_boards_tool_failures env_usb_only) not_found);
      reflexivity.
  - apply (proj1 (proj2 (list_arduino_boards_tool_failures
             (plain (fun _ => RunRaises (mkExn TimeoutExpired (lit "timed out")))
                    world_rw)))
             (mkExn TimeoutExpired (lit "timed out"))); reflexivity.
  - apply (proj1 (proj2 (proj2 (list_arduino_boards_tool_failures env_ok)))
             (mkCompleted 0 (lit "done") [])); reflexivity.
  - apply (proj1 (proj2 (proj2 (list_arduino_boards_tool_failures
                                  env_compile_fails)))
             (mkCompleted 0 [] compiler_error)); reflexivity.
  - apply (proj1 (proj2 (proj2 (proj2 (list_arduino_boards_tool_failures
             (plain (cli (fun _ => 1) (fun _ => []) (fun _ => lit "error"))
                    world_rw)))))
             (mkCompleted 1 [] (lit "error"))); [reflexivity|discriminate].
  - apply (proj2 (proj2 (proj2 (proj2 (list_arduino_boards_tool_failures
             (plain (fun _ => RunRaises (mkExn OSError (lit "[Errno 13] Permission denied: 'arduino-cli'")))
                    world_rw)))))
             (mkExn OSError (lit "[Errno 13] Permission denied: 'arduino-cli'")));
      [reflexivity|discriminate|discriminate|discriminate].
Defined.

(* ================================================================= *)
(** ** write_sketch: layout and names *)

(** X8: [write_sketch] creates the folder before it writes, writes one
    file, named after the folder with the extension [.ino] and holding the
    code as given, and returns the folder, a child of the sketch directory.
    When the folder cannot be created no file is written; an exception of
    either step leaves [write_sketch] as it was raised. *)
Theorem write_sketch_layout (env : Env) (code name : pystr) :
  let base := safe_name env name in
  let folder := SKETCH_DIR env ++ lit "/" ++ base in
  let file := folder ++ lit "/" ++ base ++ lit ".ino" in
  (forall path,
     result (write_sketch env code name) = Ret path ->
     path = folder
     /\ trace (write_sketch env code name)
        = [EMkdir folder; EWriteText file code])
  /\ (forall e,
        path_mkdir env folder = Some e ->
        write_sketch env code name = ([EMkdir folder], Raise e))
  /\ (forall e,
        path_mkdir env folder = None ->
        path_write_text env file code = Some e ->
        write_sketch env code name
        = ([EMkdir folder; EWriteText file code], Raise e)).
Proof.
  intros base folder file.
  rewrite write_sketch_cases.
  change (sketch_folder env name) with folder.
  change (sketch_file env name) with file.
  repeat split.
  - destruct (path_mkdir env folder); [discriminate|].
    destruct (path_write_text env file code); [discriminate|].
    simpl in H. now injection H as <-.
  - destruct (path_mkdir env folder); [discriminate|].
    destruct (path_write_text env file code); [discriminate|].
    reflexivity.
  - intros e ->. reflexivity.
  - intros e -> ->. reflexivity.
Qed.

(** X8 on a disk that can be written, on one that is read-only, and on a
    folder in which no file can be created. *)
Lemma write_sketch_layout_witness :
  (blink_folder = lit "/app/sketches/blinktest"
   /\ trace (write_sketch env_ok blink blink_name)
      = [ EMkdir (lit "/app/sketches/blinktest");
          EWriteText (lit "/app/sketches/blinktest/blinktest.ino") blink ])
  /\ write_sketch env_readonly_disk blink blink_name
     = ([EMkdir (lit "/app/sketches/blinktest")],
        Raise (mkExn OSError (lit "[Errno 30] Read-only file system"))).
Proof.
  split.
  - apply (proj1 (write_sketch_layout env_ok blink blink_name) blink_folder).
    reflexivity.
  - apply (proj1 (proj2 (write_sketch_layout env_readonly_disk blink
                           blink_name))).
    reflexivity.
Defined.

Lemma lower_alnum_underscore_ascii (s : pystr) :
  forallb lower_alnum_underscore s = true -> is_ascii s.
Proof.
  unfold is_ascii. induction s as [|c s IH]; simpl; intros H; constructor.
  - apply andb_true_iff in H as [H _]. unfold lower_alnum_underscore in H.
    apply orb_true_iff in H as [H|H].
    + apply orb_true_iff in H as [H|H];
        apply andb_true_iff in H as [_ H]; apply N.leb_le in H; lia.
    + apply N.eqb_eq in H. lia.
  - apply IH. now apply andb_true_iff in H as [_ H].
Qed.

Lemma lower_alnum_underscore_fixed (c : N) :
  lower_alnum_underscore c = true ->
  (ascii_isalnum c || (c =? 95)%N) = true /\ ascii_lower_char c = c.
Proof.
  unfold lower_alnum_underscore, ascii_isalnum, ascii_lower_char.
  intros H.
  destruct ((65 <=? c) && (c <=? 90))%N eqn:Hup.
  - exfalso. apply andb_true_iff in Hup as [H1 H2].
    apply N.leb_le in H1, H2.
    apply orb_true_iff in H as [H|H].
    + apply orb_true_iff in H as [H|H];
        apply andb_true_iff in H as [Ha Hb];
        apply N.leb_le in Ha, Hb; lia.
    + apply N.eqb_eq in H. lia.
  - split; [|reflexivity].
    destruct ((48 <=? c) && (c <=? 57))%N; [reflexivity|].
    simpl in *. exact H.
Qed.

(** X9: for a name of ASCII characters, [write_sketch] cannot leave the
    sketch directory: the folder it returns is the sketch directory, a
    separator and a non-empty base name of lowercase letters, digits and
    underscores, which holds neither a separator nor a dot. *)
Theorem write_sketch_stays_in_sketch_dir
    (env : Env) (code name path : pystr) :
  ascii_tables env ->
  is_ascii name ->
  result (write_sketch env code name) = Ret path ->
  exists base,
    path = SKETCH_DIR env ++ lit "/" ++ base
    /\ base <> []
    /\ forallb lower_alnum_underscore base = true
    /\ ~ In 47%N base
    /\ ~ In 46%N base.
Proof.
  intros [Halnum Hlower] Hascii Hres.
  apply write_sketch_returns_folder in Hres. subst path.
  exists (safe_name env name).
  pose proof (safe_name_ascii env name Halnum Hlower Hascii) as Hsafe.
  split; [reflexivity|]. split; [apply safe_name_nonempty|].
  split; [exact Hsafe|].
  rewrite forallb_forall in Hsafe.
  split; intros Hin; apply Hsafe in Hin; vm_compute in Hin; discriminate.
Qed.

Lemma sample_tables_ascii (env : Env) :
  str_isalnum env = sample_isalnum ->
  str_lower env = sample_lower ->
  ascii_tables env.
Proof.
  intros Hi Hl. split.
  - intros c Hc. rewrite Hi. unfold sample_isalnum, ascii_isalnum.
    assert (H : (c =? 0x130)%N = false) by (apply N.eqb_neq; lia).
    rewrite H. now rewrite orb_false_r.
  - intros s Hs. rewrite Hl. unfold sample_lower.
    induction Hs as [|c s Hc _ IH]; [reflexivity|].
    simpl. rewrite IH. unfold sample_lower_char, ascii_lower_char.
    destruct ((65 <=? c) && (c <=? 90))%N; [reflexivity|].
    assert (H : (c =? 0x130)%N = false) by (apply N.eqb_neq; lia).
    now rewrite H.
Qed.

Lemma lit_is_ascii (s : string) :
  forallb (fun c => (c <? 128)%N) (lit s) = true -> is_ascii (lit s).
Proof.
  unfold is_ascii. rewrite forallb_forall, Forall_forall.
  intros H c Hc. apply N.ltb_lt. auto.
Qed.

(** X9 on a name that tries to climb out of the directory. *)
Lemma write_sketch_stays_in_sketch_dir_witness :
  exists base,
    lit "/app/sketches/etcpasswd" = SKETCH_DIR env_ok ++ lit "/" ++ base
    /\ base <> []
    /\ forallb lower_alnum_underscore base = true
    /\ ~ In 47%N base
    /\ ~ In 46%N base.
Proof.
  apply (write_sketch_stays_in_sketch_dir env_ok blink
           (lit "../../etc/passwd")).
  - apply sample_tables_ascii; reflexivity.
  - apply lit_is_ascii. reflexivity.
  - reflexivity.
Defined.

(** X10: on ASCII names sanitizing is idempotent: the name of a sketch
    folder, given as name again, gives the same folder. *)
Theorem safe_name_idempotent (env : Env) (name : pystr) :
  ascii_tables env ->
  is_ascii name ->
  safe_name env (safe_name env name) = safe_name env name.
Proof.
  intros [Halnum Hlower] Hascii.
  pose proof (safe_name_ascii env name Halnum Hlower Hascii) as Hsafe.
  pose proof (safe_name_nonempty env name) as Hne.
  set (s := safe_name env name) in *.
  pose proof (lower_alnum_underscore_ascii s Hsafe) as Hs.
  assert (Hfilter : filter (fun c => str_isalnum env c || (c =? 95)%N) s = s).
  { clear Hne. unfold is_ascii in Hs.
    induction Hs as [|c s' Hc Hs' IH]; [reflexivity|].
    simpl in Hsafe. apply andb_true_iff in Hsafe as [Hc' Hrest].
    simpl. rewrite (Halnum c Hc).
    destruct (lower_alnum_underscore_fixed c Hc') as [-> _].
    now rewrite (IH Hrest). }
  assert (Hmap : map ascii_lower_char s = s).
  { clear Hne Hfilter Hs.
    induction s as [|c s' IH]; [reflexivity|].
    simpl in Hsafe. apply andb_true_iff in Hsafe as [Hc' Hrest].
    simpl. destruct (lower_alnum_underscore_fixed c Hc') as [_ ->].
    now rewrite (IH Hrest). }
  unfold safe_name at 1. rewrite Hfilter, (Hlower s Hs), Hmap.
  destruct s; [contradiction|reflexivity].
Qed.

(** X10 on a name with capitals, blanks and punctuation. *)
Lemma safe_name_idempotent_witness :
  safe_name env_ok (safe_name env_ok (lit "LED Blink (v2).ino"))
  = safe_name env_ok (lit "LED Blink (v2).ino").
Proof.
  apply (safe_name_idempotent env_ok).
  - apply sample_tables_ascii; reflexivity.
  - apply lit_is_ascii. reflexivity.
Defined.

(* ================================================================= *)
(** ** upload_sketch, compile_sketch and deploy_code: commands and errors *)

Lemma upload_run_trace (env : Env) (sketch_path port fqbn : pystr) :
  trace (upload_run env sketch_path port fqbn)
  = [ERun (upload_argv sketch_path port fqbn)].
Proof.
  destruct (subprocess_run env (upload_argv sketch_path port fqbn))
    as [c|e] eqn:H.
  - now rewrite (upload_run_completed _ _ _ _ _ H).
  - now rewrite (upload_run_raises _ _ _ _ _ H).
Qed.

Lemma upload_sketch_trace (env : Env) (sketch_path port fqbn : pystr) :
  trace (upload_sketch env sketch_path port fqbn)
  = (if check_port_accessible env port then []
     else [ERun (chmod_argv port)])
    ++ (if check_port_accessible env port || fix_succeeds env port
        then [ERun (upload_argv sketch_path port fqbn)] else []).
Proof.
  destruct (check_port_accessible env port) eqn:Hacc.
  - rewrite (upload_sketch_accessible _ _ _ _ Hacc). apply upload_run_trace.
  - destruct (fix_succeeds env port) eqn:Hfix.
    + rewrite (upload_sketch_fixed _ _ _ _ Hacc Hfix). simpl.
      now rewrite upload_run_trace.
    + now rewrite (upload_sketch_aborts _ _ _ _ Hacc Hfix).
Qed.

Lemma upload_sketch_result (env : Env) (sketch_path port fqbn : pystr) :
  check_port_accessible env port || fix_succeeds env port = true ->
  result (upload_sketch env sketch_path port fqbn)
  = result (upload_run env sketch_path port fqbn).
Proof.
  destruct (check_port_accessible env port) eqn:Hacc.
  - intros _. now rewrite (upload_sketch_accessible _ _ _ _ Hacc).
  - simpl. intros Hfix. now rewrite (upload_sketch_fixed _ _ _ _ Hacc Hfix).
Qed.

(** X11: the commands of [upload_sketch].  [sudo chmod] is run exactly when
    the pre-flight check fails, before anything else; the uploader is run
    exactly when the check passes or the fix succeeds, once, and last.  So
    an upload costs at most two commands, and is never tried again. *)
Theorem upload_sketch_commands (env : Env) (sketch_path port fqbn : pystr) :
  trace (upload_sketch env sketch_path port fqbn)
  = (if check_port_accessible env port then []
     else [ERun (chmod_argv port)])
    ++ (if check_port_accessible env port || fix_succeeds env port
        then [ERun (upload_argv sketch_path port fqbn)] else [])
  /\ upload_calls (trace (upload_sketch env sketch_path port fqbn))
     = (if check_port_accessible env port || fix_succeeds env port
        then 1 else 0)%nat
  /\ (runs (trace (upload_sketch env sketch_path port fqbn)) <= 2)%nat.
Proof.
  rewrite upload_sketch_trace.
  split; [reflexivity|].
  destruct (check_port_accessible env port), (fix_succeeds env port);
    simpl; split; try reflexivity; unfold runs; simpl; lia.
Qed.

(** X12: what [upload_sketch] makes of the uploader's output once the
    uploader is run.  With exit code 0 the errors are [None], whatever the
    uploader wrote to standard error; with another exit code and an error
    text that is empty or in which "permission denied" is not found, the
    errors are that text as it is, without hint. *)
Theorem upload_sketch_passes_errors
    (env : Env) (sketch_path port fqbn : pystr) (c : completed_process) :
  check_port_accessible env port || fix_succeeds env port = true ->
  subprocess_run env (upload_argv sketch_path port fqbn) = Completed c ->
  (returncode c = 0 ->
   result (upload_sketch env sketch_path port fqbn)
   = Ret (succeeded (stdout c)))
  /\ (returncode c <> 0 ->
      stderr c = []
      \/ contains (lit "permission denied") (str_lower env (stderr c))
         = false ->
      result (upload_sketch env sketch_path port fqbn)
      = Ret (failed (stdout c) (stderr c))).
Proof.
  intros Hreach Hrun.
  rewrite (upload_sketch_result _ _ _ _ Hreach).
  rewrite (upload_run_completed _ _ _ _ _ Hrun). simpl.
  split.
  - intros ->. reflexivity.
  - intros Hrc Hplain. apply Z.eqb_neq in Hrc. rewrite Hrc.
    destruct Hplain as [->| ->]; [reflexivity|].
    now rewrite andb_false_r.
Qed.

(** X12 on an uploader that warns and succeeds, and on one that finds no
    programmer. *)
Lemma upload_sketch_passes_errors_witness :
  result (upload_sketch
            (plain (cli (fun _ => 0) (fun _ => lit "done")
                        (fun _ => lit "warning: permission denied earlier"))
                   world_rw)
            blink_folder acm0 uno)
  = Ret (succeeded (lit "done"))
  /\ result (upload_sketch
               (plain (cli (fun _ => 1) (fun _ => [])
                           (fun _ => lit "avrdude: stk500_recv(): programmer is not responding"))
                      world_rw)
               blink_folder acm0 uno)
     = Ret (failed [] (lit "avrdude: stk500_recv(): programmer is not responding")).
Proof.
  split.
  - apply (proj1 (upload_sketch_passes_errors
             (plain (cli (fun _ => 0) (fun _ => lit "done")
                         (fun _ => lit "warning: permission denied earlier"))
                    world_rw)
             blink_folder acm0 uno
             (mkCompleted 0 (lit "done")
                          (lit "warning: permission denied earlier"))
             eq_refl eq_refl)).
    reflexivity.
  - apply (proj2 (upload_sketch_passes_errors
             (plain (cli (fun _ => 1) (fun _ => [])
                         (fun _ => lit "avrdude: stk500_recv(): programmer is not responding"))
                    world_rw)
             blink_folder acm0 uno
             (mkCompleted 1 []
                (lit "avrdude: stk500_recv(): programmer is not responding"))
             eq_refl eq_refl)).
    + discriminate.
    + right. reflexivity.
Defined.

(** X13: [compile_sketch] handles a missing tool and a timeout only.  Any
    other exception of running the compiler leaves [compile_sketch] as it
    was raised, and then [deploy_code], which has written the sketch by
    then, raises it too instead of returning a staged failure, without
    running the uploader. *)
Theorem compile_sketch_propagates
    (env : Env) (sketch_path fqbn : pystr) (e : exn) :
  subprocess_run env (compile_argv sketch_path fqbn) = RunRaises e ->
  exn_cls e <> FileNotFoundError ->
  exn_cls e <> TimeoutExpired ->
  compile_sketch env sketch_path fqbn
  = ([ERun (compile_argv sketch_path fqbn)], Raise e)
  /\ forall code port name,
       result (write_sketch env code name) = Ret sketch_path ->
       result (deploy_code env code port name fqbn) = Raise e
       /\ upload_calls (trace (deploy_code env code port name fqbn)) = 0%nat.
Proof.
  intros Hrun H1 H2.
  assert (Hc : compile_sketch env sketch_path fqbn
               = ([ERun (compile_argv sketch_path fqbn)], Raise e)).
  { rewrite (compile_sketch_raises _ _ _ _ Hrun).
    destruct (exn_cls e); try contradiction; reflexivity. }
  split; [exact Hc|].
  intros code port name Hw.
  destruct (write_sketch env code name) as [t1 r] eqn:Hw'.
  unfold result in Hw. simpl in Hw. subst r.
  rewrite (deploy_code_compile_raises _ _ _ _ _ _ _ _ _ Hw' Hc).
  split; [reflexivity|].
  unfold trace. simpl. rewrite upload_calls_app.
  pose proof (write_sketch_no_upload env code name) as Hn.
  rewrite Hw' in Hn. unfold trace in Hn. simpl in Hn. rewrite Hn.
  reflexivity.
Qed.

(** X13 on a compiler that may not be executed. *)
Lemma compile_sketch_propagates_witness :
  compile_sketch
    (plain (fun _ => RunRaises (mkExn OSError (lit "[Errno 13] Permission denied: 'arduino-cli'")))
           world_rw)
    blink_folder uno
  = ([ERun (compile_argv blink_folder uno)],
     Raise (mkExn OSError (lit "[Errno 13] Permission denied: 'arduino-cli'")))
  /\ result (deploy_code
               (plain (fun _ => RunRaises (mkExn OSError (lit "[Errno 13] Permission denied: 'arduino-cli'")))
                      world_rw)
               blink acm0 blink_name uno)
     = Raise (mkExn OSError (lit "[Errno 13] Permission denied: 'arduino-cli'")).
Proof.
  destruct (compile_sketch_propagates
              (plain (fun _ => RunRaises (mkExn OSError (lit "[Errno 13] Permission denied: 'arduino-cli'")))
                     world_rw)
              blink_folder uno
              (mkExn OSError (lit "[Errno 13] Permission denied: 'arduino-cli'"))
              eq_refl ltac:(discriminate) ltac:(discriminate)) as [Hc Hd].
  split; [exact Hc|].
  apply (Hd blink acm0 blink_name eq_refl).
Defined.

Lemma write_sketch_ok_inv (env : Env) (code name : pystr) (t : list event)
    (sketch_path : pystr) :
  write_sketch env code name = (t, Ret sketch_path) ->
  path_mkdir env (sketch_folder env name) = None
  /\ path_write_text env (sketch_file env name) code = None
  /\ sketch_path = sketch_folder env name.
Proof.
  rewrite write_sketch_cases.
  destruct (path_mkdir env _); [discriminate|].
  destruct (path_write_text env _ _); [discriminate|].
  intros [= _ <-]. auto.
Qed.

Lemma compile_sketch_ok_inv (env : Env) (sketch_path fqbn output : pystr) :
  result (compile_sketch env sketch_path fqbn) = Ret (succeeded output) ->
  exists c, subprocess_run env (compile_argv sketch_path fqbn) = Completed c
            /\ returncode c = 0.
Proof.
  destruct (subprocess_run env (compile_argv sketch_path fqbn)) as [c|e] eqn:H.
  - rewrite (compile_sketch_completed _ _ _ _ H). simpl.
    destruct (returncode c =? 0) eqn:Hrc; [|discriminate].
    intros _. exists c. split; [reflexivity|now apply Z.eqb_eq].
  - rewrite (compile_sketch_raises _ _ _ _ H). simpl.
    destruct (exn_cls e); discriminate.
Qed.

Lemma upload_sketch_ok_inv
    (env : Env) (sketch_path port fqbn output : pystr) :
  result (upload_sketch env sketch_path port fqbn) = Ret (succeeded output) ->
  check_port_accessible env port || fix_succeeds env port = true
  /\ exists c,
       subprocess_run env (upload_argv sketch_path port fqbn) = Completed c
       /\ returncode c = 0.
Proof.
  destruct (check_port_accessible env port || fix_succeeds env port) eqn:Hr.
  - rewrite (upload_sketch_result _ _ _ _ Hr). split; [reflexivity|].
    destruct (subprocess_run env (upload_argv sketch_path port fqbn))
      as [c|e] eqn:Hrun.
    + rewrite (upload_run_completed _ _ _ _ _ Hrun) in H. simpl in H.
      destruct (returncode c =? 0) eqn:Hrc; [|discriminate].
      exists c. split; [reflexivity|now apply Z.eqb_eq].
    + rewrite (upload_run_raises _ _ _ _ _ Hrun) in H. simpl in H.
      destruct (exn_cls e); discriminate.
  - apply orb_false_iff in Hr as [Hacc Hfix].
    rewrite (upload_sketch_aborts _ _ _ _ Hacc Hfix). discriminate.
Qed.

(** X14: [deploy_code] reports success exactly when the folder and the
    file could be written, the compiler exited with 0 on the written
    folder, the port was writable or could be made so, and the uploader
    exited with 0 for that folder and port. *)
Theorem deploy_code_success_iff (env : Env) (code port name fqbn : pystr) :
  (exists d,
     result (deploy_code env code port name fqbn) = Ret d
     /\ dict_lookup (lit "success") d = Some (PBool true))
  <->
  (path_mkdir env (sketch_folder env name) = None
   /\ path_write_text env (sketch_file env name) code = None
   /\ (exists c,
         subprocess_run env (compile_argv (sketch_folder env name) fqbn)
         = Completed c /\ returncode c = 0)
   /\ check_port_accessible env port || fix_succeeds env port = true
   /\ (exists c,
         subprocess_run env (upload_argv (sketch_folder env name) port fqbn)
         = Completed c /\ returncode c = 0)).
Proof.
  split.
  - intros (d & Hd & Hsucc).
    pose proof (deploy_code_pipeline env code port name fqbn) as P.
    pipeline_cases P; try discriminate Hsucc.
    destruct (write_sketch_ok_inv _ _ _ _ _ Hw') as (Hm & Hwt & ->).
    split; [assumption|]. split; [assumption|].
    split.
    { apply (compile_sketch_ok_inv env _ fqbn o). now rewrite Hc'. }
    apply (upload_sketch_ok_inv env _ port fqbn o'). now rewrite Hu'.
  - intros (Hm & Hwt & (c & Hc & Hrc) & Hreach & (u & Hu & Hurc)).
    assert (Hw : write_sketch env code name
                 = ([EMkdir (sketch_folder env name);
                     EWriteText (sketch_file env name) code],
                    Ret (sketch_folder env name))).
    { rewrite write_sketch_cases. now rewrite Hm, Hwt. }
    assert (Hc' : compile_sketch env (sketch_folder env name) fqbn
                  = ([ERun (compile_argv (sketch_folder env name) fqbn)],
                     Ret (succeeded (stdout c)))).
    { rewrite (compile_sketch_completed _ _ _ _ Hc). now rewrite Hrc. }
    assert (Hu' : upload_sketch env (sketch_folder env name) port fqbn
                  = (trace (upload_sketch env (sketch_folder env name)
                                          port fqbn),
                     Ret (succeeded (stdout u)))).
    { pose proof (upload_sketch_result env (sketch_folder env name) port fqbn
                    Hreach) as Hres.
      rewrite (upload_run_completed _ _ _ _ _ Hu) in Hres.
      simpl in Hres. rewrite Hurc in Hres. simpl in Hres.
      destruct (upload_sketch env (sketch_folder env name) port fqbn)
        as [t r]. unfold result in Hres. simpl in Hres. now subst r. }
    exists (deployed (sketch_folder env name) port).
    rewrite (deploy_code_succeeds _ _ _ _ _ _ _ _ _ _ _ Hw Hc' Hu').
    split; reflexivity.
Qed.

Lemma runs_app (t1 t2 : list event) :
  runs (t1 ++ t2) = (runs t1 + runs t2)%nat.
Proof.
  unfold runs. now rewrite filter_app, length_app.
Qed.

Lemma write_sketch_no_runs (env : Env) (code name : pystr) :
  runs (trace (write_sketch env code name)) = 0%nat.
Proof.
  rewrite write_sketch_cases.
  destruct (path_mkdir env _); [reflexivity|].
  destruct (path_write_text env _ _); reflexivity.
Qed.

Lemma upload_sketch_bounds (env : Env) (sketch_path port fqbn : pystr) :
  (runs (trace (upload_sketch env sketch_path port fqbn)) <= 2)%nat
  /\ (upload_calls (trace (upload_sketch env sketch_path port fqbn)) <= 1)%nat.
Proof.
  rewrite upload_sketch_trace.
  destruct (check_port_accessible env port), (fix_succeeds env port);
    unfold runs, upload_calls; simpl; lia.
Qed.

(** X15: [deploy_code] does not retry.  A call runs at most three
    commands (the compiler, [sudo chmod], the uploader), the uploader at
    most once, and none at all when the sketch cannot be written. *)
Theorem deploy_code_commands (env : Env) (code port name fqbn : pystr) :
  (runs (trace (deploy_code env code port name fqbn)) <= 3)%nat
  /\ (upload_calls (trace (deploy_code env code port name fqbn)) <= 1)%nat
  /\ (forall e, result (write_sketch env code name) = Raise e ->
                runs (trace (deploy_code env code port name fqbn)) = 0%nat).
Proof.
  pose proof (deploy_code_pipeline env code port name fqbn) as P.
  pose proof (write_sketch_no_runs env code name) as Hwr.
  pose proof (write_sketch_no_upload env code name) as Hwu.
  assert (Hcr : forall sp, runs (trace (compile_sketch env sp fqbn)) = 1%nat).
  { intros sp. now rewrite compile_sketch_trace. }
  pose proof (compile_sketch_no_upload env) as Hcu.
  pose proof (upload_sketch_bounds env) as Hub.
  remember (deploy_code env code port name fqbn) as r eqn:Hr. clear Hr.
  destruct P as [t1 e Hw' | t1 sp t2 e Hw' Hc'
                | t1 sp t2 o er Hw' Hc'
                | t1 sp t2 o t3 e Hw' Hc' Hu'
                | t1 sp t2 o t3 o' er Hw' Hc' Hu'
                | t1 sp t2 o t3 o' Hw' Hc' Hu'];
    rewrite Hw' in Hwr, Hwu |- *;
    try (specialize (Hcr sp); specialize (Hcu sp fqbn);
         rewrite Hc' in Hcr, Hcu);
    try (specialize (Hub sp port fqbn); rewrite Hu' in Hub);
    unfold trace, result in *; simpl in *;
    rewrite ?runs_app, ?upload_calls_app;
    (split; [lia|split; [lia|]]); intros e0 He0; try discriminate He0; lia.
Qed.

(** X14 on the world in which everything works, and on the world whose
    compiler rejects the sketch. *)
Lemma deploy_code_success_iff_witness :
  (exists d,
     result (deploy_code env_ok blink acm0 blink_name uno) = Ret d
     /\ dict_lookup (lit "success") d = Some (PBool true))
  /\ exists c,
       subprocess_run env_ok (upload_argv (sketch_folder env_ok blink_name)
                                          acm0 uno) = Completed c
       /\ returncode c = 0.
Proof.
  split.
  - apply (proj2 (deploy_code_success_iff env_ok blink acm0 blink_name uno)).
    split; [reflexivity|]. split; [reflexivity|].
    split; [eexists; split; reflexivity|].
    split; [reflexivity|].
    eexists; split; reflexivity.
  - apply (proj1 (deploy_code_success_iff env_ok blink acm0 blink_name uno)).
    eexists. split; reflexivity.
Defined.

(* ================================================================= *)
(** ** read_serial: errors, termination and what is returned *)

(** X16: the calls of [read_serial] that never poll.  Without pyserial the
    call returns "Error: pyserial not installed"; when opening the port
    raises a [SerialException] it returns "Serial error: " and the text of
    the exception, and for any other exception "Error reading serial: "
    and its text.  In none of these cases does it raise. *)
Theorem read_serial_without_port
    (env : Env) (fuel : nat) (port : pystr) (duration baudrate : Z) :
  (HAS_SERIAL env = false ->
   read_serial env fuel port duration baudrate
   = Some (lit "Error: pyserial not installed"))
  /\ (forall e,
        HAS_SERIAL env = true ->
        serial_open env port baudrate = Some e ->
        exn_cls e = SerialException ->
        read_serial env fuel port duration baudrate
        = Some (lit "Serial error: " ++ exn_str e))
  /\ (forall e,
        HAS_SERIAL env = true ->
        serial_open env port baudrate = Some e ->
        exn_cls e <> SerialException ->
        read_serial env fuel port duration baudrate
        = Some (lit "Error reading serial: " ++ exn_str e)).
Proof.
  unfold read_serial. repeat split.
  - intros ->. reflexivity.
  - intros e -> -> Hcls. simpl. unfold serial_error_report. now rewrite Hcls.
  - intros e -> -> Hcls. simpl. unfold serial_error_report.
    destruct (exn_cls e); try reflexivity. contradiction.
Qed.

(** X16 on a port that is busy. *)
Lemma read_serial_without_port_witness :
  read_serial
    (mkEnv sample_isalnum sample_lower (fun _ => None) true
           (lit "/app/sketches") [] no_cli world_rw 1000 [1000]
           (fun _ => None) (fun _ _ => None)
           (fun _ _ => Some (mkExn SerialException
                               (lit "could not open port /dev/ttyACM0")))
           quiet_clock no_bytes no_line)
    0 acm0 3 9600
  = Some (lit "Serial error: could not open port /dev/ttyACM0").
Proof.
  apply (proj1 (proj2 (read_serial_without_port
           (mkEnv sample_isalnum sample_lower (fun _ => None) true
                  (lit "/app/sketches") [] no_cli world_rw 1000 [1000]
                  (fun _ => None) (fun _ _ => None)
                  (fun _ _ => Some (mkExn SerialException
                                      (lit "could not open port /dev/ttyACM0")))
                  quiet_clock no_bytes no_line)
           0 acm0 3 9600))
           (mkExn SerialException (lit "could not open port /dev/ttyACM0")));
    reflexivity.
Defined.

Lemma join_nonempty (sep line : pystr) (rest : list pystr) :
  line <> [] -> join sep (line :: rest) <> [].
Proof.
  intros Hline. destruct rest as [|l rest]; simpl.
  - exact Hline.
  - destruct line; [contradiction|discriminate].
Qed.

Lemma poll_once_nonempty (env : Env) (i : nat)
    (output_lines lines' : list pystr) :
  Forall (fun l => l <> []) output_lines ->
  poll_once env i output_lines = Ret lines' ->
  Forall (fun l => l <> []) lines'.
Proof.
  intros Hall. unfold poll_once.
  destruct (serial_in_waiting env i) as [w|e]; simpl; [|discriminate].
  destruct (negb (w =? 0)); [|now intros [= <-]].
  destruct (serial_readline env i) as [raw|e]; [|now intros [= <-]].
  destruct (strip raw) as [|c s] eqn:Hs; simpl; intros [= <-]; [assumption|].
  apply Forall_app. split; [assumption|].
  constructor; [discriminate|constructor].
Qed.

Lemma poll_loop_nonempty (env : Env) (end_time : Z) :
  forall (fuel i : nat) (output_lines lines' : list pystr),
    Forall (fun l => l <> []) output_lines ->
    poll_loop env fuel i end_time output_lines = Some (Ret lines') ->
    Forall (fun l => l <> []) lines'.
Proof.
  induction fuel as [|fuel IH]; intros i lines lines' Hall; simpl;
    [discriminate|].
  destruct (loop_time env (S i) <? end_time).
  - destruct (poll_once env i lines) as [l|e] eqn:Hp; [|discriminate].
    apply IH. eapply poll_once_nonempty; eassumption.
  - now intros [= <-].
Qed.

(** [read_serial] never returns the empty string: what it returns is an
    error report, the sentinel, or lines of which none is empty. *)
Lemma read_serial_not_empty
    (env : Env) (fuel : nat) (port : pystr) (duration baudrate : Z)
    (r : pystr) :
  read_serial env fuel port duration baudrate = Some r -> r <> [].
Proof.
  assert (Hrep : forall e, serial_error_report e <> []).
  { intros e. unfold serial_error_report. destruct (exn_cls e); discriminate. }
  unfold read_serial.
  destruct (negb (HAS_SERIAL env)); [intros [= <-]; discriminate|].
  destruct (serial_open env port baudrate) as [e|];
    [intros [= <-]; apply Hrep|].
  destruct (poll_loop env fuel 0 (loop_time env 0 + duration) [])
    as [[lines|e]|] eqn:Hloop; [| |discriminate].
  - intros [= <-].
    pose proof (poll_loop_nonempty env _ _ _ _ _ (Forall_nil _) Hloop) as Hall.
    destruct lines as [|l rest]; [discriminate|].
    apply join_nonempty. now inversion Hall.
  - intros [= <-]. apply Hrep.
Qed.

(** A window in which the board only sends blank lines. *)
Lemma read_serial_blank_lines :
  no_output <> [].
Proof.
  apply (read_serial_not_empty
           (world [] no_cli (fun _ => None) world_rw quiet_clock
                  (fun _ => Ret 2) (fun _ => Ret (lit "  " ++ [13; 10]%N)))
           5 acm0 3 9600).
  reflexivity.
Defined.

Lemma lstrip_decomp (s : pystr) :
  exists p,
    s = p ++ lstrip s
    /\ forallb isspace p = true
    /\ (lstrip s = []
        \/ exists c t, lstrip s = c :: t /\ isspace c = false).
Proof.
  induction s as [|c s IH].
  - exists []. repeat split. now left.
  - simpl. destruct (isspace c) eqn:Hc.
    + destruct IH as (p & Hp & Hall & Hhd).
      exists (c :: p). split; [simpl; now rewrite <- Hp|].
      split; [simpl; now rewrite Hc|exact Hhd].
    + exists []. repeat split. right. now exists c, s.
Qed.

Lemma strip_stripped (s : pystr) : strip s = [] \/ stripped (strip s).
Proof.
  unfold strip.
  destruct (lstrip_decomp s) as (p & _ & _ & Ha).
  destruct (lstrip_decomp (rev (lstrip s))) as (q & Hq & Hqs & Hb).
  set (a := lstrip s) in *. set (b := lstrip (rev a)) in *.
  destruct Hb as [->|(cb & tb & Hb & Hcb)]; [now left|right].
  assert (Hrev : a = rev b ++ rev q).
  { rewrite <- (rev_involutive a), Hq. apply rev_app_distr. }
  assert (Hlast : forall d, last (rev b) d = cb).
  { intros d. rewrite Hb. simpl. apply last_last. }
  destruct (rev b) as [|c t] eqn:Hrb.
  { rewrite Hb in Hrb. simpl in Hrb. now destruct (rev tb). }
  exists c, t. split; [reflexivity|]. split.
  - destruct Ha as [Ha|(ca & ta & Ha & Hca)].
    + rewrite Ha in Hrev. discriminate.
    + rewrite Ha in Hrev. simpl in Hrev. now injection Hrev as <- _.
  - now rewrite Hlast.
Qed.

Lemma poll_once_stripped (env : Env) (i : nat)
    (output_lines lines' : list pystr) :
  Forall stripped output_lines ->
  poll_once env i output_lines = Ret lines' ->
  Forall stripped lines'.
Proof.
  intros Hall. unfold poll_once.
  destruct (serial_in_waiting env i) as [w|e]; simpl; [|discriminate].
  destruct (negb (w =? 0)); [|now intros [= <-]].
  destruct (serial_readline env i) as [raw|e]; [|now intros [= <-]].
  destruct (strip_stripped raw) as [Hs|Hs].
  - rewrite Hs. simpl. now intros [= <-].
  - destruct (strip raw) as [|c s] eqn:Hraw; simpl; intros [= <-];
      [assumption|].
    apply Forall_app. split; [assumption|]. constructor; [assumption|constructor].
Qed.

Lemma poll_loop_stripped (env : Env) (end_time : Z) :
  forall (fuel i : nat) (output_lines lines' : list pystr),
    Forall stripped output_lines ->
    poll_loop env fuel i end_time output_lines = Some (Ret lines') ->
    Forall stripped lines'.
Proof.
  induction fuel as [|fuel IH]; intros i lines lines' Hall; simpl;
    [discriminate|].
  destruct (loop_time env (S i) <? end_time).
  - destruct (poll_once env i lines) as [l|e] eqn:Hp; [|discriminate].
    apply IH. eapply poll_once_stripped; eassumption.
  - now intros [= <-].
Qed.

(** X18: everything [read_serial] can return.  It is the notice that
    pyserial is missing, an error report, the sentinel, or at least one
    line joined by newlines, where no line is empty and no line begins or
    ends with white space: the carriage return and the newline a board
    sends at the end of a line are gone. *)
Theorem read_serial_returns
    (env : Env) (fuel : nat) (port : pystr) (duration baudrate : Z)
    (r : pystr) :
  read_serial env fuel port duration baudrate = Some r ->
  r = lit "Error: pyserial not installed"
  \/ (exists e, r = serial_error_report e)
  \/ r = no_output
  \/ (exists line rest,
        r = join nl (line :: rest) /\ Forall stripped (line :: rest)).
Proof.
  unfold read_serial.
  destruct (negb (HAS_SERIAL env)); [intros [= <-]; now left|].
  destruct (serial_open env port baudrate) as [e|].
  { intros [= <-]. right. left. now exists e. }
  destruct (poll_loop env fuel 0 (loop_time env 0 + duration) [])
    as [[lines|e]|] eqn:Hloop; [| |discriminate].
  - intros [= <-].
    pose proof (poll_loop_stripped env _ _ _ _ _ (Forall_nil _) Hloop) as Hall.
    destruct lines as [|l rest]; [now right; right; left|].
    right. right. right. now exists l, rest.
  - intros [= <-]. right. left. now exists e.
Qed.

(** X18 on a board that sends two lines ending in carriage return and
    newline. *)
Lemma read_serial_returns_witness :
  lit "ready" ++ nl ++ lit "tick" = lit "Error: pyserial not installed"
  \/ (exists e, lit "ready" ++ nl ++ lit "tick" = serial_error_report e)
  \/ lit "ready" ++ nl ++ lit "tick" = no_output
  \/ (exists line rest,
        lit "ready" ++ nl ++ lit "tick" = join nl (line :: rest)
        /\ Forall stripped (line :: rest)).
Proof.
  apply (read_serial_returns env_two_lines 4 acm0 4 9600).
  reflexivity.
Defined.

(* ================================================================= *)
(** ** api_server.py: upload_code and get_boards *)

(** X19: the REST endpoint [upload_code] of api_server.py does to the
    outside world exactly what [deploy_code] does for the same code, port,
    name and FQBN, and answers accordingly: the success body with the
    written folder when [deploy_code] succeeds; status 500 with the error
    text for a failed write; status 400 with "Compilation failed: " or
    "Upload failed: " and the tool's errors for a failed compile or upload;
    status 500 with the text of the exception when [deploy_code] raises.
    It never lets an exception other than [HTTPException] through. *)
Theorem api_upload_code_mirrors_deploy_code
    (format : formatter) (env : Env)
    (code board board_fqbn sketch_name : pystr) :
  formats_str format ->
  let answer :=
    api_upload_code format env code board board_fqbn sketch_name in
  let deploy := deploy_code env code board sketch_name board_fqbn in
  fst answer = trace deploy
  /\ (forall e, snd answer <> Unhandled e)
  /\ (forall e, result deploy = Raise e ->
                snd answer = HTTPException 500 (exn_str e))
  /\ (forall d, result deploy = Ret d ->
        (dict_lookup (lit "success") d = Some (PBool true) ->
         snd answer
         = Respond [ (lit "success", PBool true);
                     (lit "message",
                        PStr (lit "Code uploaded successfully to " ++ board
                              ++ lit "!"));
                     (lit "sketch_path",
                        PStr (sketch_folder env sketch_name)) ])
        /\ (forall msg,
              dict_lookup (lit "stage") d = Some (PStr (lit "write")) ->
              dict_lookup (lit "error") d = Some (PStr msg) ->
              snd answer = HTTPException 500 msg)
        /\ (forall msg,
              dict_lookup (lit "stage") d = Some (PStr (lit "compile")) ->
              dict_lookup (lit "error") d = Some (PStr msg) ->
              snd answer
              = HTTPException 400 (lit "Compilation failed: " ++ msg))
        /\ (forall msg,
              dict_lookup (lit "stage") d = Some (PStr (lit "upload")) ->
              dict_lookup (lit "error") d = Some (PStr msg) ->
              snd answer
              = HTTPException 400 (lit "Upload failed: " ++ msg))).
Proof.
  intros Hfmt answer deploy. subst answer deploy.
  unfold api_upload_code, api_upload_try, result, trace.
  destruct (write_sketch env code sketch_name) as [t1 [sketch_path|e]] eqn:Hw.
  2:{ rewrite (deploy_code_write_fails _ _ _ _ _ _ _ Hw). simpl.
      split; [reflexivity|]. split; [discriminate|].
      split; [discriminate|]. intros d [= <-].
      split; [discriminate|]. split; [now intros msg _ [= <-]|].
      split; intros msg Hst; discriminate Hst. }
  pose proof (write_sketch_ok_inv _ _ _ _ _ Hw) as (_ & _ & Hfolder).
  destruct (compile_sketch env sketch_path board_fqbn) as [t2 [cr|e]] eqn:Hc.
  2:{ rewrite (deploy_code_compile_raises _ _ _ _ _ _ _ _ _ Hw Hc).
      simpl. rewrite Hc. simpl.
      split; [reflexivity|]. split; [discriminate|].
      split; [now intros e0 [= <-]|]. discriminate. }
  assert (Hop : operation_result cr).
  { apply (compile_sketch_operation_result env sketch_path board_fqbn).
    now rewrite Hc. }
  apply operation_result_inv in Hop as [[output ->]|(output & errors & ->)].
  2:{ rewrite (deploy_code_compile_fails _ _ _ _ _ _ _ _ _ _ Hw Hc).
      simpl. rewrite Hc. simpl. rewrite Hfmt, app_nil_r.
      split; [reflexivity|]. split; [discriminate|].
      split; [discriminate|]. intros d [= <-].
      split; [discriminate|]. split; [intros msg Hst; discriminate Hst|].
      split; [now intros msg _ [= <-]|intros msg Hst; discriminate Hst]. }
  destruct (upload_sketch env sketch_path board board_fqbn)
    as [t3 [ur|e]] eqn:Hu.
  2:{ rewrite (deploy_code_upload_raises _ _ _ _ _ _ _ _ _ _ _ Hw Hc Hu).
      simpl. rewrite Hc. simpl. rewrite Hu. simpl.
      split; [reflexivity|]. split; [discriminate|].
      split; [now intros e0 [= <-]|]. discriminate. }
  assert (Hop : operation_result ur).
  { apply (upload_sketch_operation_result env sketch_path board board_fqbn).
    now rewrite Hu. }
  apply operation_result_inv in Hop as [[output' ->]|(output' & errors & ->)].
  - rewrite (deploy_code_succeeds _ _ _ _ _ _ _ _ _ _ _ Hw Hc Hu).
    simpl. rewrite Hc. simpl. rewrite Hu. simpl. rewrite app_nil_r.
    split; [reflexivity|]. split; [discriminate|].
    split; [discriminate|]. intros d [= <-].
    split; [intros _; now rewrite Hfolder|].
    split; [|split]; intros msg Hst; discriminate Hst.
  - rewrite (deploy_code_upload_fails _ _ _ _ _ _ _ _ _ _ _ _ Hw Hc Hu).
    simpl. rewrite Hc. simpl. rewrite Hu. simpl. rewrite Hfmt, app_nil_r.
    split; [reflexivity|]. split; [discriminate|].
    split; [discriminate|]. intros d [= <-].
    split; [discriminate|]. split; [intros msg Hst; discriminate Hst|].
    split; [intros msg Hst; discriminate Hst|now intros msg _ [= <-]].
Qed.

(** X19 on a compiler that rejects the sketch. *)
Lemma api_upload_code_mirrors_deploy_code_witness :
  fst (api_upload_code sample_format env_compile_fails blink acm0 uno
                       blink_name)
  = trace (deploy_code env_compile_fails blink acm0 blink_name uno)
  /\ snd (api_upload_code sample_format env_compile_fails blink acm0 uno
                          blink_name)
     = HTTPException 400 (lit "Compilation failed: " ++ compiler_error).
Proof.
  destruct (api_upload_code_mirrors_deploy_code sample_format
              env_compile_fails blink acm0 uno blink_name
              (fun s => eq_refl)) as (Ht & _ & _ & Hd).
  split; [exact Ht|].
  destruct (Hd (stage_failure (lit "compile") (PStr compiler_error)
                              blink_folder) eq_refl)
    as (_ & _ & Hcompile & _).
  apply Hcompile; reflexivity.
Defined.

Lemma dedupe_NoDup_ports (boards unique_boards : list pydict)
    (seen : list hkey) :
  dedupe boards seen = Ret unique_boards ->
  NoDup (map (dict_lookup (lit "port")) unique_boards).
Proof.
  intros Hd.
  apply (NoDup_map_inv
           (fun p => match p with
                     | Some v => match py_hash_key v with
                                 | Ret k => Some k
                                 | Raise _ => None
                                 end
                     | None => None
                     end)).
  rewrite map_map. eapply dedupe_NoDup; eassumption.
Qed.

Lemma ports_of_total (boards : list pydict) :
  (forall b, In b boards -> exists k, port_key b = Some k) ->
  exists ports,
    ports_of boards = Ret ports
    /\ map (dict_lookup (lit "port")) boards = map Some ports.
Proof.
  induction boards as [|b rest IH]; intros Hkeys.
  - now exists [].
  - destruct (Hkeys b (or_introl eq_refl)) as [k Hk].
    destruct IH as (ports & Hports & Hmap).
    { intros x Hx. apply Hkeys. now right. }
    unfold port_key in Hk. simpl. unfold subscript.
    destruct (dict_lookup (lit "port") b) as [p|]; [|discriminate].
    exists (p :: ports). simpl. rewrite Hports. simpl.
    split; [reflexivity|now rewrite Hmap].
Qed.

(** X20: [get_boards] answers whenever discovery returns, and raises only
    what discovery raises.  In its answer ["boards"] holds the port of each
    record of ["details"], in the same order, and no port twice. *)
Theorem get_boards_ports (env : Env) :
  fst (get_boards env) = trace (list_arduino_boards env)
  /\ (forall e, result (list_arduino_boards env) = Raise e ->
                snd (get_boards env) = Unhandled e)
  /\ (forall boards,
        result (list_arduino_boards env) = Ret boards ->
        exists ports,
          snd (get_boards env)
          = Respond [ (lit "boards", PList ports);
                      (lit "details", PList (map PDict boards)) ]
          /\ map (dict_lookup (lit "port")) boards = map Some ports
          /\ List.length ports = List.length boards
          /\ NoDup ports).
Proof.
  unfold get_boards, bind, liftO, ret, result, trace.
  destruct (list_arduino_boards env) as [t [boards|e]] eqn:Hl; simpl.
  2:{ split; [reflexivity|]. split; [now intros e0 [= <-]|discriminate]. }
  assert (Hres : result (list_arduino_boards env) = Ret boards)
    by now rewrite Hl.
  destruct (list_arduino_boards_split env boards Hres) as (all & _ & Hd).
  destruct (ports_of_total boards) as (ports & Hports & Hmap).
  { intros b Hb. destruct (dedupe_fresh _ _ _ Hd b Hb) as (k & Hk & _).
    now exists k. }
  rewrite Hports. simpl. rewrite app_nil_r.
  split; [reflexivity|]. split; [discriminate|].
  intros boards' [= <-]. exists ports.
  split; [reflexivity|]. split; [exact Hmap|]. split.
  - rewrite <- (length_map Some ports), <- Hmap. apply length_map.
  - apply (NoDup_map_inv Some). rewrite <- Hmap.
    eapply dedupe_NoDup_ports; eassumption.
Qed.

(** X20 on the board both sources report. *)
Lemma get_boards_ports_witness :
  exists ports,
    snd (get_boards env_both_sources)
    = Respond [ (lit "boards", PList ports);
                (lit "details",
                   PList (map PDict
                     [ serial_record uno_port;
                       tool_record (PStr (lit "/dev/ttyUSB0"))
                         (PStr (lit "Arduino (clone/unrecognised)"))
                         (PStr default_fqbn) (PStr (lit "serial")) ])) ]
    /\ map (dict_lookup (lit "port"))
         [ serial_record uno_port;
           tool_record (PStr (lit "/dev/ttyUSB0"))
             (PStr (lit "Arduino (clone/unrecognised)"))
             (PStr default_fqbn) (PStr (lit "serial")) ]
       = map Some ports
    /\ List.length ports = 2%nat
    /\ NoDup ports.
Proof.
  apply (proj2 (proj2 (get_boards_ports env_both_sources))).
  reflexivity.
Defined.

(* ================================================================= *)
(** ** main.py: upload_code_endpoint *)

Lemma resolve_fqbn_explicit (env : Env) (board fqbn : pystr) :
  fqbn <> [] ->
  fqbn <> lit "arduino:avr:uno" ->
  resolve_fqbn env board fqbn = ([], Ret (PStr fqbn)).
Proof.
  intros Hne Hdef. unfold resolve_fqbn.
  destruct fqbn as [|c s]; [contradiction|]. simpl is_empty.
  destruct (PyStr.eqb (c :: s) (lit "arduino:avr:uno")) eqn:He.
  - apply eqb_eq in He. contradiction.
  - reflexivity.
Qed.

Lemma main_upload_steps_explicit (env : Env) (path board fqbn : pystr) :
  fqbn <> [] ->
  fqbn <> lit "arduino:avr:uno" ->
  main_upload_steps env path board fqbn
  = (compile_result <- compile_sketch env path fqbn ;;
     ok <- liftO (subscript compile_result (lit "success")) ;;
     if negb (truthy ok) then
       ret [ (lit "success", PBool false);
             (lit "stage", PStr (lit "compile"));
             (lit "error",
                dict_get compile_result (lit "errors")
                         (PStr (lit "Compilation failed")));
             (lit "message",
                PStr (lit "Compilation failed " ++ em_dash
                      ++ lit " see error for details")) ]
     else
     upload_result <- upload_sketch env path board fqbn ;;
     ok <- liftO (subscript upload_result (lit "success")) ;;
     if negb (truthy ok) then
       ret [ (lit "success", PBool false);
             (lit "stage", PStr (lit "upload"));
             (lit "error",
                dict_get upload_result (lit "errors")
                         (PStr (lit "Upload failed")));
             (lit "message",
                PStr (lit "Upload failed " ++ em_dash
                      ++ lit " see error for details")) ]
     else
       ret [ (lit "success", PBool true);
             (lit "message",
                PStr (lit "Code uploaded successfully to " ++ board
                      ++ lit "!"));
             (lit "fqbn", PStr fqbn) ]).
Proof.
  intros Hne Hdef. unfold main_upload_steps.
  rewrite (resolve_fqbn_explicit env board fqbn Hne Hdef).
  unfold bind at 1. cbv beta iota.
  unfold as_arg, liftO. unfold bind at 1. cbv beta iota.
  destruct (bind (compile_sketch env path fqbn) _) as [t r].
  reflexivity.
Qed.

(** X21: with an FQBN in the request that is neither empty nor the
    default, [upload_code_endpoint] of main.py does not run discovery: it
    does to the outside world exactly what [deploy_code] does for the name
    "editor_sketch", and compiles and uploads with the requested FQBN.  A
    failed write is answered with status 500; a failed compile or upload is
    answered with a body that has [success] false, the stage and the tool's
    errors; success is answered with the requested FQBN; an exception of a
    later stage is not handled. *)
Theorem upload_code_endpoint_explicit_fqbn
    (env : Env) (code board fqbn : pystr) :
  fqbn <> [] ->
  fqbn <> lit "arduino:avr:uno" ->
  let answer := upload_code_endpoint env code board fqbn in
  let deploy := deploy_code env code board editor_sketch fqbn in
  fst answer = trace deploy
  /\ (forall e, result (write_sketch env code editor_sketch) = Raise e ->
                snd answer
                = HTTPException 500
                    (lit "Failed to write sketch: " ++ exn_str e))
  /\ (forall e, result deploy = Raise e -> snd answer = Unhandled e)
  /\ (forall d, result deploy = Ret d ->
        (dict_lookup (lit "success") d = Some (PBool true) ->
         snd answer
         = Respond [ (lit "success", PBool true);
                     (lit "message",
                        PStr (lit "Code uploaded successfully to " ++ board
                              ++ lit "!"));
                     (lit "fqbn", PStr fqbn) ])
        /\ (forall err,
              dict_lookup (lit "stage") d = Some (PStr (lit "compile")) ->
              dict_lookup (lit "error") d = Some err ->
              snd answer
              = Respond [ (lit "success", PBool false);
                          (lit "stage", PStr (lit "compile"));
                          (lit "error", err);
                          (lit "message",
                             PStr (lit "Compilation failed " ++ em_dash
                                   ++ lit " see error for details")) ])
        /\ (forall err,
              dict_lookup (lit "stage") d = Some (PStr (lit "upload")) ->
              dict_lookup (lit "error") d = Some err ->
              snd answer
              = Respond [ (lit "success", PBool false);
                          (lit "stage", PStr (lit "upload"));
                          (lit "error", err);
                          (lit "message",
                             PStr (lit "Upload failed " ++ em_dash
                                   ++ lit " see error for details")) ])).
Proof.
  intros Hne Hdef answer deploy. subst answer deploy.
  unfold upload_code_endpoint, result, trace, editor_sketch.
  destruct (write_sketch env code (lit "editor_sketch"))
    as [t1 [sketch_path|e]] eqn:Hw.
  2:{ rewrite (deploy_code_write_fails _ _ _ _ _ _ _ Hw). simpl.
      split; [reflexivity|]. split; [now intros e0 [= <-]|].
      split; [discriminate|]. intros d [= <-].
      split; [discriminate|]. split; intros err Hst; discriminate Hst. }
  rewrite (main_upload_steps_explicit env sketch_path board fqbn Hne Hdef).
  destruct (compile_sketch env sketch_path fqbn) as [t2 [cr|e]] eqn:Hc.
  2:{ rewrite (deploy_code_compile_raises _ _ _ _ _ _ _ _ _ Hw Hc). simpl.
      split; [reflexivity|]. split; [discriminate|].
      split; [now intros e0 [= <-]|]. discriminate. }
  assert (Hop : operation_result cr).
  { apply (compile_sketch_operation_result env sketch_path fqbn).
    now rewrite Hc. }
  apply operation_result_inv in Hop as [[output ->]|(output & errors & ->)].
  2:{ rewrite (deploy_code_compile_fails _ _ _ _ _ _ _ _ _ _ Hw Hc). simpl.
      rewrite app_nil_r.
      split; [reflexivity|]. split; [discriminate|].
      split; [discriminate|]. intros d [= <-].
      split; [discriminate|].
      split; [now intros err _ [= <-]|intros err Hst; discriminate Hst]. }
  destruct (upload_sketch env sketch_path board fqbn) as [t3 [ur|e]] eqn:Hu.
  2:{ rewrite (deploy_code_upload_raises _ _ _ _ _ _ _ _ _ _ _ Hw Hc Hu).
      simpl. rewrite ?Hu. simpl.
      split; [reflexivity|]. split; [discriminate|].
      split; [now intros e0 [= <-]|]. discriminate. }
  assert (Hop : operation_result ur).
  { apply (upload_sketch_operation_result env sketch_path board fqbn).
    now rewrite Hu. }
  apply operation_result_inv in Hop as [[output' ->]|(output' & errors & ->)].
  - rewrite (deploy_code_succeeds _ _ _ _ _ _ _ _ _ _ _ Hw Hc Hu).
    simpl. rewrite ?Hu. simpl. rewrite app_nil_r.
    split; [reflexivity|]. split; [discriminate|].
    split; [discriminate|]. intros d [= <-].
    split; [reflexivity|]. split; intros err Hst; discriminate Hst.
  - rewrite (deploy_code_upload_fails _ _ _ _ _ _ _ _ _ _ _ _ Hw Hc Hu).
    simpl. rewrite ?Hu. simpl. rewrite app_nil_r.
    split; [reflexivity|]. split; [discriminate|].
    split; [discriminate|]. intros d [= <-].
    split; [discriminate|].
    split; [intros err Hst; discriminate Hst|now intros err _ [= <-]].
Qed.

(** X21 on a request for a Mega. *)
Lemma upload_code_endpoint_explicit_fqbn_witness :
  fst (upload_code_endpoint env_ok blink acm0 mega)
  = trace (deploy_code env_ok blink acm0 editor_sketch mega)
  /\ snd (upload_code_endpoint env_ok blink acm0 mega)
     = Respond [ (lit "success", PBool true);
                 (lit "message",
                    PStr (lit "Code uploaded successfully to " ++ acm0
                          ++ lit "!"));
                 (lit "fqbn", PStr mega) ].
Proof.
  destruct (upload_code_endpoint_explicit_fqbn env_ok blink acm0 mega
              ltac:(discriminate) ltac:(discriminate))
    as (Ht & _ & _ & Hd).
  split; [exact Ht|].
  apply (proj1 (Hd (deployed (lit "/app/sketches/editor_sketch") acm0)
                   eq_refl)).
  reflexivity.
Defined.

(** In a list without a port twice, the search for a port finds the one
    record of that port. *)
Lemma find_board_unique (board : pystr) (boards : list pydict) (b : pydict) :
  (forall x, In x boards -> exists k, port_key x = Some k) ->
  NoDup (map port_key boards) ->
  In b boards ->
  dict_lookup (lit "port") b = Some (PStr board) ->
  find_board board boards = Ret (Some b).
Proof.
  intros Hkeys Hnodup Hin Hport.
  assert (Hkb : port_key b = Some (HStr board)).
  { unfold port_key. now rewrite Hport. }
  induction boards as [|x rest IH]; [destruct Hin|].
  simpl. unfold subscript.
  destruct (Hkeys x (or_introl eq_refl)) as [k Hk].
  inversion Hnodup as [|? ? Hnotin Hnodup']; subst.
  pose proof Hk as Hk'. unfold port_key in Hk'.
  destruct (dict_lookup (lit "port") x) as [p|] eqn:Hp; [|discriminate].
  simpl. destruct (is_str board p) eqn:Hs.
  - destruct Hin as [->|Hin]; [reflexivity|].
    exfalso. apply Hnotin.
    destruct p as [| | |s| |]; simpl in Hs; try discriminate.
    apply eqb_eq in Hs. subst s.
    simpl in Hk'. injection Hk' as <-.
    rewrite Hk, <- Hkb. now apply in_map.
  - destruct Hin as [->|Hin].
    + rewrite Hport in Hp. injection Hp as <-.
      simpl in Hs. now rewrite eqb_refl in Hs.
    + apply IH; auto. intros y Hy. apply Hkeys. now right.
Qed.

Lemma list_boards_keys (env : Env) (boards : list pydict) :
  result (list_arduino_boards env) = Ret boards ->
  (forall x, In x boards -> exists k, port_key x = Some k)
  /\ NoDup (map port_key boards).
Proof.
  intros Hres.
  destruct (list_arduino_boards_split env boards Hres) as (all & _ & Hd).
  split.
  - intros x Hx. destruct (dedupe_fresh _ _ _ Hd x Hx) as (k & Hk & _).
    now exists k.
  - eapply dedupe_NoDup; eassumption.
Qed.

Lemma resolve_fqbn_lookup (env : Env) (board fqbn : pystr)
    (boards : list pydict) (b : pydict) :
  fqbn = [] \/ fqbn = lit "arduino:avr:uno" ->
  result (list_arduino_boards env) = Ret boards ->
  In b boards ->
  dict_lookup (lit "port") b = Some (PStr board) ->
  resolve_fqbn env board fqbn
  = (trace (list_arduino_boards env),
     Ret (match dict_lookup (lit "fqbn") b with
          | Some v => if truthy v then v else PStr fqbn
          | None => PStr fqbn
          end)).
Proof.
  intros Hdefault Hres Hin Hport.
  destruct (list_boards_keys env boards Hres) as [Hkeys Hnodup].
  pose proof (find_board_unique board boards b Hkeys Hnodup Hin Hport)
    as Hfind.
  unfold resolve_fqbn.
  assert (Hcond : is_empty fqbn || PyStr.eqb fqbn (lit "arduino:avr:uno")
                  = true).
  { destruct Hdefault as [-> | ->]; reflexivity. }
  rewrite Hcond.
  destruct (list_arduino_boards env) as [t r].
  unfold result in Hres. simpl in Hres. subst r.
  destruct b as [|entry entries]; [discriminate Hport|].
  unfold bind, liftO, ret, trace, fst. rewrite Hfind. cbv beta iota zeta.
  destruct (dict_lookup (lit "fqbn") (entry :: entries)) as [v|];
    [destruct (truthy v)|]; rewrite ?app_nil_r; reflexivity.
Qed.

(** X22: when the request leaves the FQBN empty or at the default and the
    record discovery returns for the port of the request has an [fqbn] that
    is not empty, [upload_code_endpoint] goes on with that FQBN. *)
Theorem resolve_fqbn_uses_discovered
    (env : Env) (board fqbn : pystr) (boards : list pydict) (b : pydict)
    (v : pyval) :
  fqbn = [] \/ fqbn = lit "arduino:avr:uno" ->
  result (list_arduino_boards env) = Ret boards ->
  In b boards ->
  dict_lookup (lit "port") b = Some (PStr board) ->
  dict_lookup (lit "fqbn") b = Some v ->
  truthy v = true ->
  result (resolve_fqbn env board fqbn) = Ret v
  /\ trace (resolve_fqbn env board fqbn) = trace (list_arduino_boards env).
Proof.
  intros Hdefault Hres Hin Hport Hfqbn Htruthy.
  rewrite (resolve_fqbn_lookup env board fqbn boards b Hdefault Hres Hin
             Hport).
  rewrite Hfqbn, Htruthy. split; reflexivity.
Qed.

(** X22 on a Mega that only the tool reports. *)
Lemma resolve_fqbn_uses_discovered_witness :
  result (resolve_fqbn env_mega_tool_only acm0 uno) = Ret (PStr mega)
  /\ trace (resolve_fqbn env_mega_tool_only acm0 uno)
     = trace (list_arduino_boards env_mega_tool_only).
Proof.
  apply (resolve_fqbn_uses_discovered env_mega_tool_only acm0 uno
           [ tool_record (PStr acm0)
                         (PStr (lit "Arduino Mega or Mega 2560"))
                         (PStr mega) (PStr (lit "serial")) ]
           (tool_record (PStr acm0)
                        (PStr (lit "Arduino Mega or Mega 2560"))
                        (PStr mega) (PStr (lit "serial")))).
  - right. reflexivity.
  - reflexivity.
  - left. reflexivity.
  - reflexivity.
  - reflexivity.
  - reflexivity.
Defined.

(** X23: a port that the USB heuristic takes for an Arduino keeps the FQBN
    of the request.  Its heuristic record is the one discovery returns for
    the port and has no [fqbn], so [upload_code_endpoint] goes on with the
    empty or default FQBN of the request, whatever FQBN the external tool
    reports for that port. *)
Theorem resolve_fqbn_shadowed_by_heuristic
    (env : Env) (board fqbn : pystr) (boards : list pydict)
    (port : ListPortInfo) :
  fqbn = [] \/ fqbn = lit "arduino:avr:uno" ->
  result (list_arduino_boards env) = Ret boards ->
  HAS_SERIAL env = true ->
  In port (comports env) ->
  is_arduino env port = true ->
  device port = board ->
  result (resolve_fqbn env board fqbn) = Ret (PStr fqbn).
Proof.
  intros Hdefault Hres Hserial Hport Harduino Hdev.
  destruct (list_arduino_boards_split env boards Hres) as (all & Hall & Hd).
  destruct (cli_detection_spec env _ _ Hall) as (tool & -> & _).
  assert (Hin : In (serial_record port) (heuristic_records env)).
  { unfold heuristic_records. rewrite Hserial.
    apply serial_records_in. exists port. auto. }
  destruct (first_with_key _ _ Hin) as (pre & y & post & Heq & Hy & Hpre).
  assert (Hyb : In y boards).
  { apply (dedupe_first_seen _ _ _ Hd y).
    exists pre, (post ++ tool), (HStr (device port)).
    repeat split.
    - rewrite Heq, <- app_assoc. reflexivity.
    - rewrite Hy. apply serial_record_port.
    - intros [].
    - rewrite <- (serial_record_port port). exact Hpre. }
  assert (Hyh : In y (heuristic_records env)).
  { rewrite Heq. apply in_elt. }
  unfold heuristic_records in Hyh. rewrite Hserial in Hyh.
  apply serial_records_in in Hyh as (q & _ & _ & ->).
  rewrite !serial_record_port in Hy. injection Hy as Hq.
  rewrite (resolve_fqbn_lookup env board fqbn boards (serial_record q)
             Hdefault Hres Hyb).
  - reflexivity.
  - transitivity (Some (PStr (device q))); [reflexivity|].
    now rewrite Hq, Hdev.
Qed.

(** X23 on a Mega that both sources report: the endpoint goes on with the
    Uno profile. *)
Lemma resolve_fqbn_shadowed_by_heuristic_witness :
  result (resolve_fqbn env_mega_both acm0 uno) = Ret (PStr uno).
Proof.
  apply (resolve_fqbn_shadowed_by_heuristic env_mega_both acm0 uno
           [serial_record uno_port] uno_port).
  - right. reflexivity.
  - reflexivity.
  - reflexivity.
  - left. reflexivity.
  - reflexivity.
  - reflexivity.
Defined.

(* ================================================================= *)
(** ** main.py: the agent tool deploy_code *)

Lemma sys_events_app (t1 t2 : list agent_event) :
  sys_events (t1 ++ t2) = sys_events t1 ++ sys_events t2.
Proof.
  induction t1 as [|[ev|msg|msg] t1 IH]; simpl; now rewrite ?IH.
Qed.

Lemma sys_events_map (t : list event) : sys_events (map Sys t) = t.
Proof. induction t as [|ev t IH]; simpl; now rewrite ?IH. Qed.

Lemma log_errors_app (t1 t2 : list agent_event) :
  log_errors (t1 ++ t2) = (log_errors t1 + log_errors t2)%nat.
Proof.
  induction t1 as [|[ev|msg|msg] t1 IH]; simpl; now rewrite ?IH.
Qed.

Lemma log_errors_map (t : list event) : log_errors (map Sys t) = 0%nat.
Proof. induction t as [|ev t IH]; simpl; now rewrite ?IH. Qed.

(** X24: the agent tool [deploy_code] of main.py against [deploy_code] of
    arduino_tools.py, for the same arguments.  The tool does the same to
    the outside world and raises what the function raises; its result has
    the same [success], [stage] and [error]; but a failure of the tool
    never carries [sketch_path], and a success carries [sketch_path] and no
    [port].  The tool logs one error line exactly when it returns a
    failure. *)
Theorem agent_deploy_code_mirrors_deploy_code
    (env : Env) (code port sketch_name board_fqbn : pystr) :
  let tool := agent_deploy_code env code port sketch_name board_fqbn in
  let deploy := deploy_code env code port sketch_name board_fqbn in
  sys_events (fst tool) = trace deploy
  /\ (forall e, result deploy = Raise e ->
                snd tool = Raise e /\ log_errors (fst tool) = 0%nat)
  /\ (forall d, result deploy = Ret d ->
        exists d',
          snd tool = Ret d'
          /\ dict_lookup (lit "success") d' = dict_lookup (lit "success") d
          /\ dict_lookup (lit "stage") d' = dict_lookup (lit "stage") d
          /\ dict_lookup (lit "error") d' = dict_lookup (lit "error") d
          /\ dict_lookup (lit "port") d' = None
          /\ (dict_lookup (lit "success") d = Some (PBool false) ->
              dict_lookup (lit "sketch_path") d' = None
              /\ log_errors (fst tool) = 1%nat)
          /\ (dict_lookup (lit "success") d = Some (PBool true) ->
              dict_lookup (lit "sketch_path") d'
              = dict_lookup (lit "sketch_path") d
              /\ log_errors (fst tool) = 0%nat)).
Proof.
  intros tool deploy. subst tool deploy.
  unfold agent_deploy_code, result, trace.
  destruct (write_sketch env code sketch_name) as [t1 [sketch_path|e]] eqn:Hw.
  2:{ rewrite (deploy_code_write_fails _ _ _ _ _ _ _ Hw). simpl.
      rewrite sys_events_app, sys_events_map, log_errors_app, log_errors_map.
      simpl. rewrite app_nil_r.
      split; [reflexivity|]. split; [discriminate|].
      intros d [= <-]. eexists. split; [reflexivity|].
      repeat split; try reflexivity; discriminate. }
  destruct (compile_sketch env sketch_path board_fqbn) as [t2 [cr|e]] eqn:Hc.
  2:{ rewrite (deploy_code_compile_raises _ _ _ _ _ _ _ _ _ Hw Hc).
      simpl. rewrite ?Hc. simpl.
      rewrite !sys_events_app, !sys_events_map, !log_errors_app,
        !log_errors_map.
      split; [reflexivity|]. split; [|discriminate].
      intros e0 [= <-]. split; reflexivity. }
  assert (Hop : operation_result cr).
  { apply (compile_sketch_operation_result env sketch_path board_fqbn).
    now rewrite Hc. }
  apply operation_result_inv in Hop as [[output ->]|(output & errors & ->)].
  2:{ rewrite (deploy_code_compile_fails _ _ _ _ _ _ _ _ _ _ Hw Hc).
      simpl. rewrite ?Hc. simpl.
      rewrite !sys_events_app, !sys_events_map, !log_errors_app,
        !log_errors_map.
      simpl. rewrite ?app_nil_r.
      split; [reflexivity|]. split; [discriminate|].
      intros d [= <-]. eexists. split; [reflexivity|].
      repeat split; try reflexivity; try discriminate; lia. }
  destruct (upload_sketch env sketch_path port board_fqbn)
    as [t3 [ur|e]] eqn:Hu.
  2:{ rewrite (deploy_code_upload_raises _ _ _ _ _ _ _ _ _ _ _ Hw Hc Hu).
      simpl. rewrite ?Hc. simpl. rewrite ?Hu. simpl.
      rewrite !sys_events_app, !sys_events_map, !log_errors_app,
        !log_errors_map.
      simpl. rewrite ?sys_events_map, ?log_errors_map, ?app_nil_r.
      split; [reflexivity|]. split; [|discriminate].
      intros e0 [= <-]. split; reflexivity. }
  assert (Hop : operation_result ur).
  { apply (upload_sketch_operation_result env sketch_path port board_fqbn).
    now rewrite Hu. }
  apply operation_result_inv in Hop as [[output' ->]|(output' & errors & ->)].
  - rewrite (deploy_code_succeeds _ _ _ _ _ _ _ _ _ _ _ Hw Hc Hu).
    simpl. rewrite ?Hc. simpl. rewrite ?Hu. simpl.
    rewrite !sys_events_app, !sys_events_map, !log_errors_app,
      !log_errors_map.
    simpl. rewrite ?sys_events_app, ?sys_events_map, ?log_errors_app,
      ?log_errors_map, ?app_nil_r. simpl. rewrite ?app_nil_r.
    split; [reflexivity|]. split; [discriminate|].
    intros d [= <-]. eexists. split; [reflexivity|].
    repeat split; try reflexivity; try discriminate; lia.
  - rewrite (deploy_code_upload_fails _ _ _ _ _ _ _ _ _ _ _ _ Hw Hc Hu).
    simpl. rewrite ?Hc. simpl. rewrite ?Hu. simpl.
    rewrite !sys_events_app, !sys_events_map, !log_errors_app,
      !log_errors_map.
    simpl. rewrite ?sys_events_app, ?sys_events_map, ?log_errors_app,
      ?log_errors_map, ?app_nil_r. simpl. rewrite ?app_nil_r.
    split; [reflexivity|]. split; [discriminate|].
    intros d [= <-]. eexists. split; [reflexivity|].
    repeat split; try reflexivity; try discriminate; lia.
Qed.


Lemma agent_deploy_code_mirrors_deploy_code_witness :
  sys_events (fst (agent_deploy_code env_compile_fails blink acm0 blink_name
                                     uno))
  = trace (deploy_code env_compile_fails blink acm0 blink_name uno)
  /\ dict_lookup (lit "sketch_path")
       (stage_failure (lit "compile") (PStr compiler_error) blink_folder)
     = Some (PStr blink_folder)
  /\ exists d',
       snd (agent_deploy_code env_compile_fails blink acm0 blink_name uno)
       = Ret d'
       /\ dict_lookup (lit "stage") d' = Some (PStr (lit "compile"))
       /\ dict_lookup (lit "error") d' = Some (PStr compiler_error)
       /\ dict_lookup (lit "sketch_path") d' = None.
Proof.
  destruct (agent_deploy_code_mirrors_deploy_code env_compile_fails blink
              acm0 blink_name uno) as (Ht & _ & Hd).
  split; [exact Ht|]. split; [reflexivity|].
  destruct (Hd (stage_failure (lit "compile") (PStr compiler_error)
                              blink_folder) eq_refl)
    as (d' & Hret & _ & Hstage & Herror & _ & Hfail & _).
  exists d'. split; [exact Hret|].
  split; [rewrite Hstage; reflexivity|].
  split; [rewrite Herror; reflexivity|].
  apply Hfail; reflexivity.
Defined.
